(** * compare_dacpacs: a shallow embedding of [tools/compare_dacpacs.py]

    The Python tool compares two extracted schema packages.  This file
    embeds the comparison core as Rocq functions over an explicit model of
    the values the Python code manipulates (ElementTree nodes, strings,
    [None], insertion-ordered dicts, sets, sorted lists) and proves the
    properties of the specification about them. *)

From Stdlib Require Import String Ascii List Bool Arith Lia.
From Stdlib Require Import Permutation.
Import ListNotations.

Set Warnings "-register-all".

Local Open Scope string_scope.
Local Open Scope list_scope.
Local Open Scope nat_scope.

Infix "+++" := String.append (at level 60, right associativity).

(** ** Python built-ins used by the tool *)

Module Py.

(** The double-quote character, written by its code point. *)
Definition dquote : ascii := ascii_of_nat 34.
Definition squote : ascii := ascii_of_nat 39.
Definition backslash : ascii := ascii_of_nat 92.

(** [str.isspace] on one ASCII character: TAB..CR, FS..US and the blank.
    Strings are byte strings here; whitespace outside ASCII is not
    recognised. *)
Definition is_space (c : ascii) : bool :=
  let n := nat_of_ascii c in
  ((9 <=? n) && (n <=? 13)) || ((28 <=? n) && (n <=? 32)).

Fixpoint lstrip (s : string) : string :=
  match s with
  | EmptyString => EmptyString
  | String c s' => if is_space c then lstrip s' else s
  end.

Fixpoint rstrip (s : string) : string :=
  match s with
  | EmptyString => EmptyString
  | String c s' =>
      match rstrip s' with
      | EmptyString => if is_space c then EmptyString else String c EmptyString
      | r => String c r
      end
  end.

Definition strip (s : string) : string := rstrip (lstrip s).

(** [sep.join(parts)] *)
Definition join (sep : string) (parts : list string) : string :=
  String.concat sep parts.

(** [s.startswith(p)] and [s[n:]] *)
Definition startswith (s p : string) : bool := String.prefix p s.

Fixpoint drop (n : nat) (s : string) : string :=
  match n, s with
  | O, _ => s
  | S n', String _ s' => drop n' s'
  | S _, EmptyString => EmptyString
  end.

(** [x or ""] for [x] a string or [None]. *)
Definition or_empty (o : option string) : string :=
  match o with Some s => s | None => "" end.

(** Formatting a string-or-[None] inside an f-string: [None] prints as
    the four letters None. *)
Definition fmt (o : option string) : string :=
  match o with Some s => s | None => "None" end.

(** Truth value of a string-or-[None]: [None] and the empty string are
    false. *)
Definition truthy (o : option string) : bool :=
  match o with
  | Some EmptyString => false
  | Some _ => true
  | None => false
  end.

(** Decimal rendering of a natural number, as [str(n)] and f-strings do. *)
Fixpoint digits (fuel n : nat) (acc : string) : string :=
  match fuel with
  | O => acc
  | S fuel' =>
      let acc' := String (ascii_of_nat (48 + n mod 10)) acc in
      if n / 10 =? 0 then acc' else digits fuel' (n / 10) acc'
  end.

Definition str_nat (n : nat) : string := digits (S n) n "".

(** [repr] of a string.  Python chooses single quotes unless the string
    holds a single quote and no double quote; it escapes the backslash,
    the chosen quote, TAB, LF, CR and the other control characters.
    Bytes above 127 are kept as they are (printable text). *)
Fixpoint contains (c : ascii) (s : string) : bool :=
  match s with
  | EmptyString => false
  | String d s' => Ascii.eqb c d || contains c s'
  end.

Definition hex_digit (n : nat) : ascii :=
  ascii_of_nat (if n <? 10 then 48 + n else 87 + n).

Definition repr_char (q c : ascii) : string :=
  let n := nat_of_ascii c in
  if Ascii.eqb c q || Ascii.eqb c backslash then String backslash (String c "")
  else if n =? 9 then String backslash "t"
  else if n =? 10 then String backslash "n"
  else if n =? 13 then String backslash "r"
  else if (n <? 32) || (n =? 127) then
    String backslash
      (String "x" (String (hex_digit (n / 16)) (String (hex_digit (n mod 16)) "")))
  else String c "".

Fixpoint repr_body (q : ascii) (s : string) : string :=
  match s with
  | EmptyString => EmptyString
  | String c s' => repr_char q c +++ repr_body q s'
  end.

Definition repr_str (s : string) : string :=
  let q := if contains squote s && negb (contains dquote s) then dquote else squote in
  String q (repr_body q s +++ String q "").

(** [repr] of a string-or-[None]. *)
Definition repr (o : option string) : string :=
  match o with Some s => repr_str s | None => "None" end.

(** *** Sorting

    [list.sort] and [sorted] are stable and use [<] only.  The model is the
    stable insertion sort: an element is placed in front of the first
    element that is not smaller than it. *)
Section Sorting.
Context {A : Type}.
Variable lt : A -> A -> bool.

Fixpoint insert (x : A) (l : list A) : list A :=
  match l with
  | [] => [x]
  | y :: l' => if lt y x then y :: insert x l' else x :: l
  end.

Fixpoint sorted (l : list A) : list A :=
  match l with
  | [] => []
  | x :: l' => insert x (sorted l')
  end.
End Sorting.

(** [sorted(l, key=f)] for string keys. *)
Definition sorted_by_key {A} (key : A -> string) (l : list A) : list A :=
  sorted (fun a b => String.ltb (key a) (key b)) l.

Definition sorted_str (l : list string) : list string := sorted String.ltb l.

(** Comparing values that may be [None] raises [TypeError] as soon as one
    side is [None].  A comparison that can raise returns [None] here. *)
Definition lt_opt (a b : option string) : option bool :=
  match a, b with
  | Some x, Some y => Some (String.ltb x y)
  | _, _ => None
  end.

Section PartialSorting.
Context {A : Type}.
Variable lt : A -> A -> option bool.

Definition comparable (x y : A) : bool :=
  match lt x y, lt y x with
  | Some _, Some _ => true
  | _, _ => false
  end.

Fixpoint all_comparable (l : list A) : bool :=
  match l with
  | [] => true
  | x :: l' => forallb (comparable x) l' && all_comparable l'
  end.

Definition total_lt (x y : A) : bool :=
  match lt x y with Some b => b | None => false end.

(** The sort of a list whose comparisons can raise.  Which pairs the
    interpreter compares depends on its sorting algorithm, so the model
    is cautious: it gives a result only when every two elements of the
    list can be compared, and then the result is the stable sort.  A
    list of fewer than two elements is never compared. *)
Definition sorted_partial (l : list A) : option (list A) :=
  if all_comparable l then Some (sorted total_lt l) else None.
End PartialSorting.

(** *** Sets

    A set is kept as a duplicate-free list in order of first insertion.
    The iteration order of a Python set is not specified; every use below
    either sorts the set, counts it or tests it for emptiness. *)
Section Sets.
Context {A : Type}.
Variable eqb : A -> A -> bool.

Definition mem (x : A) (s : list A) : bool := existsb (eqb x) s.

Definition add (x : A) (s : list A) : list A :=
  if mem x s then s else s ++ [x].

(** [set(l)] *)
Definition set_of (l : list A) : list A :=
  fold_left (fun s x => add x s) l [].

(** [a | b], [a - b], [a & b] *)
Definition union (a b : list A) : list A :=
  fold_left (fun s x => add x s) b a.
Definition diff (a b : list A) : list A :=
  filter (fun x => negb (mem x b)) a.
Definition inter (a b : list A) : list A :=
  filter (fun x => mem x b) a.
End Sets.

(** *** Dicts

    A dict is an association list in insertion order with unique keys:
    assigning to a key that is present replaces its value in place,
    assigning to a new key appends it. *)
Section Dicts.
Context {K V : Type}.
Variable eqb : K -> K -> bool.

Definition dict := list (K * V).

Fixpoint dget (k : K) (d : dict) : option V :=
  match d with
  | [] => None
  | (k', v) :: d' => if eqb k k' then Some v else dget k d'
  end.

Definition dmem (k : K) (d : dict) : bool :=
  match dget k d with Some _ => true | None => false end.

Fixpoint dset (k : K) (v : V) (d : dict) : dict :=
  match d with
  | [] => [(k, v)]
  | (k', v') :: d' => if eqb k k' then (k', v) :: d' else (k', v') :: dset k v d'
  end.

(** [d.pop(k, None)] keeps the dict without the key. *)
Fixpoint dpop (k : K) (d : dict) : dict :=
  match d with
  | [] => []
  | (k', v') :: d' => if eqb k k' then d' else (k', v') :: dpop k d'
  end.

Definition dkeys (d : dict) : list K := map fst d.
End Dicts.

Arguments dict : clear implicits.

End Py.

(** ** ElementTree nodes *)

(** A parsed XML node: its tag (with the namespace in braces, as
    ElementTree spells it), its attributes (a dict, keys unique), its text
    ([None] when the node has none) and its child nodes in document order. *)
Inductive element : Type :=
  Node (tag : string) (attrib : Py.dict string string)
       (text : option string) (children : list element).

Definition tag (e : element) : string := let (t, _, _, _) := e in t.
Definition attrib (e : element) : Py.dict string string := let (_, a, _, _) := e in a.
Definition text (e : element) : option string := let (_, _, x, _) := e in x.
Definition children (e : element) : list element := let (_, _, _, c) := e in c.

(** [elem.get(k)] and [elem.get(k, default)] *)
Definition get (e : element) (k : string) : option string :=
  Py.dget String.eqb k (attrib e).

Definition get_or (e : element) (k d : string) : string :=
  match get e k with Some v => v | None => d end.

(** [elem.findall(tag)] and [elem.find(tag)]: the children with that tag,
    and the first of them. *)
Definition findall (e : element) (t : string) : list element :=
  filter (fun c => String.eqb (tag c) t) (children e).

Definition find (e : element) (t : string) : option element :=
  List.find (fun c => String.eqb (tag c) t) (children e).

(** [elem.find("tag[@attr='value']")] *)
Definition find_with_attr (e : element) (t a v : string) : option element :=
  List.find
    (fun c => String.eqb (tag c) t &&
              match get c a with Some x => String.eqb x v | None => false end)
    (children e).

(** Equality on strings-or-[None]. *)
Definition ostr_eqb (a b : option string) : bool :=
  match a, b with
  | Some x, Some y => String.eqb x y
  | None, None => true
  | _, _ => false
  end.

(** ** The source, function by function *)

Definition NS : string :=
  "http://schemas.microsoft.com/sqlserver/dac/Serialization/2012/02".
Definition NS_BRACKET : string := "{" +++ NS +++ "}".

Definition strip_ns (t : string) : string :=
  if Py.startswith t NS_BRACKET then Py.drop (String.length NS_BRACKET) t else t.

Definition xml_to_canonical (elem : element) : string :=
  let parts := [strip_ns (tag elem)] in
  let parts :=
    parts ++ map (fun k => k +++ "=" +++ get_or elem k "")
                 (Py.sorted_str (Py.dkeys (attrib elem))) in
  let text := Py.strip (Py.or_empty (text elem)) in
  let parts :=
    if String.eqb text "" then parts else parts ++ ["text=" +++ text] in
  Py.join "|" parts.

(** The nested [flatten] of [compare_simple_xml].  The children are
    flattened first and then put in the order of their own canonical
    strings; [flatten_eq] below shows that this is the loop of the source,
    which sorts the children and then flattens each. *)
Fixpoint flatten (elem : element) (path : string) : list (string * string) :=
  let current := path +++ "/" +++ strip_ns (tag elem) in
  (current, xml_to_canonical elem)
    :: concat
         (map snd
            (Py.sorted_by_key fst
               (map (fun c => (xml_to_canonical c, flatten c current))
                    (let (_, _, _, cs) := elem in cs)))).

(** *** Identity keys *)

Definition get_ref_name (rel_elem : element) (rel_name : string) : option string :=
  match find_with_attr rel_elem (NS_BRACKET +++ "Relationship") "Name" rel_name with
  | None => None
  | Some rel =>
      match find rel (NS_BRACKET +++ "Entry") with
      | None => None
      | Some entry =>
          match find entry (NS_BRACKET +++ "References") with
          | Some ref => get ref "Name"
          | None => None
          end
      end
  end.

(** An element key is a Python tuple of one or two parts; the first part
    is the [Type] attribute, which [elem.get] leaves [None] when absent. *)
Inductive key : Type :=
  | Key1 (elem_type : option string)
  | Key2 (elem_type : option string) (discriminator : string).

Definition element_key (elem : element) : key :=
  let elem_type := get elem "Type" in
  match get elem "Name" with
  | Some name => Key2 elem_type name
  | None =>
      let defining_table := get_ref_name elem "DefiningTable" in
      let for_column := get_ref_name elem "ForColumn" in
      let defining_column := get_ref_name elem "DefiningColumn" in
      if Py.truthy defining_table && Py.truthy for_column then
        Key2 elem_type
          ("DefiningTable=" +++ Py.fmt defining_table +++
           ",ForColumn=" +++ Py.fmt for_column)
      else if Py.truthy defining_table && Py.truthy defining_column then
        Key2 elem_type
          ("DefiningTable=" +++ Py.fmt defining_table +++
           ",DefiningColumn=" +++ Py.fmt defining_column)
      else if Py.truthy defining_table then
        Key2 elem_type ("DefiningTable=" +++ Py.fmt defining_table)
      else Key1 elem_type
  end.

(** [element_display_key]: a one-part key displays as its part itself
    (which may be [None]), a two-part key as an f-string. *)
Definition element_display_key (k : key) : option string :=
  match k with
  | Key1 t => t
  | Key2 t d => Some (Py.fmt t +++ " " +++ d)
  end.

Definition key_eqb (a b : key) : bool :=
  match a, b with
  | Key1 t, Key1 u => ostr_eqb t u
  | Key2 t d, Key2 u e => ostr_eqb t u && String.eqb d e
  | _, _ => false
  end.

(** *** Properties, relationships, fingerprints, annotations *)

(** Property names and values are strings or [None]. *)
Definition props := Py.dict (option string) (option string).

(** The value of one [Property] node: its [Value] attribute, else the
    stripped text of its [Value] child, else [None]. *)
Definition property_value (prop : element) : option string :=
  match get prop "Value" with
  | Some v => Some v
  | None =>
      match find prop (NS_BRACKET +++ "Value") with
      | Some val_elem => Some (Py.strip (Py.or_empty (text val_elem)))
      | None => None
      end
  end.

Definition get_properties (elem : element) : props :=
  fold_left
    (fun props prop => Py.dset ostr_eqb (get prop "Name") (property_value prop) props)
    (findall elem (NS_BRACKET +++ "Property"))
    [].

(** The reference name of a [References] node, with its external source
    after an at sign when it has a non-empty one. *)
Definition ref_key (ref : element) : string :=
  let ref_key := get_or ref "Name" "" in
  if Py.truthy (get ref "ExternalSource")
  then ref_key +++ "@" +++ Py.fmt (get ref "ExternalSource")
  else ref_key.

(** [str(d)] of a property dict, in the order of the dict. *)
Definition str_props (d : props) : string :=
  "{" +++ Py.join ", " (map (fun kv => Py.repr (fst kv) +++ ": " +++ Py.repr (snd kv)) d)
      +++ "}".

Definition is_tag (t : string) (c : element) : bool :=
  String.eqb (tag c) (NS_BRACKET +++ t).

(** The first [Some] that [f] gives along a list: [find] followed by [f],
    written as one loop so that the recursion below is structural. *)
Fixpoint first_some {A B} (f : A -> option B) (l : list A) : option B :=
  match l with
  | [] => None
  | x :: l' => match f x with Some y => Some y | None => first_some f l' end
  end.

(** [inline_element_fingerprint].  The loops over [findall] are written
    as [flat_map] over the children with the tag test inside;
    [inline_element_fingerprint_eq] restates the definition with [findall]
    and [find] as in the source. *)
Fixpoint inline_element_fingerprint (elem : element) : string :=
  let type_part := get_or elem "Type" "" in
  let cs := let (_, _, _, cs) := elem in cs in
  let prop_parts :=
    flat_map
      (fun prop =>
         if is_tag "Property" prop then
           ["P:" +++ Py.fmt (get prop "Name") +++ "=" +++ Py.fmt (property_value prop)]
         else [])
      cs in
  let rel_parts :=
    flat_map
      (fun rel =>
         if is_tag "Relationship" rel then
           flat_map
             (fun entry =>
                if is_tag "Entry" entry then
                  match find entry (NS_BRACKET +++ "References") with
                  | Some ref =>
                      ["R:" +++ Py.fmt (get rel "Name") +++ "=" +++ ref_key ref]
                  | None =>
                      match
                        first_some
                          (fun inner =>
                             if is_tag "Element" inner
                             then Some (inline_element_fingerprint inner)
                             else None)
                          (let (_, _, _, ecs) := entry in ecs)
                      with
                      | Some fp =>
                          ["R:" +++ Py.fmt (get rel "Name") +++ "=(" +++ fp +++ ")"]
                      | None => []
                      end
                  end
                else [])
             (let (_, _, _, rcs) := rel in rcs)
         else [])
      cs in
  let ann_parts :=
    flat_map
      (fun ann =>
         if is_tag "AttachedAnnotation" ann then
           ["A:" +++ get_or ann "Type" "" +++ "=" +++
            str_props (Py.dpop ostr_eqb (Some "Disambiguator") (get_properties ann))]
         else [])
      cs in
  Py.join "|"
    ([type_part] ++ Py.sorted_str prop_parts ++ Py.sorted_str rel_parts
                 ++ Py.sorted_str ann_parts).

(** A relationship entry is the tuple of a kind and a string. *)
Definition entry : Type := string * string.

Definition entry_of (e : element) : list entry :=
  match find e (NS_BRACKET +++ "References") with
  | Some ref => [("ref", ref_key ref)]
  | None =>
      match find e (NS_BRACKET +++ "Element") with
      | Some inline => [("inline", inline_element_fingerprint inline)]
      | None => []
      end
  end.

Definition rels := Py.dict (option string) (list entry).

Definition get_relationships (elem : element) : rels :=
  fold_left
    (fun rels rel =>
       Py.dset ostr_eqb (get rel "Name")
         (flat_map entry_of (findall rel (NS_BRACKET +++ "Entry"))) rels)
    (findall elem (NS_BRACKET +++ "Relationship"))
    [].

(** An annotation of [get_annotations]: its type and its sorted items. *)
Definition item : Type := option string * option string.
Definition annotation : Type := string * list item.

Definition item_eqb (a b : item) : bool :=
  ostr_eqb (fst a) (fst b) && ostr_eqb (snd a) (snd b).

(** [a < b] on tuples and lists: the first position where the two differ
    decides; a proper prefix is smaller. *)
Definition lt_item (a b : item) : option bool :=
  if ostr_eqb (fst a) (fst b) then
    if ostr_eqb (snd a) (snd b) then Some false else Py.lt_opt (snd a) (snd b)
  else Py.lt_opt (fst a) (fst b).

Fixpoint lt_items (a b : list item) : option bool :=
  match a, b with
  | [], [] => Some false
  | [], _ :: _ => Some true
  | _ :: _, [] => Some false
  | x :: a', y :: b' => if item_eqb x y then lt_items a' b' else lt_item x y
  end.

Definition lt_annotation (a b : annotation) : option bool :=
  if String.eqb (fst a) (fst b) then lt_items (snd a) (snd b)
  else Some (String.ltb (fst a) (fst b)).

(** A small error monad: [None] is a raised exception. *)
Definition bind {A B} (m : option A) (f : A -> option B) : option B :=
  match m with Some x => f x | None => None end.

Notation "x <- m ;; k" := (bind m (fun x => k))
  (at level 61, m at next level, right associativity).

Fixpoint mapM {A B} (f : A -> option B) (l : list A) : option (list B) :=
  match l with
  | [] => Some []
  | x :: l' => y <- f x ;; ys <- mapM f l' ;; Some (y :: ys)
  end.

(** The tuple that [get_annotations] appends for one annotation node. *)
Definition annotation_of (ann : element) : option annotation :=
  let ann_type := get_or ann "Type" "" in
  let props := Py.dpop ostr_eqb (Some "Disambiguator") (get_properties ann) in
  items <- Py.sorted_partial lt_item props ;;
  Some (ann_type, items).

Definition get_annotations (elem : element) : option (list annotation) :=
  anns <- mapM annotation_of (findall elem (NS_BRACKET +++ "AttachedAnnotation")) ;;
  Py.sorted_partial lt_annotation anns.

(** *** The element differ *)

Fixpoint list_eqb {A} (eqb : A -> A -> bool) (a b : list A) : bool :=
  match a, b with
  | [], [] => true
  | x :: a', y :: b' => eqb x y && list_eqb eqb a' b'
  | _, _ => false
  end.

Definition entry_eqb (a b : entry) : bool :=
  String.eqb (fst a) (fst b) && String.eqb (snd a) (snd b).

Definition annotation_eqb (a b : annotation) : bool :=
  String.eqb (fst a) (fst b) && list_eqb item_eqb (snd a) (snd b).

(** [str] of the tuples that are put into sets. *)
Definition str_entry (e : entry) : string :=
  "(" +++ Py.repr_str (fst e) +++ ", " +++ Py.repr_str (snd e) +++ ")".

Definition str_item (i : item) : string :=
  "(" +++ Py.repr (fst i) +++ ", " +++ Py.repr (snd i) +++ ")".

Definition str_annotation (a : annotation) : string :=
  "(" +++ Py.repr_str (fst a) +++ ", [" +++ Py.join ", " (map str_item (snd a)) +++ "])".

(** A string between double quotes. *)
Definition quoted (s : string) : string :=
  String Py.dquote (s +++ String Py.dquote "").

(** [d.get(name)] on a property dict: [None] for an absent name and for
    a name recorded with [None]. *)
Definition prop_get (d : props) (name : option string) : option string :=
  match Py.dget ostr_eqb name d with Some v => v | None => None end.

(** The body of the property loop for one name. *)
Definition property_diff (props_a props_b : props) (name : option string)
  : list string :=
  let val_a := prop_get props_a name in
  let val_b := prop_get props_b name in
  if negb (ostr_eqb val_a val_b) then
    if negb (Py.dmem ostr_eqb name props_b) then
      ["    Property " +++ quoted (Py.fmt name) +++ ": missing in dotnet, rust="
         +++ quoted (Py.fmt val_a)]
    else if negb (Py.dmem ostr_eqb name props_a) then
      ["    Property " +++ quoted (Py.fmt name) +++ ": dotnet="
         +++ quoted (Py.fmt val_b) +++ ", missing in rust"]
    else
      ["    Property " +++ quoted (Py.fmt name) +++ ": dotnet="
         +++ quoted (Py.fmt val_b) +++ ", rust=" +++ quoted (Py.fmt val_a)]
  else [].

(** The sorted union of the key sets of two dicts with names as keys. *)
Definition all_names {V} (a b : Py.dict (option string) V)
  : option (list (option string)) :=
  Py.sorted_partial Py.lt_opt
    (Py.union ostr_eqb (Py.set_of ostr_eqb (Py.dkeys a))
                       (Py.set_of ostr_eqb (Py.dkeys b))).

Definition diff_properties (props_a props_b : props) : option (list string) :=
  all_prop_names <- all_names props_a props_b ;;
  Some (flat_map (property_diff props_a props_b) all_prop_names).

(** [d.get(name, [])] on a relationship dict. *)
Definition rel_get (d : rels) (name : option string) : list entry :=
  match Py.dget ostr_eqb name d with Some v => v | None => [] end.

(** The body of the relationship loop for one name. *)
Definition relationship_diff (rels_a rels_b : rels) (name : option string)
  : list string :=
  let entries_a := rel_get rels_a name in
  let entries_b := rel_get rels_b name in
  if negb (list_eqb entry_eqb entries_a entries_b) then
    if negb (Py.dmem ostr_eqb name rels_b) then
      ["    Relationship " +++ quoted (Py.fmt name) +++ ": missing in dotnet, rust has "
         +++ Py.str_nat (length entries_a) +++ " entries"]
    else if negb (Py.dmem ostr_eqb name rels_a) then
      ["    Relationship " +++ quoted (Py.fmt name) +++ ": dotnet has "
         +++ Py.str_nat (length entries_b) +++ " entries, missing in rust"]
    else
      let set_a := Py.set_of String.eqb (map str_entry entries_a) in
      let set_b := Py.set_of String.eqb (map str_entry entries_b) in
      let only_rust := Py.diff String.eqb set_a set_b in
      let only_dotnet := Py.diff String.eqb set_b set_a in
      match only_rust, only_dotnet with
      | [], [] => []
      | _, _ =>
          ["    Relationship " +++ quoted (Py.fmt name) +++ ": "
             +++ Py.str_nat (length only_dotnet) +++ " only in dotnet, "
             +++ Py.str_nat (length only_rust) +++ " only in rust"]
      end
  else [].

Definition diff_relationships (rels_a rels_b : rels) : option (list string) :=
  all_rel_names <- all_names rels_a rels_b ;;
  Some (flat_map (relationship_diff rels_a rels_b) all_rel_names).

(** The body of the loop over the annotation types. *)
Definition annotation_type_diff (anns_a anns_b : list annotation) (ann_type : string)
  : list string :=
  let rust_of_type := filter (fun a => String.eqb (fst a) ann_type) anns_a in
  let dotnet_of_type := filter (fun a => String.eqb (fst a) ann_type) anns_b in
  if negb (list_eqb annotation_eqb rust_of_type dotnet_of_type) then
    let count_info :=
      if negb (length rust_of_type =? length dotnet_of_type) then
        " (rust=" +++ Py.str_nat (length rust_of_type) +++ ", dotnet="
          +++ Py.str_nat (length dotnet_of_type) +++ ")"
      else "" in
    ["    Annotation " +++ quoted ann_type +++ ": differs" +++ count_info]
  else [].

Definition diff_annotations (anns_a anns_b : list annotation) : list string :=
  if negb (list_eqb annotation_eqb anns_a anns_b) then
    let set_a := Py.set_of String.eqb (map str_annotation anns_a) in
    let set_b := Py.set_of String.eqb (map str_annotation anns_b) in
    let only_rust := Py.diff String.eqb set_a set_b in
    let only_dotnet := Py.diff String.eqb set_b set_a in
    match only_rust, only_dotnet with
    | [], [] => []
    | _, _ =>
        let types_affected := Py.set_of String.eqb (map fst (anns_a ++ anns_b)) in
        flat_map (annotation_type_diff anns_a anns_b) (Py.sorted_str types_affected)
    end
  else [].

Definition diff_element (elem_a elem_b : element) : option (list string) :=
  prop_diffs <- diff_properties (get_properties elem_a) (get_properties elem_b) ;;
  rel_diffs <- diff_relationships (get_relationships elem_a) (get_relationships elem_b) ;;
  anns_a <- get_annotations elem_a ;;
  anns_b <- get_annotations elem_b ;;
  Some (prop_diffs ++ rel_diffs ++ diff_annotations anns_a anns_b).

(** *** Header and model comparison *)

Inductive status : Type := ok | different | missing_in_rust_status | missing_in_dotnet_status.

Definition status_eqb (a b : status) : bool :=
  match a, b with
  | ok, ok | different, different
  | missing_in_rust_status, missing_in_rust_status
  | missing_in_dotnet_status, missing_in_dotnet_status => true
  | _, _ => false
  end.

Definition pair_eqb (a b : string * string) : bool :=
  String.eqb (fst a) (fst b) && String.eqb (snd a) (snd b).

Definition pair_ltb (a b : string * string) : bool :=
  if String.eqb (fst a) (fst b) then String.ltb (snd a) (snd b)
  else String.ltb (fst a) (fst b).

(** [a == b] on dicts: the same keys with the same values, whatever the
    insertion order. *)
Definition dict_eqb {K V} (keqb : K -> K -> bool) (veqb : V -> V -> bool)
  (a b : Py.dict K V) : bool :=
  (length a =? length b) &&
  forallb
    (fun kv => match Py.dget keqb (fst kv) b with
               | Some v => veqb (snd kv) v
               | None => false
               end)
    a.

Definition metas := Py.dict string string.
Definition custom_data := Py.dict (string * string) metas.

Definition index_custom_data (header : option element) : custom_data :=
  match header with
  | None => []
  | Some header =>
      fold_left
        (fun result cd =>
           let key := (get_or cd "Category" "", get_or cd "Type" "") in
           let metas :=
             fold_left
               (fun metas m =>
                  Py.dset String.eqb (get_or m "Name" "") (get_or m "Value" "") metas)
               (findall cd (NS_BRACKET +++ "Metadata")) [] in
           Py.dset pair_eqb key metas result)
        (findall header (NS_BRACKET +++ "CustomData"))
        []
  end.

Definition header_key_diff (cd_a cd_b : custom_data) (key : string * string)
  : list string :=
  let label :=
    if negb (String.eqb (snd key) "")
    then "CustomData(" +++ fst key +++ ", " +++ snd key +++ ")"
    else "CustomData(" +++ fst key +++ ")" in
  match Py.dget pair_eqb key cd_b, Py.dget pair_eqb key cd_a with
  | None, _ => ["  " +++ label +++ ": missing in dotnet"]
  | Some _, None => ["  " +++ label +++ ": missing in rust"]
  | Some mb, Some ma =>
      if negb (dict_eqb String.eqb String.eqb ma mb) then
        let all_meta :=
          Py.sorted_str
            (Py.union String.eqb (Py.set_of String.eqb (Py.dkeys ma))
                                 (Py.set_of String.eqb (Py.dkeys mb))) in
        ("  " +++ label +++ ":")
          :: flat_map
               (fun mk =>
                  let va := Py.dget String.eqb mk ma in
                  let vb := Py.dget String.eqb mk mb in
                  if negb (ostr_eqb va vb) then
                    ["    " +++ mk +++ ": dotnet=" +++ quoted (Py.fmt vb)
                       +++ ", rust=" +++ quoted (Py.fmt va)]
                  else [])
               all_meta
      else []
  end.

Definition compare_header (header_a header_b : option element)
  : status * list string :=
  let cd_a := index_custom_data header_a in
  let cd_b := index_custom_data header_b in
  let all_keys :=
    Py.sorted pair_ltb
      (Py.union pair_eqb (Py.set_of pair_eqb (Py.dkeys cd_a))
                         (Py.set_of pair_eqb (Py.dkeys cd_b))) in
  let diffs := flat_map (header_key_diff cd_a cd_b) all_keys in
  match diffs with
  | [] => (ok, [])
  | _ => (different, diffs)
  end.

(** [index_elements]: the index and the list of keys met again. *)
Definition index_elements (model : element)
  : Py.dict key element * list key :=
  fold_left
    (fun st elem =>
       let '(index, duplicates) := st in
       let key := element_key elem in
       let duplicates :=
         if Py.dmem key_eqb key index then duplicates ++ [key] else duplicates in
       (Py.dset key_eqb key elem index, duplicates))
    (findall model (NS_BRACKET +++ "Element"))
    ([], []).

(** What is printed on the diagnostic stream for one side. *)
Definition duplicate_warning (side : string) (dupes : list key) : list string :=
  match dupes with
  | [] => []
  | _ =>
      ("WARNING: " +++ Py.str_nat (length dupes) +++ " duplicate keys in "
         +++ side +++ " model.xml")
        :: map (fun d => "  " +++ Py.fmt (element_display_key d)) (firstn 5 dupes)
  end.

Record elements_result : Type := {
  missing_in_rust : list key;
  extra_in_rust : list key;
  differences : list (key * list string);
  total_rust : nat;
  total_dotnet : nat
}.

Record model_result : Type := {
  header : status * list string;
  elements : elements_result
}.

(** [sorted(keys, key=element_display_key)]: display keys may be [None]. *)
Definition sorted_keys (keys : list key) : option (list key) :=
  Py.sorted_partial
    (fun a b => Py.lt_opt (element_display_key a) (element_display_key b)) keys.

(** The part of [compare_model_xml] that follows the indexing. *)
Definition compare_indexes (elems_a elems_b : Py.dict key element)
  : option elements_result :=
  let keys_a := Py.set_of key_eqb (Py.dkeys elems_a) in
  let keys_b := Py.set_of key_eqb (Py.dkeys elems_b) in
  missing <- sorted_keys (Py.diff key_eqb keys_b keys_a) ;;
  extra <- sorted_keys (Py.diff key_eqb keys_a keys_b) ;;
  common <- sorted_keys (Py.inter key_eqb keys_a keys_b) ;;
  differences <-
    mapM
      (fun key =>
         match Py.dget key_eqb key elems_a, Py.dget key_eqb key elems_b with
         | Some ea, Some eb =>
             diffs <- diff_element ea eb ;;
             Some (match diffs with [] => [] | _ => [(key, diffs)] end)
         | _, _ => None
         end)
      common ;;
  Some {| missing_in_rust := missing;
          extra_in_rust := extra;
          differences := concat differences;
          total_rust := length elems_a;
          total_dotnet := length elems_b |}.

(** [compare_model_xml] on the two parsed roots: the lines written to the
    diagnostic stream and the results.  A missing [Model] node makes
    [model.findall] raise. *)
Definition compare_model_xml (root_a root_b : element)
  : option (list string * model_result) :=
  let header_a := find root_a (NS_BRACKET +++ "Header") in
  let header_b := find root_b (NS_BRACKET +++ "Header") in
  let header := compare_header header_a header_b in
  model_a <- find root_a (NS_BRACKET +++ "Model") ;;
  model_b <- find root_b (NS_BRACKET +++ "Model") ;;
  let '(elems_a, dupes_a) := index_elements model_a in
  let '(elems_b, dupes_b) := index_elements model_b in
  let stderr := duplicate_warning "rust" dupes_a ++ duplicate_warning "dotnet" dupes_b in
  elements <- compare_indexes elems_a elems_b ;;
  Some (stderr, {| header := header; elements := elements |}).

(** *** The run *)

(** A file of an extracted package: the lines that [readlines] gives, and
    the root that [ET.parse] gives ([None] when the parser raises). *)
Record file : Type := { lines : list string; xml : option element }.

(** An extracted package: its top-level regular files by name. *)
Definition directory := Py.dict string file.

Definition exists_in (d : directory) (fname : string) : bool :=
  Py.dmem String.eqb fname d.

Definition list_files (d : directory) : list string :=
  Py.set_of String.eqb (Py.dkeys d).

Section Run.

(** [difflib.unified_diff(a, b, fromfile, tofile, n)] as a list; the
    library function is taken as given. *)
Variable unified_diff :
  list string -> list string -> string -> string -> nat -> list string.

Definition file_result : Type := option status * list string.

Definition compare_text_files (dir_a dir_b : directory) (fname : string)
  : file_result :=
  match Py.dget String.eqb fname dir_a, Py.dget String.eqb fname dir_b with
  | None, None => (None, [])
  | None, Some _ => (Some missing_in_rust_status, ["  File missing in rust dacpac"])
  | Some _, None => (Some missing_in_dotnet_status, ["  File missing in dotnet dacpac"])
  | Some fa, Some fb =>
      let lines_a := map Py.rstrip (lines fa) in
      let lines_b := map Py.rstrip (lines fb) in
      if list_eqb String.eqb lines_a lines_b then (Some ok, [])
      else (Some different, unified_diff lines_b lines_a "dotnet" "rust" 3)
  end.

Definition flat_eqb (a b : string * string) : bool :=
  String.eqb (fst a) (fst b) && String.eqb (snd a) (snd b).

(** The comparison of two parsed simple-XML roots. *)
Definition compare_flat (root_a root_b : element) : file_result :=
  let flat_a := flatten root_a "" in
  let flat_b := flatten root_b "" in
  if list_eqb flat_eqb flat_a flat_b then (Some ok, [])
  else
    let lines_a := map (fun pc => fst pc +++ ": " +++ snd pc) flat_a in
    let lines_b := map (fun pc => fst pc +++ ": " +++ snd pc) flat_b in
    (Some different, unified_diff lines_b lines_a "dotnet" "rust" 2).

Definition compare_simple_xml (dir_a dir_b : directory) (fname : string)
  : option file_result :=
  match Py.dget String.eqb fname dir_a, Py.dget String.eqb fname dir_b with
  | None, None => Some (None, [])
  | None, Some _ =>
      Some (Some missing_in_rust_status, ["  File missing in rust dacpac"])
  | Some _, None =>
      Some (Some missing_in_dotnet_status, ["  File missing in dotnet dacpac"])
  | Some fa, Some fb =>
      root_a <- xml fa ;;
      root_b <- xml fb ;;
      Some (compare_flat root_a root_b)
  end.

(** [file_results]: label to status and lines, in insertion order. *)
Definition file_results := Py.dict string (status * list string).

(** [if status is not None: file_results[fname] = (status, lines)] *)
Definition record_result (fname : string) (r : file_result) (fr : file_results)
  : file_results :=
  match fst r with
  | Some st => Py.dset String.eqb fname (st, snd r) fr
  | None => fr
  end.

Definition known_files : list string :=
  ["Origin.xml"; "DacMetadata.xml"; "[Content_Types].xml";
   "predeploy.sql"; "postdeploy.sql"; "model.xml"].

(** The exit-code computation at the end of [main]. *)
Definition has_diffs (fr : file_results) (model_results : option model_result)
  : bool :=
  existsb
    (fun entry =>
       negb (String.eqb (fst entry) "Origin.xml") &&
       negb (status_eqb (fst (snd entry)) ok))
    fr
  ||
  match model_results with
  | None => false
  | Some mr =>
      negb (status_eqb (fst (header mr)) ok)
      || match missing_in_rust (elements mr), extra_in_rust (elements mr),
               differences (elements mr) with
         | [], [], [] => false
         | _, _, _ => true
         end
  end.

Record run : Type := {
  stderr : list string;
  results : file_results;
  model : option model_result;
  exit_code : nat
}.

(** [main] on two extracted packages, block by block.  [None] is a run
    ended by an exception.  The report that [print_report] writes to
    the standard output is not part of the result. *)

(** Origin.xml is skipped; then the simple XML files and the text
    files. *)
Definition tracked_results (dir_a dir_b : directory) : option file_results :=
  let fr : file_results :=
    [("Origin.xml", (ok, ["(skipped - contains timestamps/GUIDs)"]))] in
  r1 <- compare_simple_xml dir_a dir_b "DacMetadata.xml" ;;
  let fr := record_result "DacMetadata.xml" r1 fr in
  r2 <- compare_simple_xml dir_a dir_b "[Content_Types].xml" ;;
  let fr := record_result "[Content_Types].xml" r2 fr in
  let fr := record_result "predeploy.sql"
              (compare_text_files dir_a dir_b "predeploy.sql") fr in
  let fr := record_result "postdeploy.sql"
              (compare_text_files dir_a dir_b "postdeploy.sql") fr in
  Some fr.

(** The loop over the unexpected files present on both sides. *)
Definition unknown_both_step (dir_a dir_b : directory)
  (fr : file_results) (fname : string) : file_results :=
  let r := compare_text_files dir_a dir_b fname in
  match fst r with
  | Some st =>
      if negb (status_eqb st ok) then Py.dset String.eqb fname (st, snd r) fr
      else fr
  | None => fr
  end.

(** The check for files not covered by the comparisons above. *)
Definition unexpected_results (dir_a dir_b : directory) (fr : file_results)
  : file_results :=
  let files_a := list_files dir_a in
  let files_b := list_files dir_b in
  let unknown_only_rust :=
    Py.sorted_str (Py.diff String.eqb (Py.diff String.eqb files_a files_b) known_files) in
  let unknown_only_dotnet :=
    Py.sorted_str (Py.diff String.eqb (Py.diff String.eqb files_b files_a) known_files) in
  let unknown_both :=
    Py.sorted_str (Py.diff String.eqb (Py.inter String.eqb files_a files_b) known_files) in
  let fr :=
    match unknown_only_rust with
    | [] => fr
    | _ => Py.dset String.eqb "(unexpected files)"
             (different, ["  Only in rust: " +++ Py.join ", " unknown_only_rust]) fr
    end in
  let fr :=
    match unknown_only_dotnet with
    | [] => fr
    | _ =>
        let label :=
          if negb (Py.dmem String.eqb "(unexpected files)" fr)
          then "(unexpected files)" else "(unexpected files in dotnet)" in
        Py.dset String.eqb label
          (different, ["  Only in dotnet: " +++ Py.join ", " unknown_only_dotnet]) fr
    end in
  fold_left (unknown_both_step dir_a dir_b) unknown_both fr.

(** model.xml: compared when both sides have it, else recorded as
    missing. *)
Definition model_stage (dir_a dir_b : directory) (fr : file_results)
  : option (list string * option model_result * file_results) :=
  match Py.dget String.eqb "model.xml" dir_a, Py.dget String.eqb "model.xml" dir_b with
  | Some fa, Some fb =>
      root_a <- xml fa ;;
      root_b <- xml fb ;;
      r <- compare_model_xml root_a root_b ;;
      Some (fst r, Some (snd r), fr)
  | None, _ =>
      Some ([], None,
            Py.dset String.eqb "model.xml"
              (missing_in_rust_status, ["  File missing in rust dacpac"]) fr)
  | Some _, None =>
      Some ([], None,
            Py.dset String.eqb "model.xml"
              (missing_in_dotnet_status, ["  File missing in dotnet dacpac"]) fr)
  end.

Definition main (dir_a dir_b : directory) : option run :=
  fr <- tracked_results dir_a dir_b ;;
  let fr := unexpected_results dir_a dir_b fr in
  mres <- model_stage dir_a dir_b fr ;;
  let '(err, model_results, fr) := mres in
  Some {| stderr := err;
          results := fr;
          model := model_results;
          exit_code := if has_diffs fr model_results then 1 else 0 |}.

End Run.

(** ** Definitions used in the statements *)

(** The elements of [l] are pairwise decided by the order [lt]. *)
Definition decided {A} (lt : A -> A -> bool) (l : list A) : Prop :=
  forall x y, In x l -> In y l -> lt x y = true \/ lt y x = true \/ x = y.




(** Every entry of the file results has status ok. *)
Definition all_ok (fr : file_results) : Prop :=
  forall label st ls, In (label, (st, ls)) fr -> st = ok.

(** The resolution order in the words of the specification: a
    relationship resolves when the lookup of its first reference gives a
    name. *)
Definition element_key_as_stated (elem : element) : key :=
  let elem_type := get elem "Type" in
  match get elem "Name" with
  | Some name => Key2 elem_type name
  | None =>
      match get_ref_name elem "DefiningTable",
            get_ref_name elem "ForColumn",
            get_ref_name elem "DefiningColumn" with
      | Some x, Some y, _ =>
          Key2 elem_type ("DefiningTable=" +++ x +++ ",ForColumn=" +++ y)
      | Some x, None, Some y =>
          Key2 elem_type ("DefiningTable=" +++ x +++ ",DefiningColumn=" +++ y)
      | Some x, None, None => Key2 elem_type ("DefiningTable=" +++ x)
      | None, _, _ => Key1 elem_type
      end
  end.

(** A resolved name that is not empty. *)
Definition nonempty (o : option string) : option string :=
  match o with
  | Some EmptyString => None
  | _ => o
  end.

(** The resolution order of the code: a relationship counts only when it
    resolves to a non-empty name. *)
Definition element_key_nonempty (elem : element) : key :=
  let elem_type := get elem "Type" in
  match get elem "Name" with
  | Some name => Key2 elem_type name
  | None =>
      match nonempty (get_ref_name elem "DefiningTable"),
            nonempty (get_ref_name elem "ForColumn"),
            nonempty (get_ref_name elem "DefiningColumn") with
      | Some x, Some y, _ =>
          Key2 elem_type ("DefiningTable=" +++ x +++ ",ForColumn=" +++ y)
      | Some x, None, Some y =>
          Key2 elem_type ("DefiningTable=" +++ x +++ ",DefiningColumn=" +++ y)
      | Some x, None, None => Key2 elem_type ("DefiningTable=" +++ x)
      | None, _, _ => Key1 elem_type
      end
  end.

(** A node in the namespace of the model document. *)
Definition mk (t : string) (attrs : Py.dict string string) (cs : list element)
  : element :=
  Node (NS_BRACKET +++ t) attrs None cs.

(** An unnamed constraint whose table reference has an empty name. *)
Definition empty_table_ref : element :=
  mk "Element" [("Type", "SqlDefaultConstraint")]
    [mk "Relationship" [("Name", "DefiningTable")]
       [mk "Entry" [] [mk "References" [("Name", "")] []]];
     mk "Relationship" [("Name", "ForColumn")]
       [mk "Entry" [] [mk "References" [("Name", "[dbo].[T].[c]")] []]]].

(** Two documents that differ only in the order of two sibling nodes.
    The siblings have the same canonical string (same tag, no attribute,
    no text) and different children. *)
Definition group (cs : list element) : element := Node "Group" [] None cs.
Definition leaf (t : string) : element := Node t [] None [].

Definition tied_doc : element :=
  Node "Root" [] None [group [leaf "First"]; group [leaf "Second"]].

Definition tied_doc_swapped : element :=
  Node "Root" [] None [group [leaf "Second"]; group [leaf "First"]].

Definition as_file (root : element) : file := {| lines := []; xml := Some root |}.

Definition property (name value : string) : element :=
  mk "Property" [("Name", name); ("Value", value)] [].

Definition annotated (ps : list element) : element :=
  mk "Element" [("Type", "SqlSimpleColumn")]
    [mk "AttachedAnnotation" [("Type", "SqlInlineConstraintAnnotation")] ps].

Definition inline_ab : element :=
  annotated [property "IsNullable" "False"; property "Length" "10"].

Definition inline_ba : element :=
  annotated [property "Length" "10"; property "IsNullable" "False"].

(** A [Property] node that carries neither a [Value] attribute nor a
    [Value] child. *)
Definition valueless (prop : element) : Prop :=
  get prop "Value" = None /\ find prop (NS_BRACKET +++ "Value") = None.

Definition valueless_side : element :=
  mk "Element" [("Type", "SqlTable"); ("Name", "[dbo].[T]")]
    [mk "Property" [("Name", "IsAnsiNullsOn")] [];
     property "IsMemoryOptimized" "True"].

Definition absent_side : element :=
  mk "Element" [("Type", "SqlTable"); ("Name", "[dbo].[T]")]
    [property "IsMemoryOptimized" "True"].

(** The entry that the relationship loop emits when the two sets differ. *)
Definition relationship_line (name : option string) (only_dotnet only_rust : nat)
  : string :=
  "    Relationship " +++ quoted (Py.fmt name) +++ ": "
    +++ Py.str_nat only_dotnet +++ " only in dotnet, "
    +++ Py.str_nat only_rust +++ " only in rust".

Definition reference (name : string) : element :=
  mk "Entry" [] [mk "References" [("Name", name)] []].

Definition table_with_columns (cols : list string) : element :=
  mk "Element" [("Type", "SqlTable"); ("Name", "[dbo].[T]")]
    [mk "Relationship" [("Name", "Columns")] (map reference cols)].

Definition three_same : element :=
  table_with_columns ["[dbo].[T].[a]"; "[dbo].[T].[a]"; "[dbo].[T].[a]"].

Definition one_only : element := table_with_columns ["[dbo].[T].[a]"].

Definition of_type (ann_type : string) (anns : list annotation) : list annotation :=
  filter (fun a => String.eqb (fst a) ann_type) anns.

(** The entry emitted for an annotation type: the count note is there
    exactly when the two sides have different numbers of annotations of
    the type. *)
Definition annotation_line (anns_a anns_b : list annotation) (ann_type : string)
  : string :=
  "    Annotation " +++ quoted ann_type +++ ": differs" +++
  (if length (of_type ann_type anns_a) =? length (of_type ann_type anns_b) then ""
   else " (rust=" +++ Py.str_nat (length (of_type ann_type anns_a)) +++ ", dotnet="
          +++ Py.str_nat (length (of_type ann_type anns_b)) +++ ")").

Definition types_differ (anns_a anns_b : list annotation) (ann_type : string) : bool :=
  negb (list_eqb annotation_eqb (of_type ann_type anns_a) (of_type ann_type anns_b)).

(** The annotation phase in the words of the specification: whenever the
    two lists are unequal, the types whose sublists differ are reported. *)
Definition diff_annotations_as_stated (anns_a anns_b : list annotation) : list string :=
  if negb (list_eqb annotation_eqb anns_a anns_b) then
    map (annotation_line anns_a anns_b)
      (filter (types_differ anns_a anns_b)
         (Py.sorted_str (Py.set_of String.eqb (map fst (anns_a ++ anns_b)))))
  else [].

Definition annotation_node (ann_type : string) (ps : list element) : element :=
  mk "AttachedAnnotation" [("Type", ann_type)] ps.

Definition element_with (cs : list element) : element :=
  mk "Element" [("Type", "SqlSimpleColumn"); ("Name", "[dbo].[T].[c]")] cs.

Definition twice : element :=
  element_with [annotation_node "SqlInlineConstraintAnnotation" [];
                annotation_node "SqlInlineConstraintAnnotation" []].

Definition once : element :=
  element_with [annotation_node "SqlInlineConstraintAnnotation" []].

Definition anns_left : list annotation :=
  [("SqlInlineConstraintAnnotation", [(Some "Kind", Some "1")]);
   ("SqlInlineIndexAnnotation", [])].

Definition anns_right : list annotation :=
  [("SqlInlineConstraintAnnotation", [(Some "Kind", Some "2")]);
   ("SqlInlineConstraintAnnotation", [(Some "Kind", Some "3")]);
   ("SqlInlineIndexAnnotation", [])].

Definition prop_part (prop : element) : string :=
  "P:" +++ Py.fmt (get prop "Name") +++ "=" +++ Py.fmt (property_value prop).

Definition entry_parts (rel_name : option string) (entry : element) : list string :=
  match find entry (NS_BRACKET +++ "References") with
  | Some ref => ["R:" +++ Py.fmt rel_name +++ "=" +++ ref_key ref]
  | None =>
      match find entry (NS_BRACKET +++ "Element") with
      | Some inner =>
          ["R:" +++ Py.fmt rel_name +++ "=(" +++ inline_element_fingerprint inner +++ ")"]
      | None => []
      end
  end.

Definition rel_parts (elem : element) : list string :=
  flat_map
    (fun rel =>
       flat_map (entry_parts (get rel "Name")) (findall rel (NS_BRACKET +++ "Entry")))
    (findall elem (NS_BRACKET +++ "Relationship")).

Definition ann_part (ann : element) : string :=
  "A:" +++ get_or ann "Type" "" +++ "=" +++
  str_props (Py.dpop ostr_eqb (Some "Disambiguator") (get_properties ann)).

(** A [Property] node that carries the disambiguator. *)
Definition is_disambiguator (c : element) : bool :=
  is_tag "Property" c && ostr_eqb (get c "Name") (Some "Disambiguator").

(** The children of an annotation without its disambiguator nodes. *)
Definition without_disambiguator (ann : element) : list element :=
  filter (fun c => negb (is_disambiguator c)) (children ann).

(** Two annotation nodes that are identical except for the value or the
    presence of the disambiguator property. *)
Definition same_but_disambiguator (a b : element) : Prop :=
  tag a = tag b /\ attrib a = attrib b /\ text a = text b /\
  without_disambiguator a = without_disambiguator b.

(** Two elements that are identical except for the disambiguators of
    their annotations: child by child, the same node, or two annotation
    nodes that differ in their disambiguator only. *)
Definition same_child (c c' : element) : Prop :=
  c = c' \/
  (is_tag "AttachedAnnotation" c = true /\ same_but_disambiguator c c').

Definition same_but_disambiguators (elem elem' : element) : Prop :=
  tag elem = tag elem' /\ attrib elem = attrib elem' /\ text elem = text elem' /\
  Forall2 same_child (children elem) (children elem').

Definition with_disambiguator (d : list element) : element :=
  element_with
    [property "IsNullable" "False";
     annotation_node "SqlInlineConstraintAnnotation"
       (property "Kind" "Default" :: d)].

(** The step of the loop of [index_elements]. *)
Definition index_step (st : Py.dict key element * list key) (elem : element)
  : Py.dict key element * list key :=
  let '(index, duplicates) := st in
  let key := element_key elem in
  let duplicates :=
    if Py.dmem key_eqb key index then duplicates ++ [key] else duplicates in
  (Py.dset key_eqb key elem index, duplicates).

(** The model with, for each key, only the element that the index keeps. *)
Definition dedup_model (model : element) : element :=
  Node (tag model) (attrib model) (text model)
       (map snd (fst (index_elements model))).

(** The document with its model deduplicated. *)
Fixpoint map_first {A} (p : A -> bool) (f : A -> A) (l : list A) : list A :=
  match l with
  | [] => []
  | x :: l' => if p x then f x :: l' else x :: map_first p f l'
  end.

Definition dedup_root (root : element) : element :=
  Node (tag root) (attrib root) (text root)
       (map_first (is_tag "Model") dedup_model (children root)).

Definition named (type name : string) (cs : list element) : element :=
  mk "Element" [("Type", type); ("Name", name)] cs.

Definition dup_model : element :=
  mk "Model" []
    [named "SqlTable" "[dbo].[T]" [property "IsAnsiNullsOn" "True"];
     named "SqlSchema" "[app]" [];
     named "SqlTable" "[dbo].[T]" [property "IsAnsiNullsOn" "False"]].

Definition dup_root : element :=
  mk "DataSchemaModel" [] [mk "Header" [] []; dup_model].

(** An extracted package without its model document. *)
Definition no_model : directory :=
  [("Origin.xml", as_file (Node "DacOrigin" [] None []));
   ("DacMetadata.xml",
    as_file (Node "DacType" [] None
               [Node "Name" [] (Some "Db") []; Node "Version" [] (Some "1.0.0.0") []]))].

(** The part of [has_diffs] that reads the file results. *)
Definition flagged (fr : Py.dict string (status * list string)) : bool :=
  existsb
    (fun entry =>
       negb (String.eqb (fst entry) "Origin.xml") &&
       negb (status_eqb (fst (snd entry)) ok))
    fr.

(** A difference recorded by a run: a file result other than Origin.xml
    with a status that is not ok, or a model comparison with a header
    that is not ok or with missing, extra or changed elements. *)
Definition recorded_difference (r : run) : Prop :=
  (exists label st ls,
      In (label, (st, ls)) (results r) /\ label <> "Origin.xml" /\ st <> ok) \/
  (exists mr,
      model r = Some mr /\
      (fst (header mr) <> ok \/
       missing_in_rust (elements mr) <> [] \/
       extra_in_rust (elements mr) <> [] \/
       differences (elements mr) <> [])).

(** A package with a model document, and the same package with a
    pre-deployment script. *)
Definition no_diff : list string -> list string -> string -> string -> nat -> list string :=
  fun _ _ _ _ _ => [].

Definition package : directory :=
  no_model ++ [("model.xml", as_file dup_root)].

Definition package_with_script : directory :=
  package ++ [("predeploy.sql", {| lines := ["PRINT 1"]; xml := None |})].

(** Two children that are the same node, or two [Relationship] nodes with
    the same attributes and the same entries in another order. *)
Definition same_entries (c c' : element) : Prop :=
  c = c' \/
  (is_tag "Relationship" c = true /\ tag c = tag c' /\ attrib c = attrib c' /\
   Permutation (children c) (children c')).

(** A package with the model of its model document deduplicated. *)
Definition dedup_file (f : file) : file :=
  {| lines := lines f; xml := option_map dedup_root (xml f) |}.

Definition dedup_directory (d : directory) : directory :=
  map (fun nf => if String.eqb (fst nf) "model.xml"
                 then (fst nf, dedup_file (snd nf)) else nf) d.

(** A run without what it wrote to the diagnostic stream. *)
Definition silent (r : run) : run :=
  {| stderr := []; results := results r; model := model r; exit_code := exit_code r |}.

(** ** Definitions for the further properties *)

(** A string of whitespace only. *)
Fixpoint all_space (s : string) : bool :=
  match s with
  | EmptyString => true
  | String c s' => Py.is_space c && all_space s'
  end.


(** A status seen from the other side. *)
Definition swap_status (s : status) : status :=
  match s with
  | missing_in_rust_status => missing_in_dotnet_status
  | missing_in_dotnet_status => missing_in_rust_status
  | ok => ok
  | different => different
  end.

(** Two lines that differ in their trailing whitespace only. *)
Definition same_but_trailing (la lb : string) : Prop :=
  exists s wa wb,
    la = s +++ wa /\ lb = s +++ wb /\ all_space wa = true /\ all_space wb = true.

(** A content-types document and the same document with its entries in
    another order. *)
Definition default_type (ext ctype : string) : element :=
  Node "Default" [("Extension", ext); ("ContentType", ctype)] None [].

Definition inline_column (cs : list element) : element :=
  mk "Element" [("Type", "SqlSimpleColumn")] cs.

Definition type_specifier (refs : list string) : element :=
  mk "Relationship" [("Name", "TypeSpecifier")] (map reference refs).

(** *** The report

    [print_report], as the list of the lines it prints, one for each call
    of [print]. *)

(** The block of one file result. *)
Definition print_file_block (entry : string * (status * list string)) : list string :=
  let '(label, (status, lines)) := entry in
  ["--- " +++ label +++ " ---"]
    ++ (if status_eqb status ok then ["OK (identical)"]
        else firstn 50 lines
               ++ (if 50 <? length lines
                   then ["  ... (" +++ Py.str_nat (length lines - 50) +++ " more lines)"]
                   else []))
    ++ [""].

(** The block of the missing or of the extra keys. *)
Definition print_keys (title : string) (keys : list key) : list string :=
  [title +++ " (" +++ Py.str_nat (length keys) +++ "):"]
    ++ match keys with
       | [] => ["  (none)"]
       | _ => map (fun k => "  " +++ Py.fmt (element_display_key k)) keys
       end
    ++ [""].

Definition print_model (mr : model_result) : list string :=
  let (h_status, h_lines) := header mr in
  let elems := elements mr in
  let missing := missing_in_rust elems in
  let extra := extra_in_rust elems in
  let diffs := differences elems in
  ["--- model.xml: Header ---"]
    ++ (if status_eqb h_status ok then ["OK (identical)"] else h_lines)
    ++ [""]
    ++ ["--- model.xml: Elements ---";
        "Total elements: rust=" +++ Py.str_nat (total_rust elems)
          +++ ", dotnet=" +++ Py.str_nat (total_dotnet elems);
        ""]
    ++ print_keys "Missing in rust" missing
    ++ print_keys "Extra in rust" extra
    ++ ["Differences (" +++ Py.str_nat (length diffs) +++ "):"]
    ++ match diffs with
       | [] => ["  (none)"]
       | _ =>
           flat_map
             (fun kd => ("  " +++ Py.fmt (element_display_key (fst kd)) +++ ":") :: snd kd)
             diffs
       end
    ++ [""]
    ++ ["Summary: " +++ Py.str_nat (length missing) +++ " missing, "
          +++ Py.str_nat (length extra) +++ " extra, "
          +++ Py.str_nat (length diffs) +++ " different"].

Definition print_report (fr : Py.dict string (status * list string))
  (model_results : option model_result) : list string :=
  ["=== Dacpac Comparison Report ==="; ""]
    ++ flat_map print_file_block fr
    ++ match model_results with
       | None => []
       | Some mr => print_model mr
       end.

(** An item with a name and a value. *)
Definition full_item (i : item) : Prop := fst i <> None /\ snd i <> None.

(** An element whose [Property] and [Relationship] children all have a
    Name, and whose annotations have only properties with a Name and a
    value. *)
Definition well_formed (elem : element) : Prop :=
  (forall prop, In prop (findall elem (NS_BRACKET +++ "Property")) ->
                get prop "Name" <> None) /\
  (forall rel, In rel (findall elem (NS_BRACKET +++ "Relationship")) ->
               get rel "Name" <> None) /\
  (forall ann prop,
     In ann (findall elem (NS_BRACKET +++ "AttachedAnnotation")) ->
     In prop (findall ann (NS_BRACKET +++ "Property")) ->
     get prop "Name" <> None /\ property_value prop <> None).

(** The metadata block of a header for a category and a type. *)
Definition header_block (h : option element) (key : string * string) : option metas :=
  Py.dget pair_eqb key (index_custom_data h).

(** Two blocks that are both absent, or both present with the same value
    for every metadata name. *)
Definition same_block (ma mb : option metas) : Prop :=
  match ma, mb with
  | None, None => True
  | Some ma, Some mb => forall mk, Py.dget String.eqb mk ma = Py.dget String.eqb mk mb
  | _, _ => False
  end.

(** The entry of Origin.xml, where there is one, has status ok. *)
Definition origin_ok (fr : Py.dict string (status * list string)) : Prop :=
  forall label st ls, In (label, (st, ls)) fr -> label = "Origin.xml" -> st = ok.

(** The block of the report for a file that compared as identical. *)
Definition ok_block (entry : string * (status * list string)) : list string :=
  ["--- " +++ fst entry +++ " ---"; "OK (identical)"; ""].

(** The part of the report on a model without any difference, with [n]
    elements on each side. *)
Definition clean_model_report (n : nat) : list string :=
  ["--- model.xml: Header ---"; "OK (identical)"; "";
   "--- model.xml: Elements ---";
   "Total elements: rust=" +++ Py.str_nat n +++ ", dotnet=" +++ Py.str_nat n; "";
   "Missing in rust (0):"; "  (none)"; "";
   "Extra in rust (0):"; "  (none)"; "";
   "Differences (0):"; "  (none)"; "";
   "Summary: 0 missing, 0 extra, 0 different"].

(** A table with a changed column among three against two. *)
Definition two_and_one : element :=
  table_with_columns ["[dbo].[T].[a]"; "[dbo].[T].[b]"; "[dbo].[T].[a]"].

Definition other_two : element :=
  table_with_columns ["[dbo].[T].[c]"; "[dbo].[T].[a]"].

(** ** Facts about the built-ins *)

Lemma ostr_eqb_spec (a b : option string) : reflect (a = b) (ostr_eqb a b).
Proof.
  destruct a as [x|], b as [y|]; simpl; try (constructor; congruence).
  destruct (String.eqb_spec x y); constructor; congruence.
Qed.

Lemma ostr_eqb_refl (a : option string) : ostr_eqb a a = true.
Proof. destruct (ostr_eqb_spec a a); congruence. Qed.

Lemma key_eqb_spec (a b : key) : reflect (a = b) (key_eqb a b).
Proof.
  destruct a as [t|t d], b as [u|u e]; simpl; try (constructor; congruence).
  - destruct (ostr_eqb_spec t u); constructor; congruence.
  - destruct (ostr_eqb_spec t u), (String.eqb_spec d e); simpl;
      constructor; congruence.
Qed.

Lemma list_eqb_spec {A} (eqb : A -> A -> bool)
  (H : forall x y, reflect (x = y) (eqb x y)) (a b : list A) :
  reflect (a = b) (list_eqb eqb a b).
Proof.
  revert b; induction a as [|x a IH]; intros [|y b]; simpl;
    try (constructor; congruence).
  destruct (H x y); simpl; [|constructor; congruence].
  destruct (IH b); constructor; congruence.
Qed.

Lemma item_eqb_spec (a b : item) : reflect (a = b) (item_eqb a b).
Proof.
  destruct a as [k v], b as [k' v']; unfold item_eqb; simpl.
  destruct (ostr_eqb_spec k k'), (ostr_eqb_spec v v'); simpl;
    constructor; congruence.
Qed.

Lemma entry_eqb_spec (a b : entry) : reflect (a = b) (entry_eqb a b).
Proof.
  destruct a as [k v], b as [k' v']; unfold entry_eqb; simpl.
  destruct (String.eqb_spec k k'), (String.eqb_spec v v'); simpl;
    constructor; congruence.
Qed.

Lemma annotation_eqb_spec (a b : annotation) : reflect (a = b) (annotation_eqb a b).
Proof.
  destruct a as [t l], b as [t' l']; unfold annotation_eqb; simpl.
  destruct (String.eqb_spec t t'); simpl; [|constructor; congruence].
  destruct (list_eqb_spec item_eqb item_eqb_spec l l'); constructor; congruence.
Qed.

Lemma list_eqb_refl {A} (eqb : A -> A -> bool)
  (H : forall x y, reflect (x = y) (eqb x y)) (a : list A) :
  list_eqb eqb a a = true.
Proof. destruct (list_eqb_spec eqb H a a); congruence. Qed.

(** *** The order on strings *)

Lemma ascii_compare_lt_trans (a b c : ascii) :
  Ascii.compare a b = Lt -> Ascii.compare b c = Lt -> Ascii.compare a c = Lt.
Proof.
  unfold Ascii.compare; rewrite !BinNat.N.compare_lt_iff.
  apply BinNat.N.lt_trans.
Qed.

Lemma string_compare_lt_trans (s1 s2 s3 : string) :
  String.compare s1 s2 = Lt -> String.compare s2 s3 = Lt ->
  String.compare s1 s3 = Lt.
Proof.
  revert s2 s3; induction s1 as [|a s1 IH]; intros [|b s2] [|c s3]; simpl;
    try congruence.
  destruct (Ascii.compare a b) eqn:Hab; try discriminate;
    destruct (Ascii.compare b c) eqn:Hbc; try discriminate; intros H1 H2.
  - apply Ascii.compare_eq_iff in Hab, Hbc; subst.
    destruct (Ascii.compare c c) eqn:Hcc; auto.
    + eapply IH; eauto.
    + unfold Ascii.compare in Hcc; rewrite BinNat.N.compare_refl in Hcc; discriminate.
  - apply Ascii.compare_eq_iff in Hab; subst. now rewrite Hbc.
  - apply Ascii.compare_eq_iff in Hbc; subst. now rewrite Hab.
  - now rewrite (ascii_compare_lt_trans _ _ _ Hab Hbc).
Qed.

Lemma string_compare_refl (s : string) : String.compare s s = Eq.
Proof.
  induction s as [|a s IH]; simpl; auto.
  unfold Ascii.compare; now rewrite BinNat.N.compare_refl.
Qed.

Lemma ltb_irrefl (s : string) : String.ltb s s = false.
Proof. unfold String.ltb; now rewrite string_compare_refl. Qed.

Lemma ltb_trans (a b c : string) :
  String.ltb a b = true -> String.ltb b c = true -> String.ltb a c = true.
Proof.
  unfold String.ltb; intros H1 H2.
  destruct (String.compare a b) eqn:E1; try discriminate.
  destruct (String.compare b c) eqn:E2; try discriminate.
  now rewrite (string_compare_lt_trans _ _ _ E1 E2).
Qed.

Lemma ltb_total (a b : string) :
  String.ltb a b = false -> String.ltb b a = false -> a = b.
Proof.
  unfold String.ltb; rewrite (String.compare_antisym b a).
  destruct (String.compare a b) eqn:E; simpl; try discriminate.
  intros _ _; now apply String.compare_eq_iff.
Qed.

Lemma ltb_asym (a b : string) : String.ltb a b = true -> String.ltb b a = false.
Proof.
  intros H; destruct (String.ltb b a) eqn:E; auto.
  pose proof (ltb_trans _ _ _ H E) as C; rewrite ltb_irrefl in C; discriminate.
Qed.

(** *** Stable insertion sort

    For a strict total order the sorted list depends on the elements
    only, not on their order in the input. *)
Section SortFacts.
Context {A : Type}.
Variable lt : A -> A -> bool.

Lemma insert_perm (x : A) (l : list A) : Permutation (x :: l) (Py.insert lt x l).
Proof.
  induction l as [|y l IH]; simpl; auto.
  destruct (lt y x); auto.
  eapply perm_trans; [apply perm_swap|]. now apply perm_skip.
Qed.

Lemma sorted_perm (l : list A) : Permutation l (Py.sorted lt l).
Proof.
  induction l as [|x l IH]; simpl; auto.
  eapply perm_trans; [|apply insert_perm]. now apply perm_skip.
Qed.

Lemma sorted_length (l : list A) : length (Py.sorted lt l) = length l.
Proof. symmetry; apply Permutation_length, sorted_perm. Qed.

Lemma sorted_in (x : A) (l : list A) : In x (Py.sorted lt l) <-> In x l.
Proof.
  split; apply Permutation_in; [symmetry|]; apply sorted_perm.
Qed.

(** Two insertions commute when the order decides between the two
    elements (or they are the same). *)
Hypothesis lt_trans : forall a b c, lt a b = true -> lt b c = true -> lt a c = true.
Hypothesis lt_irrefl : forall a, lt a a = false.
(** [lt] is a strict weak order: incomparability is transitive. *)
Hypothesis lt_neg_trans :
  forall a b c, lt a b = false -> lt b c = false -> lt a c = false.

Lemma insert_insert (x y : A) (l : list A) :
  (lt x y = true \/ lt y x = true \/ x = y) ->
  Py.insert lt x (Py.insert lt y l) = Py.insert lt y (Py.insert lt x l).
Proof.
  intros Hxy.
  assert (Hasym : forall a b, lt a b = true -> lt b a = false).
  { intros a b H; destruct (lt b a) eqn:E; auto.
    rewrite <- (lt_irrefl a); symmetry; eauto. }
  induction l as [|z l IH]; simpl.
  - destruct Hxy as [H|[H|H]].
    + now rewrite H, (Hasym _ _ H).
    + now rewrite H, (Hasym _ _ H).
    + now subst.
  - destruct (lt z y) eqn:Hzy, (lt z x) eqn:Hzx; simpl;
      rewrite ?Hzy, ?Hzx.
    + now rewrite IH.
    + (* x <= z < y *)
      assert (Hxy' : lt x y = true).
      { destruct (lt x y) eqn:E; auto. rewrite <- Hzy; symmetry; eauto. }
      now rewrite Hxy'; simpl; rewrite ?Hzy.
    + assert (Hyx : lt y x = true).
      { destruct (lt y x) eqn:E; auto. rewrite <- Hzx; symmetry; eauto. }
      now rewrite Hyx; simpl; rewrite ?Hzx.
    + destruct Hxy as [H|[H|H]].
      * now rewrite H, (Hasym _ _ H).
      * now rewrite H, (Hasym _ _ H).
      * now subst.
Qed.
End SortFacts.

Section SortPermutation.
Context {A : Type}.
Variable lt : A -> A -> bool.
Hypothesis lt_trans : forall a b c, lt a b = true -> lt b c = true -> lt a c = true.
Hypothesis lt_irrefl : forall a, lt a a = false.
Hypothesis lt_neg_trans :
  forall a b c, lt a b = false -> lt b c = false -> lt a c = false.

Lemma sorted_permutation (l l' : list A) :
  Permutation l l' -> decided lt l -> Py.sorted lt l = Py.sorted lt l'.
Proof.
  induction 1 as [|x l l' HP IH|x y l|l l' l'' HP1 IH1 HP2 IH2]; intros Hd; simpl.
  - reflexivity.
  - rewrite IH; [reflexivity|].
    intros a b Ha Hb; apply Hd; now right.
  - apply (insert_insert lt lt_trans lt_irrefl lt_neg_trans).
    destruct (Hd y x) as [H|[H|H]]; simpl; auto.
  - rewrite IH1 by assumption. apply IH2.
    intros a b Ha Hb;
      apply Hd; apply (Permutation_in _ (Permutation_sym HP1)); assumption.
Qed.
End SortPermutation.

Lemma ltb_neg_trans (a b c : string) :
  String.ltb a b = false -> String.ltb b c = false -> String.ltb a c = false.
Proof.
  intros H1 H2. destruct (String.ltb a c) eqn:E; auto.
  destruct (String.ltb b a) eqn:Eba.
  - rewrite (ltb_trans _ _ _ Eba E) in H2; discriminate.
  - pose proof (ltb_total _ _ H1 Eba) as Hab. subst b. congruence.
Qed.

(** Sorting strings forgets the order of the input. *)
Lemma sorted_str_permutation (l l' : list string) :
  Permutation l l' -> Py.sorted_str l = Py.sorted_str l'.
Proof.
  intros HP. unfold Py.sorted_str.
  apply (sorted_permutation String.ltb ltb_trans ltb_irrefl ltb_neg_trans l l' HP).
  intros x y _ _.
  destruct (String.ltb x y) eqn:E1; auto.
  destruct (String.ltb y x) eqn:E2; auto using ltb_total.
Qed.

(** ** Identity resolution (C1) *)

(** C1, as stated, fails: both relationships resolve (the table to the
    empty name), yet the key is the bare-type singleton and not the
    DefiningTable/ForColumn form. *)
Lemma element_key_empty_name_counterexample :
  get empty_table_ref "Name" = None /\
  get_ref_name empty_table_ref "DefiningTable" = Some "" /\
  get_ref_name empty_table_ref "ForColumn" = Some "[dbo].[T].[c]" /\
  element_key empty_table_ref = Key1 (Some "SqlDefaultConstraint") /\
  element_key_as_stated empty_table_ref =
    Key2 (Some "SqlDefaultConstraint") "DefiningTable=,ForColumn=[dbo].[T].[c]" /\
  element_key empty_table_ref <> element_key_as_stated empty_table_ref.
Proof. vm_compute. repeat split; discriminate. Qed.

(** C1, amended: [element_key] is a total function that resolves identity
    in the fixed order Name, DefiningTable+ForColumn,
    DefiningTable+DefiningColumn, DefiningTable alone, bare type, where a
    relationship counts as resolved when the name of the first reference
    of its first entry is present and not empty. *)
Theorem element_key_resolution (elem : element) :
  element_key elem = element_key_nonempty elem.
Proof.
  unfold element_key, element_key_nonempty.
  destruct (get elem "Name"); auto.
  destruct (get_ref_name elem "DefiningTable") as [[|a s]|];
    destruct (get_ref_name elem "ForColumn") as [[|b t]|];
    destruct (get_ref_name elem "DefiningColumn") as [[|c u]|];
    reflexivity.
Qed.

(** ** Simple-XML comparison and sibling order (C3) *)

(** C3 at the failing input: the second document is the first with its
    two top-level siblings exchanged; the first compares as identical with
    itself and as different with the second, so the order of siblings
    changes the reported status. *)
Theorem compare_simple_xml_sibling_order
  (unified_diff : list string -> list string -> string -> string -> nat -> list string) :
  tag tied_doc = tag tied_doc_swapped /\
  attrib tied_doc = attrib tied_doc_swapped /\
  text tied_doc = text tied_doc_swapped /\
  Permutation (children tied_doc) (children tied_doc_swapped) /\
  xml_to_canonical (group [leaf "First"]) = xml_to_canonical (group [leaf "Second"]) /\
  option_map fst
    (compare_simple_xml unified_diff
       [("DacMetadata.xml", as_file tied_doc)]
       [("DacMetadata.xml", as_file tied_doc)] "DacMetadata.xml")
    = Some (Some ok) /\
  option_map fst
    (compare_simple_xml unified_diff
       [("DacMetadata.xml", as_file tied_doc_swapped)]
       [("DacMetadata.xml", as_file tied_doc)] "DacMetadata.xml")
    = Some (Some different).
Proof.
  repeat split; try reflexivity.
  apply perm_swap.
Qed.

(** ** Fingerprints and serialization order (C4) *)

(** C4 at the failing input: two inline elements with the same type, no
    property, no relationship and one annotation with the same two
    properties, written in the two possible orders.  The element differ
    sees the same annotation on both (its items are sorted), the
    fingerprints differ: the annotation's property dict is printed in
    insertion order. *)
Theorem inline_element_fingerprint_annotation_order :
  get_annotations inline_ab = get_annotations inline_ba /\
  get_properties inline_ab = get_properties inline_ba /\
  get_relationships inline_ab = get_relationships inline_ba /\
  inline_element_fingerprint inline_ab =
    "SqlSimpleColumn|A:SqlInlineConstraintAnnotation={'IsNullable': 'False', 'Length': '10'}" /\
  inline_element_fingerprint inline_ba =
    "SqlSimpleColumn|A:SqlInlineConstraintAnnotation={'Length': '10', 'IsNullable': 'False'}" /\
  inline_element_fingerprint inline_ab <> inline_element_fingerprint inline_ba.
Proof.
  repeat split; try (vm_compute; reflexivity).
  vm_compute; discriminate.
Qed.

(** ** Facts about dicts *)

Lemma find_append {A} (f : A -> bool) (l1 l2 : list A) :
  List.find f (l1 ++ l2) =
  match List.find f l1 with Some x => Some x | None => List.find f l2 end.
Proof.
  induction l1 as [|x l1 IH]; simpl; auto. now destruct (f x).
Qed.

Section DictFacts.
Context {K V : Type}.
Variable eqb : K -> K -> bool.
Hypothesis eqb_spec : forall x y, reflect (x = y) (eqb x y).

Lemma eqb_refl' (k : K) : eqb k k = true.
Proof. destruct (eqb_spec k k); congruence. Qed.

Lemma dget_dset_same (k : K) (v : V) (d : Py.dict K V) :
  Py.dget eqb k (Py.dset eqb k v d) = Some v.
Proof.
  induction d as [|[k' v'] d IH]; simpl.
  - now rewrite eqb_refl'.
  - destruct (eqb k k') eqn:E; simpl; rewrite E; auto.
Qed.

Lemma dget_dset_other (k k' : K) (v : V) (d : Py.dict K V) :
  k <> k' -> Py.dget eqb k' (Py.dset eqb k v d) = Py.dget eqb k' d.
Proof.
  intros Hne. induction d as [|[k0 v0] d IH]; simpl.
  - destruct (eqb_spec k' k); congruence.
  - destruct (eqb_spec k k0); simpl.
    + subst k0. destruct (eqb_spec k' k); congruence.
    + destruct (eqb k' k0); auto.
Qed.

(** A dict built by successive assignments holds, for each key, the
    value of the last assignment to it. *)
Lemma dget_fold_dset {X} (kf : X -> K) (vf : X -> V) (l : list X)
  (d0 : Py.dict K V) (k : K) :
  Py.dget eqb k (fold_left (fun d x => Py.dset eqb (kf x) (vf x) d) l d0) =
  match List.find (fun x => eqb (kf x) k) (rev l) with
  | Some x => Some (vf x)
  | None => Py.dget eqb k d0
  end.
Proof.
  revert d0; induction l as [|x l IH]; intros d0; simpl; auto.
  rewrite IH, find_append.
  destruct (List.find (fun x0 => eqb (kf x0) k) (rev l)); auto.
  simpl. destruct (eqb_spec (kf x) k) as [->|Hne].
  - apply dget_dset_same.
  - now apply dget_dset_other.
Qed.

Lemma dmem_dget (k : K) (d : Py.dict K V) :
  Py.dmem eqb k d = true <-> exists v, Py.dget eqb k d = Some v.
Proof.
  unfold Py.dmem; destruct (Py.dget eqb k d); split; eauto; try discriminate.
  intros [v H]; discriminate.
Qed.
End DictFacts.

(** [get_properties] records, for each name, the value of the last
    [Property] node with that name. *)
Lemma get_properties_last (elem : element) (name : option string) :
  Py.dget ostr_eqb name (get_properties elem) =
  option_map property_value
    (List.find (fun prop => ostr_eqb (get prop "Name") name)
               (rev (findall elem (NS_BRACKET +++ "Property")))).
Proof.
  unfold get_properties.
  rewrite (dget_fold_dset ostr_eqb ostr_eqb_spec (fun p => get p "Name") property_value).
  now destruct (List.find _ _).
Qed.

(** ** A property without a value (C10) *)

Lemma valueless_value (prop : element) :
  valueless prop <-> property_value prop = None.
Proof.
  unfold valueless, property_value.
  destruct (get prop "Value"), (find prop (NS_BRACKET +++ "Value"));
    split; intros; try tauto; try discriminate; destruct H; discriminate.
Qed.

Lemma flat_map_skip {A B} (f : A -> list B) (p : A -> bool) (l : list A) :
  (forall x, In x l -> p x = false -> f x = []) ->
  flat_map f l = flat_map f (filter p l).
Proof.
  induction l as [|x l IH]; simpl; intros H; auto.
  destruct (p x) eqn:E; simpl.
  - f_equal; auto.
  - rewrite (H x); auto.
Qed.

(** C10: when the node that [get_properties] records for a name on one
    side (the last [Property] node with that name) has neither a [Value]
    attribute nor a [Value] child, and no [Property] node of the other
    side has that name, the name is recorded with [None] on the one side,
    is absent on the other, and the property loop of [diff_element] emits
    nothing for it, whichever side is which: the property phase is the
    same as if the name were skipped. *)
Theorem valueless_property_is_absent
  (elem_a elem_b : element) (name : option string) (prop : element) :
  List.find (fun p => ostr_eqb (get p "Name") name)
    (rev (findall elem_a (NS_BRACKET +++ "Property"))) = Some prop ->
  valueless prop ->
  (forall p, In p (findall elem_b (NS_BRACKET +++ "Property")) ->
             get p "Name" <> name) ->
  let props_a := get_properties elem_a in
  let props_b := get_properties elem_b in
  Py.dget ostr_eqb name props_a = Some None /\
  Py.dget ostr_eqb name props_b = None /\
  property_diff props_a props_b name = [] /\
  property_diff props_b props_a name = [] /\
  (forall names, all_names props_a props_b = Some names ->
     diff_properties props_a props_b =
     Some (flat_map (property_diff props_a props_b)
             (filter (fun n => negb (ostr_eqb n name)) names))) /\
  (forall names, all_names props_b props_a = Some names ->
     diff_properties props_b props_a =
     Some (flat_map (property_diff props_b props_a)
             (filter (fun n => negb (ostr_eqb n name)) names))).
Proof.
  intros Hlast Hval Habs props_a props_b.
  assert (Ha : Py.dget ostr_eqb name props_a = Some None).
  { unfold props_a. rewrite get_properties_last, Hlast. simpl.
    f_equal. now apply valueless_value. }
  assert (Hb : Py.dget ostr_eqb name props_b = None).
  { unfold props_b. rewrite get_properties_last.
    destruct (List.find (fun p => ostr_eqb (get p "Name") name)
                (rev (findall elem_b (NS_BRACKET +++ "Property"))))
      as [p|] eqn:E; auto.
    apply find_some in E as [Hin Hn].
    apply in_rev in Hin. apply Habs in Hin.
    destruct (ostr_eqb_spec (get p "Name") name); congruence. }
  assert (Hab : property_diff props_a props_b name = []).
  { unfold property_diff, prop_get. now rewrite Ha, Hb. }
  assert (Hba : property_diff props_b props_a name = []).
  { unfold property_diff, prop_get. now rewrite Ha, Hb. }
  repeat split; auto.
  - intros names Hn. unfold diff_properties. rewrite Hn. simpl. f_equal.
    apply flat_map_skip. intros n _ Hp.
    destruct (ostr_eqb_spec n name); try discriminate. now subst.
  - intros names Hn. unfold diff_properties. rewrite Hn. simpl. f_equal.
    apply flat_map_skip. intros n _ Hp.
    destruct (ostr_eqb_spec n name); try discriminate. now subst.
Qed.

Lemma valueless_property_is_absent_witness :
  property_diff (get_properties valueless_side) (get_properties absent_side)
    (Some "IsAnsiNullsOn") = [] /\
  diff_element valueless_side absent_side = Some [].
Proof.
  split; [|reflexivity].
  apply (valueless_property_is_absent valueless_side absent_side
           (Some "IsAnsiNullsOn") (mk "Property" [("Name", "IsAnsiNullsOn")] [])).
  - reflexivity.
  - split; reflexivity.
  - intros p [Hp|[]]; subst p; simpl; discriminate.
Defined.

(** ** Facts about sets *)

Section SetFacts.
Context {A : Type}.
Variable eqb : A -> A -> bool.
Hypothesis eqb_spec : forall x y, reflect (x = y) (eqb x y).

Lemma mem_In (x : A) (s : list A) : Py.mem eqb x s = true <-> In x s.
Proof.
  unfold Py.mem. rewrite existsb_exists. split.
  - intros [y [Hy E]]. destruct (eqb_spec x y); congruence.
  - intros H. exists x. split; auto. destruct (eqb_spec x x); congruence.
Qed.

Lemma mem_false (x : A) (s : list A) : Py.mem eqb x s = false <-> ~ In x s.
Proof.
  rewrite <- mem_In. destruct (Py.mem eqb x s); split; congruence.
Qed.

Lemma add_In (x y : A) (s : list A) : In y (Py.add eqb x s) <-> y = x \/ In y s.
Proof.
  unfold Py.add. destruct (Py.mem eqb x s) eqn:E.
  - apply mem_In in E. split; auto. intros [->|H]; auto.
  - rewrite in_app_iff; simpl. intuition.
Qed.

Lemma add_NoDup (x : A) (s : list A) : NoDup s -> NoDup (Py.add eqb x s).
Proof.
  intros H. unfold Py.add. destruct (Py.mem eqb x s) eqn:E; auto.
  apply mem_false in E.
  apply NoDup_rev in H. rewrite <- (rev_involutive (s ++ [x])).
  apply NoDup_rev. rewrite rev_app_distr. simpl.
  constructor; auto. now rewrite <- in_rev.
Qed.

Lemma fold_add_In (l s : list A) (y : A) :
  In y (fold_left (fun s x => Py.add eqb x s) l s) <-> In y l \/ In y s.
Proof.
  revert s; induction l as [|x l IH]; intros s; simpl.
  - tauto.
  - rewrite IH, add_In. intuition.
Qed.

Lemma fold_add_NoDup (l s : list A) :
  NoDup s -> NoDup (fold_left (fun s x => Py.add eqb x s) l s).
Proof.
  revert s; induction l as [|x l IH]; intros s H; simpl; auto using add_NoDup.
Qed.

Lemma set_of_In (l : list A) (y : A) : In y (Py.set_of eqb l) <-> In y l.
Proof. unfold Py.set_of. rewrite fold_add_In. simpl. tauto. Qed.

Lemma set_of_NoDup (l : list A) : NoDup (Py.set_of eqb l).
Proof. apply fold_add_NoDup. constructor. Qed.

Lemma union_In (a b : list A) (y : A) :
  In y (Py.union eqb a b) <-> In y a \/ In y b.
Proof. unfold Py.union. rewrite fold_add_In. tauto. Qed.

Lemma union_NoDup (a b : list A) : NoDup a -> NoDup (Py.union eqb a b).
Proof. apply fold_add_NoDup. Qed.

Lemma diff_In (a b : list A) (y : A) :
  In y (Py.diff eqb a b) <-> In y a /\ ~ In y b.
Proof.
  unfold Py.diff. rewrite filter_In, negb_true_iff, mem_false. tauto.
Qed.

Lemma inter_In (a b : list A) (y : A) :
  In y (Py.inter eqb a b) <-> In y a /\ In y b.
Proof. unfold Py.inter. rewrite filter_In, mem_In. tauto. Qed.

Lemma diff_NoDup (a b : list A) : NoDup a -> NoDup (Py.diff eqb a b).
Proof. apply NoDup_filter. Qed.

Lemma inter_NoDup (a b : list A) : NoDup a -> NoDup (Py.inter eqb a b).
Proof. apply NoDup_filter. Qed.

Lemma diff_self (a : list A) : Py.diff eqb a a = [].
Proof.
  destruct (Py.diff eqb a a) as [|x l] eqn:E; auto.
  assert (H : In x (Py.diff eqb a a)) by (rewrite E; now left).
  apply diff_In in H. tauto.
Qed.
End SetFacts.

Lemma no_member_nil {A} (l : list A) : (forall x, ~ In x l) -> l = [].
Proof. destruct l as [|x l]; auto. intros H. destruct (H x). now left. Qed.

(** ** Relationship entries are compared as sets (C6) *)

(** The body of the relationship loop, for a name present on both sides,
    depends only on the two sets of string forms of the entries.  With
    [only_rust] and [only_dotnet] the duplicate-free lists of the string
    forms exclusive to each side, the body gives nothing when both are
    empty and one entry with their two lengths otherwise. *)
Lemma relationship_diff_sets
  (rels_a rels_b : rels) (name : option string) :
  Py.dmem ostr_eqb name rels_a = true ->
  Py.dmem ostr_eqb name rels_b = true ->
  let strs_a := map str_entry (rel_get rels_a name) in
  let strs_b := map str_entry (rel_get rels_b name) in
  exists only_rust only_dotnet : list string,
    NoDup only_rust /\ NoDup only_dotnet /\
    (forall s, In s only_rust <-> In s strs_a /\ ~ In s strs_b) /\
    (forall s, In s only_dotnet <-> In s strs_b /\ ~ In s strs_a) /\
    relationship_diff rels_a rels_b name =
      match only_rust, only_dotnet with
      | [], [] => []
      | _, _ => [relationship_line name (length only_dotnet) (length only_rust)]
      end /\
    ((forall s, In s strs_a <-> In s strs_b) ->
       relationship_diff rels_a rels_b name = []) /\
    (Permutation (rel_get rels_a name) (rel_get rels_b name) ->
       relationship_diff rels_a rels_b name = []) /\
    (~ (forall s, In s strs_a <-> In s strs_b) ->
       relationship_diff rels_a rels_b name =
         [relationship_line name (length only_dotnet) (length only_rust)]).
Proof.
  intros Ha Hb strs_a strs_b.
  set (set_a := Py.set_of String.eqb strs_a).
  set (set_b := Py.set_of String.eqb strs_b).
  exists (Py.diff String.eqb set_a set_b), (Py.diff String.eqb set_b set_a).
  assert (Hr : forall s, In s (Py.diff String.eqb set_a set_b) <->
                         In s strs_a /\ ~ In s strs_b).
  { intros s. unfold set_a, set_b.
    rewrite (diff_In _ String.eqb_spec), !(set_of_In _ String.eqb_spec). tauto. }
  assert (Hd : forall s, In s (Py.diff String.eqb set_b set_a) <->
                         In s strs_b /\ ~ In s strs_a).
  { intros s. unfold set_a, set_b.
    rewrite (diff_In _ String.eqb_spec), !(set_of_In _ String.eqb_spec). tauto. }
  assert (Heq : relationship_diff rels_a rels_b name =
                match Py.diff String.eqb set_a set_b, Py.diff String.eqb set_b set_a with
                | [], [] => []
                | _, _ =>
                    [relationship_line name
                       (length (Py.diff String.eqb set_b set_a))
                       (length (Py.diff String.eqb set_a set_b))]
                end).
  { unfold relationship_diff. rewrite Ha, Hb. simpl.
    destruct (list_eqb_spec entry_eqb entry_eqb_spec
                (rel_get rels_a name) (rel_get rels_b name)) as [E|E]; simpl.
    - assert (E' : set_a = set_b) by (unfold set_a, set_b, strs_a, strs_b; now rewrite E).
      rewrite E'. now rewrite (diff_self _ String.eqb_spec).
    - reflexivity. }
  assert (Hsame : (forall s, In s strs_a <-> In s strs_b) ->
                  relationship_diff rels_a rels_b name = []).
  { intros Hs. rewrite Heq.
    rewrite (no_member_nil (Py.diff String.eqb set_a set_b)),
            (no_member_nil (Py.diff String.eqb set_b set_a)); auto.
    - intros s H. apply Hd in H. rewrite Hs in H. tauto.
    - intros s H. apply Hr in H. rewrite Hs in H. tauto. }
  repeat split; try apply Hr; try apply Hd; auto.
  - apply diff_NoDup, set_of_NoDup, String.eqb_spec.
  - apply diff_NoDup, set_of_NoDup, String.eqb_spec.
  - intros HP. apply Hsame. intros s. unfold strs_a, strs_b.
    split; apply Permutation_in, Permutation_map; auto using Permutation_sym.
  - intros Hne. rewrite Heq.
    destruct (Py.diff String.eqb set_a set_b) as [|x l] eqn:E1; auto.
    destruct (Py.diff String.eqb set_b set_a) as [|y l'] eqn:E2; auto.
    exfalso. apply Hne. intros s.
    destruct (in_dec string_dec s strs_a) as [Ia|Ia],
             (in_dec string_dec s strs_b) as [Ib|Ib]; try tauto.
    + destruct (proj2 (Hr s)); auto.
    + destruct (proj2 (Hd s)); auto.
Qed.

(** A changed entry among three against two: one exclusive to each side. *)
Example relationship_diff_counts :
  diff_element
    (table_with_columns ["[dbo].[T].[a]"; "[dbo].[T].[b]"; "[dbo].[T].[a]"])
    (table_with_columns ["[dbo].[T].[c]"; "[dbo].[T].[a]"])
  = Some [relationship_line (Some "Columns") 1 1].
Proof. reflexivity. Qed.

(** ** The annotation phase (C5) *)

(** C5, as stated, fails: one annotation twice on one side and once on
    the other.  The sorted lists are unequal and the sublists of the type
    differ (two against one), yet nothing is reported, because the two
    sets of string forms are the same. *)
Lemma diff_annotations_multiplicity_counterexample :
  get_annotations twice =
    Some [("SqlInlineConstraintAnnotation", []); ("SqlInlineConstraintAnnotation", [])] /\
  get_annotations once = Some [("SqlInlineConstraintAnnotation", [])] /\
  get_annotations twice <> get_annotations once /\
  diff_annotations_as_stated
    [("SqlInlineConstraintAnnotation", []); ("SqlInlineConstraintAnnotation", [])]
    [("SqlInlineConstraintAnnotation", [])]
  = ["    Annotation " +++ quoted "SqlInlineConstraintAnnotation"
       +++ ": differs (rust=2, dotnet=1)"] /\
  diff_annotations
    [("SqlInlineConstraintAnnotation", []); ("SqlInlineConstraintAnnotation", [])]
    [("SqlInlineConstraintAnnotation", [])] = [] /\
  diff_element twice once = Some [].
Proof. repeat split; try reflexivity. vm_compute. discriminate. Qed.

Lemma flat_map_if {A B} (p : A -> bool) (f : A -> B) (l : list A) :
  flat_map (fun x => if p x then [f x] else []) l = map f (filter p l).
Proof.
  induction l as [|x l IH]; simpl; auto.
  destruct (p x); simpl; now rewrite IH.
Qed.

(** C5, amended: whenever the two sorted annotation lists are unequal and
    some annotation's string form occurs on one side only, the annotation
    phase reports exactly the annotation types whose per-type sublists
    differ, once each and in sorted order, each with a count note exactly
    when the two sides have different numbers of annotations of that type. *)
Theorem diff_annotations_reports_differing_types (anns_a anns_b : list annotation) :
  anns_a <> anns_b ->
  (exists s,
      (In s (map str_annotation anns_a) /\ ~ In s (map str_annotation anns_b)) \/
      (In s (map str_annotation anns_b) /\ ~ In s (map str_annotation anns_a))) ->
  let types := Py.sorted_str (Py.set_of String.eqb (map fst (anns_a ++ anns_b))) in
  diff_annotations anns_a anns_b =
    map (annotation_line anns_a anns_b) (filter (types_differ anns_a anns_b) types) /\
  NoDup types /\
  (forall t, of_type t anns_a <> of_type t anns_b -> In t types) /\
  (forall t, types_differ anns_a anns_b t = true <->
             of_type t anns_a <> of_type t anns_b).
Proof.
  intros Hne [s Hs] types. repeat split.
  - unfold diff_annotations.
    destruct (list_eqb_spec annotation_eqb annotation_eqb_spec anns_a anns_b);
      [contradiction|]. simpl.
    set (set_a := Py.set_of String.eqb (map str_annotation anns_a)).
    set (set_b := Py.set_of String.eqb (map str_annotation anns_b)).
    assert (Hnonempty : Py.diff String.eqb set_a set_b <> [] \/
                        Py.diff String.eqb set_b set_a <> []).
    { destruct Hs as [[H1 H2]|[H1 H2]]; [left|right]; intros E;
        assert (Hin : In s []) by
          (rewrite <- E; apply (diff_In _ String.eqb_spec);
           unfold set_a, set_b; rewrite !(set_of_In _ String.eqb_spec); auto);
        destruct Hin. }
    assert (Hbody :
              flat_map (annotation_type_diff anns_a anns_b) types =
              map (annotation_line anns_a anns_b)
                  (filter (types_differ anns_a anns_b) types)).
    { rewrite <- flat_map_if. apply flat_map_ext. intros t.
      unfold annotation_type_diff, types_differ, annotation_line, of_type.
      destruct (negb (list_eqb annotation_eqb _ _)); auto.
      destruct (length _ =? length _); reflexivity. }
    fold types. rewrite Hbody.
    destruct (Py.diff String.eqb set_a set_b), (Py.diff String.eqb set_b set_a);
      auto.
    destruct Hnonempty; congruence.
  - unfold types, Py.sorted_str.
    eapply Permutation_NoDup; [apply sorted_perm|].
    apply set_of_NoDup, String.eqb_spec.
  - intros t Ht. unfold types, Py.sorted_str.
    apply sorted_in, (set_of_In _ String.eqb_spec).
    assert (Hex : exists a, In a (anns_a ++ anns_b) /\ fst a = t).
    { unfold of_type in Ht.
      destruct (filter (fun a => String.eqb (fst a) t) anns_a) as [|a l] eqn:Ea.
      - destruct (filter (fun a => String.eqb (fst a) t) anns_b) as [|b l] eqn:Eb;
          [congruence|].
        assert (Hb : In b (filter (fun a => String.eqb (fst a) t) anns_b))
          by (rewrite Eb; now left).
        apply filter_In in Hb as [Hb1 Hb2]. apply String.eqb_eq in Hb2.
        exists b. rewrite in_app_iff. auto.
      - assert (Ha : In a (filter (fun a => String.eqb (fst a) t) anns_a))
          by (rewrite Ea; now left).
        apply filter_In in Ha as [Ha1 Ha2]. apply String.eqb_eq in Ha2.
        exists a. rewrite in_app_iff. auto. }
    destruct Hex as [a [Hin Hfst]]. rewrite <- Hfst. now apply in_map.
  - unfold types_differ.
    destruct (list_eqb_spec annotation_eqb annotation_eqb_spec
                (of_type t anns_a) (of_type t anns_b)); simpl; congruence.
  - unfold types_differ.
    destruct (list_eqb_spec annotation_eqb annotation_eqb_spec
                (of_type t anns_a) (of_type t anns_b)); simpl; congruence.
Qed.

Lemma diff_annotations_reports_differing_types_witness :
  diff_annotations anns_left anns_right =
    ["    Annotation " +++ quoted "SqlInlineConstraintAnnotation"
       +++ ": differs (rust=1, dotnet=2)"].
Proof.
  assert (Hne : anns_left <> anns_right) by discriminate.
  assert (Hex : exists s,
             (In s (map str_annotation anns_left) /\
              ~ In s (map str_annotation anns_right)) \/
             (In s (map str_annotation anns_right) /\
              ~ In s (map str_annotation anns_left))).
  { exists (str_annotation ("SqlInlineConstraintAnnotation", [(Some "Kind", Some "1")])).
    left. split; [now left|].
    vm_compute. intros [H|[H|[H|[]]]]; discriminate. }
  destruct (diff_annotations_reports_differing_types anns_left anns_right Hne Hex)
    as [H _].
  exact H.
Defined.

(** ** The fingerprint, loop by loop *)

Lemma flat_map_filter {A B} (p : A -> bool) (f : A -> list B) (l : list A) :
  flat_map (fun x => if p x then f x else []) l = flat_map f (filter p l).
Proof.
  induction l as [|x l IH]; simpl; auto.
  destruct (p x); simpl; now rewrite IH.
Qed.

Lemma first_some_find {A B} (p : A -> bool) (f : A -> B) (l : list A) :
  first_some (fun x => if p x then Some (f x) else None) l =
  option_map f (List.find p l).
Proof.
  induction l as [|x l IH]; simpl; auto. now destruct (p x).
Qed.

(** The fingerprint as the source writes it, with [findall] and [find]. *)
Lemma inline_element_fingerprint_eq (elem : element) :
  inline_element_fingerprint elem =
  Py.join "|"
    ([get_or elem "Type" ""]
       ++ Py.sorted_str (map prop_part (findall elem (NS_BRACKET +++ "Property")))
       ++ Py.sorted_str (rel_parts elem)
       ++ Py.sorted_str
            (map ann_part (findall elem (NS_BRACKET +++ "AttachedAnnotation")))).
Proof.
  destruct elem as [t a x cs].
  assert (H1 : flat_map
                 (fun prop => if is_tag "Property" prop then [prop_part prop] else [])
                 cs
               = map prop_part (findall (Node t a x cs) (NS_BRACKET +++ "Property"))).
  { rewrite flat_map_if. reflexivity. }
  assert (H3 : flat_map
                 (fun ann => if is_tag "AttachedAnnotation" ann then [ann_part ann] else [])
                 cs
               = map ann_part
                   (findall (Node t a x cs) (NS_BRACKET +++ "AttachedAnnotation"))).
  { rewrite flat_map_if. reflexivity. }
  assert (H2 : flat_map
                 (fun rel =>
                    if is_tag "Relationship" rel then
                      flat_map
                        (fun entry =>
                           if is_tag "Entry" entry then
                             match find entry (NS_BRACKET +++ "References") with
                             | Some ref =>
                                 ["R:" +++ Py.fmt (get rel "Name") +++ "=" +++ ref_key ref]
                             | None =>
                                 match
                                   first_some
                                     (fun inner =>
                                        if is_tag "Element" inner
                                        then Some (inline_element_fingerprint inner)
                                        else None)
                                     (children entry)
                                 with
                                 | Some fp =>
                                     ["R:" +++ Py.fmt (get rel "Name")
                                        +++ "=(" +++ fp +++ ")"]
                                 | None => []
                                 end
                             end
                           else [])
                        (children rel)
                    else [])
                 cs
               = rel_parts (Node t a x cs)).
  { unfold rel_parts.
    rewrite (flat_map_filter (is_tag "Relationship")).
    apply flat_map_ext. intros rel.
    rewrite (flat_map_filter (is_tag "Entry")).
    apply flat_map_ext. intros entry.
    unfold entry_parts.
    destruct (find entry (NS_BRACKET +++ "References")); auto.
    rewrite first_some_find. unfold find at 1.
    now destruct (List.find _ _). }
  rewrite <- H1, <- H2, <- H3. reflexivity.
Qed.

(** ** The disambiguator (C7) *)

Section PopFacts.
Context {K V : Type}.
Variable eqb : K -> K -> bool.
Hypothesis eqb_spec : forall x y, reflect (x = y) (eqb x y).

Lemma dpop_dset_same (k : K) (v : V) (d : Py.dict K V) :
  Py.dpop eqb k (Py.dset eqb k v d) = Py.dpop eqb k d.
Proof.
  induction d as [|[k0 v0] d IH]; simpl.
  - now rewrite (eqb_refl' eqb eqb_spec).
  - destruct (eqb k k0) eqn:E; simpl; rewrite E; auto. now rewrite IH.
Qed.

Lemma dpop_dset_other (k k' : K) (v : V) (d : Py.dict K V) :
  k <> k' ->
  Py.dpop eqb k (Py.dset eqb k' v d) = Py.dset eqb k' v (Py.dpop eqb k d).
Proof.
  intros Hne. induction d as [|[k0 v0] d IH]; simpl.
  - destruct (eqb_spec k k'); congruence.
  - destruct (eqb_spec k' k0) as [->|Hk']; simpl.
    + destruct (eqb_spec k k0); [congruence|]. simpl.
      now rewrite (eqb_refl' eqb eqb_spec).
    + destruct (eqb_spec k k0) as [->|Hk]; simpl; auto.
      destruct (eqb_spec k' k0); [congruence|]. now rewrite IH.
Qed.

(** Popping a key from a dict built by assignments leaves the dict
    built by the assignments to the other keys. *)
Lemma dpop_fold_dset {X} (kf : X -> K) (vf : X -> V) (k : K) (l : list X)
  (d0 : Py.dict K V) :
  Py.dpop eqb k (fold_left (fun d x => Py.dset eqb (kf x) (vf x) d) l d0) =
  fold_left (fun d x => Py.dset eqb (kf x) (vf x) d)
    (filter (fun x => negb (eqb (kf x) k)) l) (Py.dpop eqb k d0).
Proof.
  revert d0; induction l as [|x l IH]; intros d0; simpl; auto.
  rewrite IH. destruct (eqb_spec (kf x) k) as [E|E]; simpl.
  - now rewrite E, dpop_dset_same.
  - rewrite dpop_dset_other; auto.
Qed.
End PopFacts.

Lemma filter_filter_agree {A} (p q r : A -> bool) (l : list A) :
  (forall x, q x = true -> p x = r x) ->
  filter p (filter q l) = filter q (filter r l).
Proof.
  intros H. induction l as [|x l IH]; simpl; auto.
  destruct (q x) eqn:Eq; simpl.
  - rewrite (H x Eq). destruct (r x); simpl; rewrite ?Eq, IH; auto.
  - destruct (r x); simpl; rewrite ?Eq; auto.
Qed.

(** The properties of an annotation after the pop depend only on the
    children that are not disambiguator nodes. *)
Lemma popped_properties (ann : element) :
  Py.dpop ostr_eqb (Some "Disambiguator") (get_properties ann) =
  fold_left
    (fun props prop => Py.dset ostr_eqb (get prop "Name") (property_value prop) props)
    (filter (is_tag "Property") (without_disambiguator ann))
    [].
Proof.
  unfold get_properties.
  rewrite (dpop_fold_dset ostr_eqb ostr_eqb_spec (fun p => get p "Name") property_value).
  cbn [Py.dpop]. f_equal. unfold findall, without_disambiguator.
  apply (filter_filter_agree
           (fun p => negb (ostr_eqb (get p "Name") (Some "Disambiguator")))
           (is_tag "Property")
           (fun c => negb (is_disambiguator c))).
  intros c Hc. unfold is_disambiguator. now rewrite Hc.
Qed.

Lemma same_but_disambiguator_properties (a b : element) :
  same_but_disambiguator a b ->
  Py.dpop ostr_eqb (Some "Disambiguator") (get_properties a) =
  Py.dpop ostr_eqb (Some "Disambiguator") (get_properties b).
Proof.
  intros (_ & _ & _ & H). now rewrite !popped_properties, H.
Qed.

Lemma same_but_disambiguator_annotation (a b : element) :
  same_but_disambiguator a b ->
  annotation_of a = annotation_of b /\ ann_part a = ann_part b.
Proof.
  intros H. pose proof (same_but_disambiguator_properties a b H) as Hp.
  destruct H as (_ & Ha & _ & _).
  unfold annotation_of, ann_part, get_or, get. now rewrite Hp, Ha.
Qed.

Lemma same_child_tag (c c' : element) : same_child c c' -> tag c = tag c'.
Proof. intros [->|[_ (H & _)]]; auto. Qed.

Lemma append_cancel (p a b : string) : p +++ a = p +++ b -> a = b.
Proof.
  induction p as [|c p IH]; simpl; intros H; auto.
  injection H as H. auto.
Qed.

Lemma is_tag_unique (t t' : string) (c : element) :
  is_tag t c = true -> is_tag t' c = true -> t = t'.
Proof.
  unfold is_tag. rewrite !String.eqb_eq. intros H H'.
  apply (append_cancel NS_BRACKET). congruence.
Qed.

Lemma same_children_findall (cs cs' : list element) (t : string) :
  Forall2 same_child cs cs' ->
  t <> "AttachedAnnotation" ->
  filter (is_tag t) cs = filter (is_tag t) cs'.
Proof.
  intros H Ht. induction H as [|c c' cs cs' Hc _ IH]; simpl; auto.
  destruct Hc as [->|[Hann Hsame]].
  - now rewrite IH.
  - assert (Hc : is_tag t c = false).
    { destruct (is_tag t c) eqn:E; auto.
      destruct Ht. apply (is_tag_unique _ _ c E Hann). }
    assert (Hc' : is_tag t c' = false).
    { unfold is_tag in *. destruct Hsame as (Htag & _). now rewrite <- Htag. }
    now rewrite Hc, Hc'.
Qed.

Lemma same_children_annotations (cs cs' : list element) :
  Forall2 same_child cs cs' ->
  Forall2 (fun c c' => annotation_of c = annotation_of c' /\ ann_part c = ann_part c')
    (filter (is_tag "AttachedAnnotation") cs)
    (filter (is_tag "AttachedAnnotation") cs').
Proof.
  induction 1 as [|c c' cs cs' Hc _ IH]; simpl; auto.
  destruct Hc as [->|[Hann Hsame]].
  - destruct (is_tag "AttachedAnnotation" c'); auto.
  - assert (Hann' : is_tag "AttachedAnnotation" c' = true).
    { unfold is_tag in *. destruct Hsame as (Htag & _). now rewrite <- Htag. }
    rewrite Hann, Hann'. constructor; auto.
    now apply same_but_disambiguator_annotation.
Qed.

Lemma mapM_Forall2 {A B} (f : A -> option B) (l l' : list A) :
  Forall2 (fun x y => f x = f y) l l' -> mapM f l = mapM f l'.
Proof.
  induction 1 as [|x y l l' H _ IH]; simpl; auto. now rewrite H, IH.
Qed.

Lemma map_Forall2 {A B} (f : A -> B) (l l' : list A) :
  Forall2 (fun x y => f x = f y) l l' -> map f l = map f l'.
Proof.
  induction 1 as [|x y l l' H _ IH]; simpl; auto. now rewrite H, IH.
Qed.

Lemma findall_is_tag (elem : element) (t : string) :
  findall elem (NS_BRACKET +++ t) = filter (is_tag t) (children elem).
Proof. reflexivity. Qed.

(** C7: two elements that are identical except for the value or the
    presence of the disambiguator property of their annotations have the
    same annotation list in the element differ and the same inline
    fingerprint; the element differ reports nothing about their
    annotations, and gives the same result with either of them against
    any other element. *)
Theorem disambiguator_never_compared (elem elem' : element) :
  same_but_disambiguators elem elem' ->
  get_annotations elem = get_annotations elem' /\
  inline_element_fingerprint elem = inline_element_fingerprint elem' /\
  (forall anns anns',
     get_annotations elem = Some anns -> get_annotations elem' = Some anns' ->
     diff_annotations anns anns' = []) /\
  (forall other,
     diff_element elem other = diff_element elem' other /\
     diff_element other elem = diff_element other elem').
Proof.
  intros (Htag & Hattr & Htext & Hcs).
  assert (Hanns : Forall2
            (fun c c' => annotation_of c = annotation_of c' /\ ann_part c = ann_part c')
            (findall elem (NS_BRACKET +++ "AttachedAnnotation"))
            (findall elem' (NS_BRACKET +++ "AttachedAnnotation"))).
  { rewrite !findall_is_tag. now apply same_children_annotations. }
  assert (Hprops : findall elem (NS_BRACKET +++ "Property") =
                   findall elem' (NS_BRACKET +++ "Property")).
  { rewrite !findall_is_tag. apply same_children_findall; auto. discriminate. }
  assert (Hrels : findall elem (NS_BRACKET +++ "Relationship") =
                  findall elem' (NS_BRACKET +++ "Relationship")).
  { rewrite !findall_is_tag. apply same_children_findall; auto. discriminate. }
  assert (Hga : get_annotations elem = get_annotations elem').
  { unfold get_annotations. f_equal. apply mapM_Forall2.
    eapply Forall2_impl; [|exact Hanns]. now intros a b [H _]. }
  assert (Hgp : get_properties elem = get_properties elem').
  { unfold get_properties. now rewrite Hprops. }
  assert (Hgr : get_relationships elem = get_relationships elem').
  { unfold get_relationships. now rewrite Hrels. }
  repeat split.
  - exact Hga.
  - rewrite !inline_element_fingerprint_eq. unfold rel_parts, get_or, get.
    rewrite Hprops, Hrels, Hattr. do 5 f_equal.
    apply map_Forall2. eapply Forall2_impl; [|exact Hanns]. now intros a b [_ H].
  - intros anns anns' H H'. rewrite Hga, H' in H. injection H as ->.
    unfold diff_annotations.
    now rewrite (list_eqb_refl annotation_eqb annotation_eqb_spec).
  - unfold diff_element. now rewrite Hgp, Hgr, Hga.
  - unfold diff_element. now rewrite Hgp, Hgr, Hga.
Qed.

Lemma disambiguator_never_compared_witness :
  get_annotations (with_disambiguator [property "Disambiguator" "3"]) =
  get_annotations (with_disambiguator []) /\
  inline_element_fingerprint (with_disambiguator [property "Disambiguator" "3"]) =
  inline_element_fingerprint (with_disambiguator [property "Disambiguator" "7"]).
Proof.
  split.
  - apply (disambiguator_never_compared
             (with_disambiguator [property "Disambiguator" "3"])
             (with_disambiguator [])).
    repeat split; try reflexivity.
    constructor; [now left|]. constructor; [|constructor].
    right. repeat split; reflexivity.
  - apply (disambiguator_never_compared
             (with_disambiguator [property "Disambiguator" "3"])
             (with_disambiguator [property "Disambiguator" "7"])).
    repeat split; try reflexivity.
    constructor; [now left|]. constructor; [|constructor].
    right. repeat split; reflexivity.
Defined.

(** ** Duplicate identity keys (C9) *)

Section DictShape.
Context {K V : Type}.
Variable eqb : K -> K -> bool.
Hypothesis eqb_spec : forall x y, reflect (x = y) (eqb x y).

Lemma dget_none_keys (k : K) (d : Py.dict K V) :
  Py.dget eqb k d = None <-> ~ In k (Py.dkeys d).
Proof.
  induction d as [|[k0 v0] d IH]; simpl.
  - tauto.
  - destruct (eqb_spec k k0) as [->|Hne].
    + split; [discriminate|]. intros H. destruct H. now left.
    + rewrite IH. intuition congruence.
Qed.

Lemma dmem_keys (k : K) (d : Py.dict K V) :
  Py.dmem eqb k d = true <-> In k (Py.dkeys d).
Proof.
  unfold Py.dmem. destruct (Py.dget eqb k d) eqn:E.
  - split; auto. intros _.
    destruct (in_dec (fun x y => reflect_dec _ _ (eqb_spec x y)) k (Py.dkeys d));
      auto.
    apply dget_none_keys in n. congruence.
  - apply dget_none_keys in E. split; [discriminate|tauto].
Qed.

(** Assigning to an absent key appends the entry. *)
Lemma dset_absent (k : K) (v : V) (d : Py.dict K V) :
  Py.dmem eqb k d = false -> Py.dset eqb k v d = d ++ [(k, v)].
Proof.
  unfold Py.dmem. induction d as [|[k0 v0] d IH]; simpl; auto.
  destruct (eqb k k0); [discriminate|]. intros H. now rewrite IH.
Qed.

(** Assigning to a present key keeps the keys. *)
Lemma dkeys_dset_present (k : K) (v : V) (d : Py.dict K V) :
  Py.dmem eqb k d = true -> Py.dkeys (Py.dset eqb k v d) = Py.dkeys d.
Proof.
  unfold Py.dmem. induction d as [|[k0 v0] d IH]; simpl; [discriminate|].
  destruct (eqb k k0); simpl; auto. intros H. now rewrite IH.
Qed.

Lemma dset_length_present (k : K) (v : V) (d : Py.dict K V) :
  Py.dmem eqb k d = true -> length (Py.dset eqb k v d) = length d.
Proof.
  intros H. rewrite <- (length_map fst (Py.dset eqb k v d)), <- (length_map fst d).
  f_equal. now apply dkeys_dset_present.
Qed.

Lemma dset_In (k k' : K) (v v' : V) (d : Py.dict K V) :
  In (k', v') (Py.dset eqb k v d) -> (k', v') = (k, v) \/ In (k', v') d.
Proof.
  induction d as [|[k0 v0] d IH]; simpl.
  - intros [H|[]]; auto.
  - destruct (eqb_spec k k0) as [->|Hne]; simpl.
    + intros [H|H]; auto.
    + intros [H|H]; auto. apply IH in H. tauto.
Qed.

Lemma dset_keys_NoDup (k : K) (v : V) (d : Py.dict K V) :
  NoDup (Py.dkeys d) -> NoDup (Py.dkeys (Py.dset eqb k v d)).
Proof.
  intros H. destruct (Py.dmem eqb k d) eqn:E.
  - now rewrite dkeys_dset_present.
  - rewrite dset_absent by assumption. unfold Py.dkeys. rewrite map_app. simpl.
    assert (Hk : ~ In k (Py.dkeys d)).
    { intros Hin. apply dmem_keys in Hin. congruence. }
    apply NoDup_rev in H. rewrite <- (rev_involutive (map fst d ++ [k])).
    apply NoDup_rev. rewrite rev_app_distr. simpl.
    constructor; auto. now rewrite <- in_rev.
Qed.
End DictShape.

Lemma index_elements_fold (model : element) :
  index_elements model =
  fold_left index_step (findall model (NS_BRACKET +++ "Element")) ([], []).
Proof. reflexivity. Qed.

Lemma index_fold_fst (l : list element) (i : Py.dict key element) (d : list key) :
  fst (fold_left index_step l (i, d)) =
  fold_left (fun i e => Py.dset key_eqb (element_key e) e i) l i.
Proof.
  revert i d; induction l as [|e l IH]; intros i d; simpl; auto.
Qed.

(** The index holds each key once, with an element of that key. *)
Lemma index_fold_invariant (l : list element) (i : Py.dict key element) :
  NoDup (Py.dkeys i) ->
  (forall k e, In (k, e) i -> element_key e = k /\ is_tag "Element" e = true) ->
  (forall e, In e l -> is_tag "Element" e = true) ->
  let i' := fold_left (fun i e => Py.dset key_eqb (element_key e) e i) l i in
  NoDup (Py.dkeys i') /\
  (forall k e, In (k, e) i' -> element_key e = k /\ is_tag "Element" e = true).
Proof.
  revert i; induction l as [|x l IH]; intros i Hnd Hinv Hl; simpl; auto.
  apply IH.
  - now apply (dset_keys_NoDup key_eqb key_eqb_spec).
  - intros k e Hin. apply (dset_In key_eqb key_eqb_spec) in Hin as [Heq|Hin]; auto.
    injection Heq as -> ->. split; auto. apply Hl. now left.
  - intros e He. apply Hl. now right.
Qed.

(** The length of the index and the number of duplicates add up to the
    number of elements; there is no duplicate exactly when the keys of
    the elements are pairwise different. *)
Lemma index_fold_counts (l : list element) (i : Py.dict key element) (d : list key) :
  let st := fold_left index_step l (i, d) in
  length (fst st) + length (snd st) = length i + length d + length l.
Proof.
  revert i d; induction l as [|e l IH]; intros i d; simpl; [lia|].
  rewrite IH. destruct (Py.dmem key_eqb (element_key e) i) eqn:E.
  - rewrite (dset_length_present key_eqb); auto. rewrite length_app. simpl. lia.
  - rewrite (dset_absent key_eqb); auto. rewrite length_app. simpl. lia.
Qed.

Lemma index_fold_keys (l : list element) (i : Py.dict key element) (k : key) :
  In k (Py.dkeys (fold_left (fun i e => Py.dset key_eqb (element_key e) e i) l i))
  <-> In k (Py.dkeys i) \/ In k (map element_key l).
Proof.
  revert i; induction l as [|e l IH]; intros i; simpl; [tauto|].
  rewrite IH. destruct (Py.dmem key_eqb (element_key e) i) eqn:E.
  - rewrite (dkeys_dset_present key_eqb) by assumption.
    apply (dmem_keys key_eqb key_eqb_spec) in E.
    intuition (subst; auto).
  - rewrite (dset_absent key_eqb) by assumption.
    unfold Py.dkeys at 1. rewrite map_app, in_app_iff. simpl. intuition.
Qed.

Lemma index_fold_snd_app (l : list element) (i : Py.dict key element) (d : list key) :
  snd (fold_left index_step l (i, d)) = d ++ snd (fold_left index_step l (i, [])).
Proof.
  revert i d; induction l as [|e l IH]; intros i d; simpl.
  - now rewrite app_nil_r.
  - destruct (Py.dmem key_eqb (element_key e) i).
    + rewrite IH, (IH _ [element_key e]). now rewrite app_assoc.
    + apply IH.
Qed.

Lemma index_fold_no_duplicates (l : list element) (i : Py.dict key element) :
  snd (fold_left index_step l (i, [])) = [] <->
  NoDup (map element_key l) /\
  (forall k, In k (map element_key l) -> ~ In k (Py.dkeys i)).
Proof.
  revert i; induction l as [|e l IH]; intros i; simpl.
  - split; auto. intros _. split; [constructor|tauto].
  - destruct (Py.dmem key_eqb (element_key e) i) eqn:E.
    + rewrite index_fold_snd_app. split; [discriminate|].
      intros [_ H]. apply (dmem_keys key_eqb key_eqb_spec) in E.
      destruct (H (element_key e)); auto.
    + rewrite IH. rewrite (dset_absent key_eqb) by assumption.
      assert (Hk : ~ In (element_key e) (Py.dkeys i)).
      { intros Hin. apply (dmem_keys key_eqb key_eqb_spec) in Hin. congruence. }
      unfold Py.dkeys. rewrite map_app. simpl. split.
      * intros [Hnd H]. split.
        -- constructor; auto. intros Hin. apply (H _ Hin).
           rewrite in_app_iff. simpl. auto.
        -- intros k [<-|Hin]; auto. intros Hi. apply (H _ Hin).
           rewrite in_app_iff. auto.
      * intros [Hnd H]. inversion Hnd as [|? ? Hnotin Hnd']; subst. split; auto.
        intros k Hin. rewrite in_app_iff. simpl. intros [Hi|[<-|[]]].
        -- apply (H k); auto.
        -- auto.
Qed.

(** Indexing the elements of an index gives the index back, without any
    duplicate. *)
Lemma index_fold_rebuild (L i0 : Py.dict key element) (d0 : list key) :
  NoDup (Py.dkeys L) ->
  (forall k e, In (k, e) L -> element_key e = k) ->
  (forall k, In k (Py.dkeys L) -> ~ In k (Py.dkeys i0)) ->
  fold_left index_step (map snd L) (i0, d0) = (i0 ++ L, d0).
Proof.
  revert i0; induction L as [|[k e] L IH]; intros i0 Hnd Hkey Hdisj; simpl.
  - now rewrite app_nil_r.
  - assert (Hk : element_key e = k) by (apply Hkey; now left).
    assert (Hmem : Py.dmem key_eqb k i0 = false).
    { destruct (Py.dmem key_eqb k i0) eqn:E; auto.
      apply (dmem_keys key_eqb key_eqb_spec) in E.
      destruct (Hdisj k); simpl; auto. }
    rewrite Hk, Hmem, (dset_absent key_eqb) by assumption.
    simpl in Hnd. inversion Hnd as [|? ? Hnotin Hnd']; subst.
    rewrite IH; auto.
    + now rewrite <- app_assoc.
    + intros k' e' Hin. apply Hkey. now right.
    + intros k' Hin. unfold Py.dkeys. rewrite map_app, in_app_iff. simpl.
      intros [Hi|[<-|[]]].
      * apply (Hdisj k'); simpl; auto.
      * auto.
Qed.

Lemma filter_all {A} (p : A -> bool) (l : list A) :
  (forall x, In x l -> p x = true) -> filter p l = l.
Proof.
  induction l as [|x l IH]; simpl; intros H; auto.
  rewrite (H x) by now left. f_equal. apply IH. intros y Hy. apply H. now right.
Qed.

Lemma index_elements_invariant (model : element) :
  NoDup (Py.dkeys (fst (index_elements model))) /\
  (forall k e, In (k, e) (fst (index_elements model)) ->
               element_key e = k /\ is_tag "Element" e = true).
Proof.
  rewrite index_elements_fold, index_fold_fst.
  apply index_fold_invariant.
  - constructor.
  - intros k e [].
  - intros e He. rewrite findall_is_tag in He. now apply filter_In in He.
Qed.

Lemma index_elements_dedup (model : element) :
  index_elements (dedup_model model) = (fst (index_elements model), []).
Proof.
  destruct (index_elements_invariant model) as [Hnd Hinv].
  rewrite index_elements_fold, findall_is_tag. unfold dedup_model. simpl children.
  rewrite filter_all.
  - rewrite index_fold_rebuild; auto.
    + intros k e Hin. now apply Hinv.
  - intros e He. apply in_map_iff in He as [[k e'] [<- Hin]]. now apply Hinv in Hin.
Qed.

Lemma find_map_first_same {A} (p : A -> bool) (f : A -> A) (l : list A) :
  (forall x, p (f x) = p x) ->
  List.find p (map_first p f l) = option_map f (List.find p l).
Proof.
  intros H. induction l as [|x l IH]; simpl; auto.
  destruct (p x) eqn:E; simpl.
  - now rewrite H, E.
  - now rewrite E.
Qed.

Lemma find_map_first_other {A} (p q : A -> bool) (f : A -> A) (l : list A) :
  (forall x, p x = true -> q x = false /\ q (f x) = false) ->
  List.find q (map_first p f l) = List.find q l.
Proof.
  intros H. induction l as [|x l IH]; simpl; auto.
  destruct (p x) eqn:E; simpl.
  - destruct (H x E) as [H1 H2]. now rewrite H1, H2.
  - now rewrite IH.
Qed.

Lemma find_is_tag (elem : element) (t : string) :
  find elem (NS_BRACKET +++ t) = List.find (is_tag t) (children elem).
Proof. reflexivity. Qed.

Lemma dedup_root_model (root : element) :
  find (dedup_root root) (NS_BRACKET +++ "Model") =
  option_map dedup_model (find root (NS_BRACKET +++ "Model")).
Proof.
  rewrite !find_is_tag. unfold dedup_root. simpl children.
  apply find_map_first_same. reflexivity.
Qed.

Lemma dedup_root_header (root : element) :
  find (dedup_root root) (NS_BRACKET +++ "Header") =
  find root (NS_BRACKET +++ "Header").
Proof.
  rewrite !find_is_tag. unfold dedup_root. simpl children.
  apply find_map_first_other. intros x Hx.
  assert (H : is_tag "Header" x = false).
  { destruct (is_tag "Header" x) eqn:E; auto.
    pose proof (is_tag_unique _ _ _ E Hx). discriminate. }
  split; auto.
Qed.

(** The comparison of two documents is the comparison of the two
    deduplicated documents, which logs nothing. *)
Lemma compare_model_xml_dedup (root_a root_b : element) :
  compare_model_xml (dedup_root root_a) (dedup_root root_b) =
  option_map (fun r => ([], snd r)) (compare_model_xml root_a root_b).
Proof.
  unfold compare_model_xml.
  rewrite !dedup_root_model, !dedup_root_header.
  destruct (find root_a (NS_BRACKET +++ "Model")) as [model_a|];
    cbn [bind option_map]; auto.
  destruct (find root_b (NS_BRACKET +++ "Model")) as [model_b|];
    cbn [bind option_map]; auto.
  rewrite !index_elements_dedup.
  destruct (index_elements model_a) as [elems_a dupes_a].
  destruct (index_elements model_b) as [elems_b dupes_b]. cbn [fst].
  destruct (compare_indexes elems_a elems_b); reflexivity.
Qed.

Lemma duplicate_warning_nil (side : string) (dupes : list key) :
  duplicate_warning side dupes = [] <-> dupes = [].
Proof. destruct dupes; simpl; split; auto; discriminate. Qed.

(** ** Reflexivity (C8) *)

(** C8 at the failing input: a package without model.xml compared with
    itself.  The model document is recorded as missing in the first
    package and the exit code is 1. *)
Theorem main_reflexive_without_model
  (unified_diff : list string -> list string -> string -> string -> nat -> list string) :
  main unified_diff no_model no_model =
  Some {| stderr := [];
          results :=
            [("Origin.xml", (ok, ["(skipped - contains timestamps/GUIDs)"]));
             ("DacMetadata.xml", (ok, []));
             ("model.xml", (missing_in_rust_status, ["  File missing in rust dacpac"]))];
          model := None;
          exit_code := 1 |}.
Proof. reflexivity. Qed.

(** ** The exit code (C2) *)

Lemma status_eqb_spec (a b : status) : reflect (a = b) (status_eqb a b).
Proof. destruct a, b; simpl; constructor; congruence. Qed.

Lemma dget_In {K V} (eqb : K -> K -> bool)
  (eqb_spec : forall x y, reflect (x = y) (eqb x y))
  (k : K) (v : V) (d : Py.dict K V) :
  Py.dget eqb k d = Some v -> In (k, v) d.
Proof.
  induction d as [|[k0 v0] d IH]; simpl; [discriminate|].
  destruct (eqb_spec k k0) as [->|Hne]; intros H; auto.
  injection H as ->. now left.
Qed.

Lemma dset_In_other {K V} (eqb : K -> K -> bool)
  (eqb_spec : forall x y, reflect (x = y) (eqb x y))
  (k k' : K) (v v' : V) (d : Py.dict K V) :
  k' <> k -> In (k', v') d -> In (k', v') (Py.dset eqb k v d).
Proof.
  intros Hne. induction d as [|[k0 v0] d IH]; simpl; auto.
  destruct (eqb_spec k k0) as [->|Hk]; simpl.
  - intros [H|H]; auto. injection H as -> ->. congruence.
  - intros [H|H]; auto.
Qed.

Lemma flagged_iff (fr : Py.dict string (status * list string)) :
  flagged fr = true <->
  exists label st ls, In (label, (st, ls)) fr /\ label <> "Origin.xml" /\ st <> ok.
Proof.
  unfold flagged. rewrite existsb_exists. split.
  - intros [[label [st ls]] [Hin H]]. simpl in H.
    apply andb_true_iff in H as [H1 H2].
    exists label, st, ls. split; auto. split.
    + destruct (String.eqb_spec label "Origin.xml"); [discriminate|auto].
    + destruct (status_eqb_spec st ok); [discriminate|auto].
  - intros (label & st & ls & Hin & H1 & H2). exists (label, (st, ls)).
    split; auto. simpl.
    destruct (String.eqb_spec label "Origin.xml"); [contradiction|].
    destruct (status_eqb_spec st ok); [contradiction|]. reflexivity.
Qed.

Lemma flagged_dset_bad (label : string) (st : status) (ls : list string)
  (fr : Py.dict string (status * list string)) :
  label <> "Origin.xml" -> st <> ok ->
  flagged (Py.dset String.eqb label (st, ls) fr) = true.
Proof.
  intros H1 H2. apply flagged_iff. exists label, st, ls. split; auto.
  apply (dget_In String.eqb String.eqb_spec).
  apply (dget_dset_same String.eqb String.eqb_spec).
Qed.

Lemma flagged_dset_mono (label : string) (st : status) (ls : list string)
  (fr : Py.dict string (status * list string)) :
  st <> ok -> flagged fr = true ->
  flagged (Py.dset String.eqb label (st, ls) fr) = true.
Proof.
  intros Hst H. apply flagged_iff in H as (l0 & st0 & ls0 & Hin & H1 & H2).
  destruct (string_dec l0 label) as [->|Hne].
  - now apply flagged_dset_bad.
  - apply flagged_iff. exists l0, st0, ls0. split; auto.
    now apply (dset_In_other String.eqb String.eqb_spec).
Qed.

Section ExitCode.

Variable unified_diff :
  list string -> list string -> string -> string -> nat -> list string.

Lemma unknown_both_step_mono (dir_a dir_b : directory)
  (fr : file_results) (fname : string) :
  flagged fr = true -> flagged (unknown_both_step unified_diff dir_a dir_b fr fname) = true.
Proof.
  intros H. unfold unknown_both_step.
  destruct (fst (compare_text_files unified_diff dir_a dir_b fname)) as [st|]; auto.
  destruct (status_eqb_spec st ok); simpl; auto.
  now apply flagged_dset_mono.
Qed.

Lemma unknown_both_fold_mono (dir_a dir_b : directory)
  (l : list string) (fr : file_results) :
  flagged fr = true ->
  flagged (fold_left (unknown_both_step unified_diff dir_a dir_b) l fr) = true.
Proof.
  revert fr; induction l as [|x l IH]; intros fr H; simpl; auto.
  apply IH. now apply unknown_both_step_mono.
Qed.


Lemma model_stage_mono (dir_a dir_b : directory) (fr fr' : file_results)
  (err : list string) (mr : option model_result) :
  model_stage dir_a dir_b fr = Some (err, mr, fr') ->
  flagged fr = true -> flagged fr' = true.
Proof.
  unfold model_stage. intros H Hf.
  destruct (Py.dget String.eqb "model.xml" dir_a) as [fa|],
           (Py.dget String.eqb "model.xml" dir_b) as [fb|].
  - destruct (xml fa); [|discriminate]. destruct (xml fb); [|discriminate].
    cbn [bind] in H. destruct (compare_model_xml e e0); [|discriminate].
    cbn [bind] in H. injection H as _ _ <-. exact Hf.
  - injection H as _ _ <-. apply flagged_dset_mono; [discriminate|auto].
  - injection H as _ _ <-. apply flagged_dset_mono; [discriminate|auto].
  - injection H as _ _ <-. apply flagged_dset_mono; [discriminate|auto].
Qed.

End ExitCode.

Section TrackedFiles.

Variable unified_diff :
  list string -> list string -> string -> string -> nat -> list string.


End TrackedFiles.

(** *** The provenance file is never read *)

Section Origin.

Variable unified_diff :
  list string -> list string -> string -> string -> nat -> list string.


Lemma list_files_In (d : directory) (fname : string) :
  In fname (list_files d) <-> Py.dmem String.eqb fname d = true.
Proof.
  unfold list_files. rewrite (set_of_In _ String.eqb_spec).
  symmetry. apply (dmem_keys String.eqb String.eqb_spec).
Qed.


Lemma not_known_not_origin (fname : string) :
  ~ In fname known_files -> fname <> "Origin.xml".
Proof. intros H ->. apply H. now left. Qed.







Lemma fold_left_ext_in {A B} (f g : A -> B -> A) (l : list B) (a : A) :
  (forall a x, In x l -> f a x = g a x) -> fold_left f l a = fold_left g l a.
Proof.
  revert a; induction l as [|x l IH]; intros a H; simpl; auto.
  rewrite H by now left. apply IH. intros a' y Hy. apply H. now right.
Qed.


End Origin.

Section OriginEntry.

Variable unified_diff :
  list string -> list string -> string -> string -> nat -> list string.



End OriginEntry.

Lemma has_diffs_iff (fr : file_results) (mr : option model_result) :
  has_diffs fr mr = true <->
  recorded_difference {| stderr := []; results := fr; model := mr; exit_code := 0 |}.
Proof.
  unfold has_diffs, recorded_difference. cbn [results model].
  fold (flagged fr). rewrite orb_true_iff, flagged_iff. apply or_iff_compat_l.
  destruct mr as [mr|].
  - rewrite orb_true_iff. split.
    + intros [H|H]; exists mr; split; auto.
      * left. destruct (status_eqb_spec (fst (header mr)) ok); [discriminate|auto].
      * right.
        destruct (missing_in_rust (elements mr)); [|left; discriminate].
        destruct (extra_in_rust (elements mr)); [|right; left; discriminate].
        destruct (differences (elements mr)); [discriminate|].
        right; right; discriminate.
    + intros [mr' [E H]]. injection E as <-.
      destruct (status_eqb_spec (fst (header mr)) ok) as [Hok|Hok]; auto.
      right.
      destruct (missing_in_rust (elements mr)); auto.
      destruct (extra_in_rust (elements mr)); auto.
      destruct (differences (elements mr)); auto.
      destruct H as [H|[H|[H|H]]]; congruence.
  - split; [discriminate|]. intros [mr [E _]]. discriminate.
Qed.



(** ** Where sibling order does not matter *)

Lemma insert_map {A B} (lt : A -> A -> bool) (lt' : B -> B -> bool) (h : A -> B)
  (x : A) (l : list A) :
  (forall a b, lt' (h a) (h b) = lt a b) ->
  Py.insert lt' (h x) (map h l) = map h (Py.insert lt x l).
Proof.
  intros H. induction l as [|y l IH]; simpl; auto.
  rewrite H. destruct (lt y x); simpl; auto. now rewrite IH.
Qed.

Lemma sorted_map {A B} (lt : A -> A -> bool) (lt' : B -> B -> bool) (h : A -> B)
  (l : list A) :
  (forall a b, lt' (h a) (h b) = lt a b) ->
  Py.sorted lt' (map h l) = map h (Py.sorted lt l).
Proof.
  intros H. induction l as [|x l IH]; simpl; auto.
  now rewrite IH, (insert_map lt lt' h).
Qed.

(** [flatten] as the source writes it: the node itself, then the
    flattening of each child, the children taken in the order of their
    own canonical strings. *)
Lemma flatten_eq (elem : element) (path : string) :
  flatten elem path =
  let current := path +++ "/" +++ strip_ns (tag elem) in
  (current, xml_to_canonical elem)
    :: flat_map (fun child => flatten child current)
         (Py.sorted_by_key xml_to_canonical (children elem)).
Proof.
  destruct elem as [t a x cs]. cbv zeta. unfold Py.sorted_by_key.
  rewrite flat_map_concat_map.
  rewrite <- (map_map (fun c => (xml_to_canonical c,
                                 flatten c (path +++ "/" +++ strip_ns (tag (Node t a x cs)))))
                      snd).
  rewrite <- (sorted_map
                (fun a b => String.ltb (xml_to_canonical a) (xml_to_canonical b))
                (fun a b => String.ltb (fst a) (fst b))).
  - reflexivity.
  - reflexivity.
Qed.

Lemma NoDup_map_injective {A B} (f : A -> B) (l : list A) (x y : A) :
  NoDup (map f l) -> In x l -> In y l -> f x = f y -> x = y.
Proof.
  induction l as [|z l IH]; simpl; [tauto|].
  intros Hnd Hx Hy E. inversion Hnd as [|? ? Hnotin Hnd']; subst.
  destruct Hx as [->|Hx], Hy as [->|Hy]; auto.
  - destruct Hnotin. rewrite E. now apply in_map.
  - destruct Hnotin. rewrite <- E. now apply in_map.
Qed.

(** The sort by a string key forgets the order of the input when the
    keys are pairwise different. *)
Lemma sorted_by_key_permutation {A} (key : A -> string) (l l' : list A) :
  Permutation l l' -> NoDup (map key l) ->
  Py.sorted_by_key key l = Py.sorted_by_key key l'.
Proof.
  intros HP Hnd. unfold Py.sorted_by_key.
  apply (sorted_permutation (fun a b => String.ltb (key a) (key b))); auto.
  - intros a b c. apply ltb_trans.
  - intros a. apply ltb_irrefl.
  - intros a b c. apply ltb_neg_trans.
  - intros x y Hx Hy.
    destruct (String.ltb (key x) (key y)) eqn:E1; auto.
    destruct (String.ltb (key y) (key x)) eqn:E2; auto.
    right; right. apply (NoDup_map_injective key l); auto.
    now apply ltb_total.
Qed.

(** Sibling order does not matter among siblings with pairwise different
    canonical strings: a document whose root has such children flattens
    to the same list when the children are permuted. *)
Lemma flatten_sibling_permutation (t : string) (a : Py.dict string string)
  (x : option string) (cs cs' : list element) (path : string) :
  Permutation cs cs' ->
  NoDup (map xml_to_canonical cs) ->
  flatten (Node t a x cs) path = flatten (Node t a x cs') path.
Proof.
  intros HP Hnd. rewrite !flatten_eq. cbv zeta. f_equal.
  simpl children. now rewrite (sorted_by_key_permutation _ cs cs').
Qed.

(** Children may be replaced by children with the same canonical string
    and the same flattening, so the previous lemma applies at any depth. *)
Lemma flatten_children_congruence (t : string) (a : Py.dict string string)
  (x : option string) (cs cs' : list element) (path : string) :
  Forall2
    (fun c c' => xml_to_canonical c = xml_to_canonical c' /\
                 forall p, flatten c p = flatten c' p)
    cs cs' ->
  flatten (Node t a x cs) path = flatten (Node t a x cs') path.
Proof.
  intros H. cbn [flatten]. f_equal. cbn [tag]. do 3 f_equal.
  induction H as [|c c' cs cs' [Hc Hf] _ IH]; cbn [map]; auto.
  now rewrite Hc, Hf, IH.
Qed.

(** ** Where serialization order does not matter for the fingerprint *)

Lemma filter_permutation {A} (p : A -> bool) (l l' : list A) :
  Permutation l l' -> Permutation (filter p l) (filter p l').
Proof.
  induction 1 as [|x l l' _ IH|x y l|l l' l'' _ IH1 _ IH2]; simpl.
  - constructor.
  - destruct (p x); auto.
  - destruct (p x), (p y); auto. apply perm_swap.
  - eapply perm_trans; eauto.
Qed.

Lemma flat_map_Forall2_permutation {A B} (g : A -> list B) (l l' : list A) :
  Forall2 (fun x y => Permutation (g x) (g y)) l l' ->
  Permutation (flat_map g l) (flat_map g l').
Proof.
  induction 1 as [|x y l l' H _ IH]; simpl; auto.
  now apply Permutation_app.
Qed.

(** The order of the [Property], [Relationship] and [AttachedAnnotation]
    children of an inline element does not change its fingerprint. *)
Lemma fingerprint_children_permutation (elem elem' : element) :
  attrib elem = attrib elem' ->
  Permutation (children elem) (children elem') ->
  inline_element_fingerprint elem = inline_element_fingerprint elem'.
Proof.
  intros Hattr HP. rewrite !inline_element_fingerprint_eq.
  unfold get_or, get. rewrite Hattr. f_equal. f_equal.
  f_equal; [|f_equal].
  - apply sorted_str_permutation, Permutation_map.
    rewrite !findall_is_tag. now apply filter_permutation.
  - apply sorted_str_permutation. unfold rel_parts.
    apply Permutation_flat_map.
    rewrite !findall_is_tag. now apply filter_permutation.
  - apply sorted_str_permutation, Permutation_map.
    rewrite !findall_is_tag. now apply filter_permutation.
Qed.

Lemma same_entries_findall (cs cs' : list element) (t : string) :
  Forall2 same_entries cs cs' ->
  t <> "Relationship" ->
  filter (is_tag t) cs = filter (is_tag t) cs'.
Proof.
  intros H Ht. induction H as [|c c' cs cs' Hc _ IH]; simpl; auto.
  destruct Hc as [->|(Hrel & Htag & _)].
  - now rewrite IH.
  - assert (Hc : is_tag t c = false).
    { destruct (is_tag t c) eqn:E; auto.
      destruct Ht. apply (is_tag_unique _ _ c E Hrel). }
    assert (Hc' : is_tag t c' = false).
    { unfold is_tag in *. now rewrite <- Htag. }
    now rewrite Hc, Hc'.
Qed.

Lemma same_entries_relationships (cs cs' : list element) :
  Forall2 same_entries cs cs' ->
  Forall2
    (fun rel rel' =>
       Permutation
         (flat_map (entry_parts (get rel "Name")) (findall rel (NS_BRACKET +++ "Entry")))
         (flat_map (entry_parts (get rel' "Name")) (findall rel' (NS_BRACKET +++ "Entry"))))
    (filter (is_tag "Relationship") cs)
    (filter (is_tag "Relationship") cs').
Proof.
  induction 1 as [|c c' cs cs' Hc _ IH]; simpl; auto.
  destruct Hc as [->|(Hrel & Htag & Hattr & HP)].
  - destruct (is_tag "Relationship" c'); auto.
  - assert (Hrel' : is_tag "Relationship" c' = true).
    { unfold is_tag in *. now rewrite <- Htag. }
    rewrite Hrel, Hrel'. constructor; auto.
    unfold get. rewrite Hattr. apply Permutation_flat_map.
    unfold findall. now apply filter_permutation.
Qed.

(** The order of the entries of a relationship of an inline element does
    not change its fingerprint. *)
Lemma fingerprint_entries_permutation (elem elem' : element) :
  attrib elem = attrib elem' ->
  Forall2 same_entries (children elem) (children elem') ->
  inline_element_fingerprint elem = inline_element_fingerprint elem'.
Proof.
  intros Hattr H. rewrite !inline_element_fingerprint_eq.
  unfold get_or, get. rewrite Hattr. f_equal. f_equal.
  rewrite !findall_is_tag.
  rewrite (same_entries_findall _ _ "Property" H) by discriminate.
  rewrite (same_entries_findall _ _ "AttachedAnnotation" H) by discriminate.
  f_equal. f_equal.
  apply sorted_str_permutation. unfold rel_parts. rewrite !findall_is_tag.
  apply (flat_map_Forall2_permutation
           (fun rel => flat_map (entry_parts (get rel "Name"))
                         (findall rel (NS_BRACKET +++ "Entry")))).
  now apply same_entries_relationships.
Qed.

(** ** Reflexivity when the model document is there *)

Lemma flat_map_nil {A B} (f : A -> list B) (l : list A) :
  (forall x, In x l -> f x = []) -> flat_map f l = [].
Proof.
  induction l as [|x l IH]; simpl; intros H; auto.
  rewrite (H x) by now left. apply IH. intros y Hy. apply H. now right.
Qed.

Lemma property_diff_refl (p : props) (name : option string) :
  property_diff p p name = [].
Proof. unfold property_diff. now rewrite ostr_eqb_refl. Qed.

Lemma relationship_diff_refl (r : rels) (name : option string) :
  relationship_diff r r name = [].
Proof.
  unfold relationship_diff.
  now rewrite (list_eqb_refl entry_eqb entry_eqb_spec).
Qed.

Lemma diff_annotations_refl (anns : list annotation) : diff_annotations anns anns = [].
Proof.
  unfold diff_annotations.
  now rewrite (list_eqb_refl annotation_eqb annotation_eqb_spec).
Qed.

(** An element has no difference with itself. *)
Lemma diff_element_refl (elem : element) (diffs : list string) :
  diff_element elem elem = Some diffs -> diffs = [].
Proof.
  unfold diff_element, diff_properties, diff_relationships.
  destruct (all_names (get_properties elem) (get_properties elem)) as [pn|];
    [|discriminate]. cbn [bind].
  destruct (all_names (get_relationships elem) (get_relationships elem)) as [rn|];
    [|discriminate]. cbn [bind].
  destruct (get_annotations elem) as [anns|]; [|discriminate]. cbn [bind].
  intros H. injection H as <-.
  rewrite diff_annotations_refl, !flat_map_nil; auto.
  - intros n _. apply relationship_diff_refl.
  - intros n _. apply property_diff_refl.
Qed.

Lemma pair_eqb_spec (a b : string * string) : reflect (a = b) (pair_eqb a b).
Proof.
  destruct a as [x y], b as [x' y']; unfold pair_eqb; simpl.
  destruct (String.eqb_spec x x'), (String.eqb_spec y y'); simpl;
    constructor; congruence.
Qed.

Section DictUnique.
Context {K V : Type}.
Variable eqb : K -> K -> bool.
Hypothesis eqb_spec : forall x y, reflect (x = y) (eqb x y).

Lemma NoDup_dget (k : K) (v : V) (d : Py.dict K V) :
  NoDup (Py.dkeys d) -> In (k, v) d -> Py.dget eqb k d = Some v.
Proof.
  induction d as [|[k0 v0] d IH]; simpl; [tauto|].
  intros Hnd [H|H]; inversion Hnd as [|? ? Hnotin Hnd']; subst.
  - injection H as -> ->. now rewrite (eqb_refl' eqb eqb_spec).
  - destruct (eqb_spec k k0) as [->|Hne]; auto.
    destruct Hnotin. change k0 with (fst (k0, v)). now apply in_map.
Qed.

Lemma fold_dset_keys_NoDup {X} (kf : X -> K) (vf : X -> V) (l : list X)
  (d0 : Py.dict K V) :
  NoDup (Py.dkeys d0) ->
  NoDup (Py.dkeys (fold_left (fun d x => Py.dset eqb (kf x) (vf x) d) l d0)).
Proof.
  revert d0; induction l as [|x l IH]; intros d0 H; simpl; auto.
  apply IH. now apply (dset_keys_NoDup eqb eqb_spec).
Qed.

Lemma fold_dset_values {X} (kf : X -> K) (vf : X -> V) (l : list X)
  (d0 : Py.dict K V) (k : K) (v : V) :
  In (k, v) (fold_left (fun d x => Py.dset eqb (kf x) (vf x) d) l d0) ->
  In (k, v) d0 \/ exists x, In x l /\ v = vf x.
Proof.
  revert d0; induction l as [|x l IH]; intros d0; simpl; auto.
  intros H. apply IH in H as [H|[y [Hy ->]]].
  - apply (dset_In eqb eqb_spec) in H as [H|H]; auto.
    injection H as -> ->. right. exists x. auto.
  - right. exists y. auto.
Qed.

Lemma dict_eqb_refl (veqb : V -> V -> bool) (d : Py.dict K V) :
  (forall v, veqb v v = true) ->
  NoDup (Py.dkeys d) -> dict_eqb eqb veqb d d = true.
Proof.
  intros Hv Hnd. unfold dict_eqb. rewrite Nat.eqb_refl. simpl.
  apply forallb_forall. intros [k v] Hin. simpl.
  now rewrite (NoDup_dget k v d Hnd Hin).
Qed.
End DictUnique.

(** A header has no difference with itself. *)
Lemma compare_header_refl (h : option element) : compare_header h h = (ok, []).
Proof.
  unfold compare_header.
  set (cd := index_custom_data h).
  rewrite flat_map_nil; auto.
  intros key Hin. apply sorted_in in Hin.
  apply (union_In _ pair_eqb_spec) in Hin.
  rewrite !(set_of_In _ pair_eqb_spec) in Hin.
  assert (Hkey : In key (Py.dkeys cd)) by tauto. clear Hin.
  apply (dmem_keys pair_eqb pair_eqb_spec) in Hkey.
  apply (dmem_dget pair_eqb) in Hkey as [m Hm].
  unfold header_key_diff. rewrite Hm.
  rewrite (dict_eqb_refl String.eqb String.eqb_spec); auto using String.eqb_refl.
  apply (dget_In pair_eqb pair_eqb_spec) in Hm.
  unfold cd, index_custom_data in Hm. destruct h as [h|]; [|destruct Hm].
  apply (fold_dset_values pair_eqb pair_eqb_spec
           (fun cd => (get_or cd "Category" "", get_or cd "Type" ""))
           (fun cd => fold_left
                        (fun metas m =>
                           Py.dset String.eqb (get_or m "Name" "") (get_or m "Value" "") metas)
                        (findall cd (NS_BRACKET +++ "Metadata")) []))
    in Hm as [[]|[x [_ ->]]].
  apply (fold_dset_keys_NoDup String.eqb String.eqb_spec
           (fun m => get_or m "Name" "") (fun m => get_or m "Value" "")).
  constructor.
Qed.

Lemma mapM_Forall {A B} (f : A -> option B) (P : B -> Prop) (l : list A)
  (ys : list B) :
  (forall x y, f x = Some y -> P y) -> mapM f l = Some ys -> Forall P ys.
Proof.
  intros H. revert ys; induction l as [|x l IH]; simpl; intros ys E.
  - injection E as <-. constructor.
  - destruct (f x) as [y|] eqn:Ex; [|discriminate]. cbn [bind] in E.
    destruct (mapM f l) as [ys'|]; [|discriminate]. cbn [bind] in E.
    injection E as <-. constructor; eauto.
Qed.

Lemma concat_nil_Forall {A} (l : list (list A)) :
  Forall (fun x => x = []) l -> concat l = [].
Proof. induction 1 as [|x l -> _ IH]; simpl; auto. Qed.

(** An index has no missing, extra or changed element against itself. *)
Lemma compare_indexes_refl (elems : Py.dict key element) (res : elements_result) :
  compare_indexes elems elems = Some res ->
  missing_in_rust res = [] /\ extra_in_rust res = [] /\ differences res = [].
Proof.
  unfold compare_indexes.
  rewrite (diff_self _ key_eqb_spec).
  change (sorted_keys []) with (Some (@nil key)). cbn [bind].
  destruct (sorted_keys _) as [common|]; [|discriminate]. cbn [bind].
  destruct (mapM _ common) as [ds|] eqn:E; [|discriminate]. cbn [bind].
  intros H. injection H as <-. cbn [missing_in_rust extra_in_rust differences].
  repeat split. apply concat_nil_Forall.
  eapply mapM_Forall; [|exact E].
  intros k y. cbv beta.
  destruct (Py.dget key_eqb k elems) as [e|]; [|discriminate].
  destruct (diff_element e e) as [d|] eqn:Ed; [|discriminate]. cbn [bind].
  apply diff_element_refl in Ed. subst d. now intros [= <-].
Qed.

Lemma compare_model_xml_refl (root : element) (err : list string) (mr : model_result) :
  compare_model_xml root root = Some (err, mr) ->
  fst (header mr) = ok /\
  missing_in_rust (elements mr) = [] /\ extra_in_rust (elements mr) = [] /\
  differences (elements mr) = [].
Proof.
  unfold compare_model_xml. rewrite compare_header_refl.
  destruct (find root (NS_BRACKET +++ "Model")) as [m|]; [|discriminate].
  cbn [bind]. destruct (index_elements m) as [elems dupes].
  destruct (compare_indexes elems elems) as [res|] eqn:E; [|discriminate].
  cbn [bind]. intros H. injection H as _ <-. cbn [header elements fst].
  split; auto. exact (compare_indexes_refl elems res E).
Qed.

Section Reflexive.

Variable unified_diff :
  list string -> list string -> string -> string -> nat -> list string.

Lemma compare_text_files_refl (d : directory) (fname : string) :
  compare_text_files unified_diff d d fname = (None, []) \/
  compare_text_files unified_diff d d fname = (Some ok, []).
Proof.
  unfold compare_text_files.
  destruct (Py.dget String.eqb fname d); auto.
  rewrite (list_eqb_refl String.eqb String.eqb_spec). auto.
Qed.

Lemma flat_eqb_spec (a b : string * string) : reflect (a = b) (flat_eqb a b).
Proof. apply pair_eqb_spec. Qed.

Lemma compare_simple_xml_refl (d : directory) (fname : string) (r : file_result) :
  compare_simple_xml unified_diff d d fname = Some r ->
  r = (None, []) \/ r = (Some ok, []).
Proof.
  unfold compare_simple_xml.
  destruct (Py.dget String.eqb fname d) as [f|]; [|intros [= <-]; auto].
  destruct (xml f) as [root|]; [|discriminate]. cbn [bind].
  unfold compare_flat. rewrite (list_eqb_refl flat_eqb flat_eqb_spec).
  intros [= <-]. auto.
Qed.

Lemma all_ok_record (fname : string) (r : file_result) (fr : file_results) :
  r = (None, []) \/ r = (Some ok, []) -> all_ok fr ->
  all_ok (record_result fname r fr).
Proof.
  intros [-> | ->] H; unfold record_result; cbn [fst snd]; auto.
  intros label st ls Hin.
  apply (dset_In String.eqb String.eqb_spec) in Hin as [E|Hin]; eauto.
  injection E as _ E' _. now subst.
Qed.

Lemma tracked_results_refl (d : directory) (fr : file_results) :
  tracked_results unified_diff d d = Some fr -> all_ok fr.
Proof.
  unfold tracked_results.
  destruct (compare_simple_xml unified_diff d d "DacMetadata.xml") as [r1|] eqn:E1;
    [|discriminate].
  destruct (compare_simple_xml unified_diff d d "[Content_Types].xml") as [r2|] eqn:E2;
    [|discriminate].
  cbn [bind]. intros [= <-].
  apply compare_simple_xml_refl in E1, E2.
  repeat apply all_ok_record; auto using compare_text_files_refl.
  intros label st ls [H|[]]. injection H as _ H' _. now subst.
Qed.

Lemma unexpected_results_refl (d : directory) (fr : file_results) :
  unexpected_results unified_diff d d fr = fr.
Proof.
  unfold unexpected_results.
  rewrite (diff_self _ String.eqb_spec).
  change (Py.sorted_str (Py.diff String.eqb [] known_files)) with (@nil string).
  generalize (Py.sorted_str
                (Py.diff String.eqb
                   (Py.inter String.eqb (list_files d) (list_files d)) known_files)).
  intros l. induction l as [|x l IH]; simpl; auto.
  unfold unknown_both_step at 2.
  destruct (compare_text_files_refl d x) as [-> | ->]; simpl; auto.
Qed.

(** A package that holds a model document, compared with itself: when
    the run completes, every recorded status is ok, the model comparison
    finds nothing, and the exit code is 0. *)
Lemma main_reflexive (d : directory) (r : run) :
  exists_in d "model.xml" = true ->
  main unified_diff d d = Some r ->
  all_ok (results r) /\
  (forall mr, model r = Some mr ->
     fst (header mr) = ok /\ missing_in_rust (elements mr) = [] /\
     extra_in_rust (elements mr) = [] /\ differences (elements mr) = []) /\
  exit_code r = 0.
Proof.
  unfold exists_in, Py.dmem, main. intros Hm.
  destruct (tracked_results unified_diff d d) as [fr|] eqn:Et; [|discriminate].
  cbn [bind]. rewrite unexpected_results_refl. unfold model_stage.
  destruct (Py.dget String.eqb "model.xml" d) as [f|]; [|discriminate].
  destruct (xml f) as [root|]; [|discriminate]. cbn [bind].
  destruct (compare_model_xml root root) as [[err mr]|] eqn:Ec; [|discriminate].
  cbn [bind fst snd]. intros [= <-]. cbn [results model exit_code].
  pose proof (tracked_results_refl d fr Et) as Hok.
  pose proof (compare_model_xml_refl root err mr Ec) as (H1 & H2 & H3 & H4).
  split; [exact Hok|]. split.
  - intros mr' [= <-]. auto.
  - assert (Hd : has_diffs fr (Some mr) = false).
    { destruct (has_diffs fr (Some mr)) eqn:E; auto.
      apply has_diffs_iff in E. destruct E as [(l & st & ls & Hin & _ & Hne)|(m & E & H)].
      - cbn [results] in Hin. destruct Hne. eapply Hok; eauto.
      - cbn [model] in E. injection E as <-.
        destruct H as [H|[H|[H|H]]]; congruence. }
    now rewrite Hd.
Qed.
End Reflexive.

(** A package with duplicate keys in its model, compared with itself:
    the warnings are logged, and the exit code is 0. *)
Example main_reflexive_package :
  main no_diff package package =
  Some {| stderr :=
            ["WARNING: 1 duplicate keys in rust model.xml"; "  SqlTable [dbo].[T]";
             "WARNING: 1 duplicate keys in dotnet model.xml"; "  SqlTable [dbo].[T]"];
          results :=
            [("Origin.xml", (ok, ["(skipped - contains timestamps/GUIDs)"]));
             ("DacMetadata.xml", (ok, []))];
          model :=
            Some {| header := (ok, []);
                    elements := {| missing_in_rust := []; extra_in_rust := [];
                                   differences := []; total_rust := 2;
                                   total_dotnet := 2 |} |};
          exit_code := 0 |}.
Proof. reflexivity. Qed.

(** ** Duplicate keys and the exit code *)

Lemma dedup_directory_dget (d : directory) (fname : string) :
  Py.dget String.eqb fname (dedup_directory d) =
  if String.eqb fname "model.xml"
  then option_map dedup_file (Py.dget String.eqb fname d)
  else Py.dget String.eqb fname d.
Proof.
  induction d as [|[n f] d IH].
  - cbn. now destruct (String.eqb fname "model.xml").
  - unfold dedup_directory in *. cbn [map fst snd].
    destruct (String.eqb n "model.xml") eqn:En; cbn [Py.dget].
    + destruct (String.eqb_spec fname n) as [E|E].
      * subst n. now rewrite En.
      * rewrite IH. reflexivity.
    + destruct (String.eqb_spec fname n) as [E|E].
      * subst n. now rewrite En.
      * rewrite IH. reflexivity.
Qed.

Lemma dedup_directory_keys (d : directory) :
  Py.dkeys (dedup_directory d) = Py.dkeys d.
Proof.
  unfold Py.dkeys, dedup_directory. rewrite map_map. apply map_ext.
  intros [n f]. simpl. now destruct (String.eqb n "model.xml").
Qed.

Section Dedup.

Variable unified_diff :
  list string -> list string -> string -> string -> nat -> list string.

Lemma dedup_directory_other (d : directory) (fname : string) :
  fname <> "model.xml" ->
  Py.dget String.eqb fname (dedup_directory d) = Py.dget String.eqb fname d.
Proof.
  intros H. rewrite dedup_directory_dget.
  destruct (String.eqb_spec fname "model.xml"); congruence.
Qed.

Lemma compare_text_files_dedup (dir_a dir_b : directory) (fname : string) :
  fname <> "model.xml" ->
  compare_text_files unified_diff (dedup_directory dir_a) (dedup_directory dir_b) fname =
  compare_text_files unified_diff dir_a dir_b fname.
Proof.
  intros H. unfold compare_text_files. now rewrite !dedup_directory_other.
Qed.

Lemma compare_simple_xml_dedup (dir_a dir_b : directory) (fname : string) :
  fname <> "model.xml" ->
  compare_simple_xml unified_diff (dedup_directory dir_a) (dedup_directory dir_b) fname =
  compare_simple_xml unified_diff dir_a dir_b fname.
Proof.
  intros H. unfold compare_simple_xml. now rewrite !dedup_directory_other.
Qed.

Lemma unexpected_results_dedup (dir_a dir_b : directory) (fr : file_results) :
  unexpected_results unified_diff (dedup_directory dir_a) (dedup_directory dir_b) fr =
  unexpected_results unified_diff dir_a dir_b fr.
Proof.
  unfold unexpected_results, list_files. rewrite !dedup_directory_keys.
  apply fold_left_ext_in. intros fr' fname Hin.
  unfold unknown_both_step. rewrite compare_text_files_dedup; auto.
  apply sorted_in in Hin. apply (diff_In _ String.eqb_spec) in Hin as [_ Hin].
  intros ->. apply Hin. simpl. tauto.
Qed.

(** The run on two packages with duplicate keys is the run on the
    deduplicated packages, warnings apart: same completion, same results,
    same exit code. *)
Lemma main_dedup (dir_a dir_b : directory) :
  main unified_diff (dedup_directory dir_a) (dedup_directory dir_b) =
  option_map silent (main unified_diff dir_a dir_b).
Proof.
  unfold main, tracked_results, model_stage.
  rewrite !compare_simple_xml_dedup, !compare_text_files_dedup by discriminate.
  destruct (compare_simple_xml unified_diff dir_a dir_b "DacMetadata.xml");
    cbn [bind option_map]; auto.
  destruct (compare_simple_xml unified_diff dir_a dir_b "[Content_Types].xml");
    cbn [bind option_map]; auto.
  rewrite unexpected_results_dedup, !dedup_directory_dget.
  change (String.eqb "model.xml" "model.xml") with true. cbv iota.
  destruct (Py.dget String.eqb "model.xml" dir_a) as [fa|],
           (Py.dget String.eqb "model.xml" dir_b) as [fb|];
    cbn [option_map]; try reflexivity.
  unfold dedup_file at 1 2. cbn [xml].
  destruct (xml fa) as [ra|]; cbn [bind option_map]; auto.
  destruct (xml fb) as [rb|]; cbn [bind option_map]; auto.
  rewrite compare_model_xml_dedup.
  destruct (compare_model_xml ra rb) as [[err mr]|]; reflexivity.
Qed.
End Dedup.

(** C9: [index_elements] keeps, for each key, the last element with that
    key (last write wins); it records a duplicate exactly when two
    elements have the same key, and then the warning is written to the
    diagnostic stream; the results of the comparison are those of the
    comparison of the documents without the earlier duplicates, which
    completes exactly when this one does; and the whole run on two
    packages is the run on the two deduplicated packages, warnings apart,
    with the same completion, the same results and the same exit code. *)
Theorem duplicate_keys_last_write_wins :
  (forall model : element,
     let elems := findall model (NS_BRACKET +++ "Element") in
     let index := fst (index_elements model) in
     let dupes := snd (index_elements model) in
     (forall k, Py.dget key_eqb k index =
                List.find (fun e => key_eqb (element_key e) k) (rev elems)) /\
     (dupes = [] <-> NoDup (map element_key elems)) /\
     length index + length dupes = length elems /\
     (forall side, duplicate_warning side dupes = [] <-> dupes = [])) /\
  (forall root_a root_b model_a model_b r,
     find root_a (NS_BRACKET +++ "Model") = Some model_a ->
     find root_b (NS_BRACKET +++ "Model") = Some model_b ->
     compare_model_xml root_a root_b = Some r ->
     fst r = duplicate_warning "rust" (snd (index_elements model_a))
               ++ duplicate_warning "dotnet" (snd (index_elements model_b))) /\
  (forall root_a root_b,
     compare_model_xml (dedup_root root_a) (dedup_root root_b) =
     option_map (fun r => ([], snd r)) (compare_model_xml root_a root_b)) /\
  (forall unified_diff dir_a dir_b,
     main unified_diff (dedup_directory dir_a) (dedup_directory dir_b) =
     option_map silent (main unified_diff dir_a dir_b)).
Proof.
  split; [|split; [|split]].
  - intros model elems index dupes. repeat split.
    + intros k. unfold index. rewrite index_elements_fold, index_fold_fst.
      rewrite (dget_fold_dset key_eqb key_eqb_spec element_key (fun e => e)).
      fold elems. now destruct (List.find _ _).
    + unfold dupes. rewrite index_elements_fold. fold elems. intros H.
      now apply index_fold_no_duplicates in H.
    + unfold dupes. rewrite index_elements_fold. fold elems. intros H.
      apply index_fold_no_duplicates. split; auto.
    + unfold index, dupes. rewrite index_elements_fold. fold elems.
      now rewrite index_fold_counts.
    + now apply duplicate_warning_nil.
    + now apply duplicate_warning_nil.
  - intros root_a root_b model_a model_b r Ha Hb. unfold compare_model_xml.
    rewrite Ha, Hb. cbn [bind].
    destruct (index_elements model_a) as [elems_a dupes_a].
    destruct (index_elements model_b) as [elems_b dupes_b]. cbn [snd].
    destruct (compare_indexes elems_a elems_b); cbn [bind]; [|discriminate].
    intros H. injection H as <-. reflexivity.
  - apply compare_model_xml_dedup.
  - intros unified_diff dir_a dir_b. apply main_dedup.
Qed.

Lemma duplicate_keys_last_write_wins_witness :
  Py.dget key_eqb (Key2 (Some "SqlTable") "[dbo].[T]") (fst (index_elements dup_model))
    = Some (named "SqlTable" "[dbo].[T]" [property "IsAnsiNullsOn" "False"]) /\
  compare_model_xml dup_root dup_root =
    Some (["WARNING: 1 duplicate keys in rust model.xml"; "  SqlTable [dbo].[T]";
           "WARNING: 1 duplicate keys in dotnet model.xml"; "  SqlTable [dbo].[T]"],
          {| header := (ok, []);
             elements := {| missing_in_rust := []; extra_in_rust := [];
                            differences := []; total_rust := 2; total_dotnet := 2 |} |}) /\
  compare_model_xml (dedup_root dup_root) (dedup_root dup_root) =
    Some ([],
          {| header := (ok, []);
             elements := {| missing_in_rust := []; extra_in_rust := [];
                            differences := []; total_rust := 2; total_dotnet := 2 |} |}).
Proof.
  destruct duplicate_keys_last_write_wins as (Hindex & Hlog & Hdedup & _).
  split; [|split].
  - destruct (Hindex dup_model) as (Hlast & _). rewrite Hlast. reflexivity.
  - reflexivity.
  - rewrite Hdedup. reflexivity.
Defined.

(** ** Further properties of the code *)

(** *** Namespaces *)

Lemma prefix_append (p t : string) : String.prefix p (p +++ t) = true.
Proof.
  induction p as [|c p IH]; simpl.
  - now destruct t.
  - destruct (ascii_dec c c); [exact IH|congruence].
Qed.

Lemma drop_append (p t : string) : Py.drop (String.length p) (p +++ t) = t.
Proof. induction p as [|c p IH]; simpl; auto. Qed.

Lemma drop_length (n : nat) (t : string) :
  String.length (Py.drop n t) <= String.length t.
Proof.
  revert t; induction n as [|n IH]; intros [|c t]; simpl; auto.
Qed.

(** [strip_ns] undoes the qualification of a tag by the namespace of the
    model document, whatever the local name is (even one that starts with
    the namespace again), and it never makes a tag longer. *)
Theorem strip_ns_qualified :
  (forall t, strip_ns (NS_BRACKET +++ t) = t) /\
  (forall t c, is_tag t c = true -> strip_ns (tag c) = t) /\
  (forall t, String.length (strip_ns t) <= String.length t).
Proof.
  assert (H : forall t, strip_ns (NS_BRACKET +++ t) = t).
  { intros t. unfold strip_ns, Py.startswith.
    now rewrite prefix_append, drop_append. }
  repeat split; auto.
  - intros t c Hc. unfold is_tag in Hc. apply String.eqb_eq in Hc.
    rewrite Hc. apply H.
  - intros t. unfold strip_ns. destruct (Py.startswith t NS_BRACKET); auto.
    apply drop_length.
Qed.

(** *** Text files *)

Lemma rstrip_all_space (w : string) : all_space w = true -> Py.rstrip w = "".
Proof.
  induction w as [|c w IH]; simpl; auto.
  intros H. apply andb_true_iff in H as [Hc Hw]. now rewrite IH, Hc.
Qed.

Lemma rstrip_append_space (s w : string) :
  all_space w = true -> Py.rstrip (s +++ w) = Py.rstrip s.
Proof.
  intros Hw. induction s as [|c s IH]; simpl.
  - now apply rstrip_all_space.
  - now rewrite IH.
Qed.

Lemma rstrip_same_but_trailing (la lb : string) :
  same_but_trailing la lb -> Py.rstrip la = Py.rstrip lb.
Proof.
  intros (s & wa & wb & -> & -> & Ha & Hb).
  now rewrite !rstrip_append_space.
Qed.

(** Two text files present on both sides whose lines differ in trailing
    whitespace only compare as identical, whatever the diff library
    would say. *)
Theorem compare_text_files_trailing_whitespace
  (unified_diff : list string -> list string -> string -> string -> nat -> list string)
  (dir_a dir_b : directory) (fname : string) (fa fb : file) :
  Py.dget String.eqb fname dir_a = Some fa ->
  Py.dget String.eqb fname dir_b = Some fb ->
  Forall2 same_but_trailing (lines fa) (lines fb) ->
  compare_text_files unified_diff dir_a dir_b fname = (Some ok, []).
Proof.
  intros Ha Hb H. unfold compare_text_files. rewrite Ha, Hb.
  assert (E : map Py.rstrip (lines fa) = map Py.rstrip (lines fb)).
  { induction H as [|la lb l l' Hl _ IH]; simpl; auto.
    now rewrite (rstrip_same_but_trailing la lb Hl), IH. }
  rewrite E. now rewrite (list_eqb_refl String.eqb String.eqb_spec).
Qed.

Lemma compare_text_files_trailing_whitespace_witness :
  compare_text_files no_diff
    [("predeploy.sql", {| lines := ["PRINT 1  "; "GO"]; xml := None |})]
    [("predeploy.sql", {| lines := ["PRINT 1"; "GO "]; xml := None |})]
    "predeploy.sql" = (Some ok, []).
Proof.
  eapply compare_text_files_trailing_whitespace; try reflexivity.
  simpl. repeat constructor.
  - exists "PRINT 1", "  ", "". repeat split; reflexivity.
  - exists "GO", "", " ". repeat split; reflexivity.
Defined.

Lemma list_eqb_sym {A} (eqb : A -> A -> bool)
  (H : forall x y, reflect (x = y) (eqb x y)) (a b : list A) :
  list_eqb eqb a b = list_eqb eqb b a.
Proof.
  destruct (list_eqb_spec eqb H a b), (list_eqb_spec eqb H b a); congruence.
Qed.

Lemma compare_text_files_swap
  (unified_diff : list string -> list string -> string -> string -> nat -> list string)
  (dir_a dir_b : directory) (fname : string) :
  fst (compare_text_files unified_diff dir_b dir_a fname) =
    option_map swap_status (fst (compare_text_files unified_diff dir_a dir_b fname)).
Proof.
  unfold compare_text_files.
  destruct (Py.dget String.eqb fname dir_a) as [fa|],
           (Py.dget String.eqb fname dir_b) as [fb|]; try reflexivity.
  rewrite (list_eqb_sym String.eqb String.eqb_spec).
  now destruct (list_eqb String.eqb _ _).
Qed.

Lemma compare_simple_xml_swap
  (unified_diff : list string -> list string -> string -> string -> nat -> list string)
  (dir_a dir_b : directory) (fname : string) :
  option_map fst (compare_simple_xml unified_diff dir_b dir_a fname) =
    option_map (fun r => option_map swap_status (fst r))
      (compare_simple_xml unified_diff dir_a dir_b fname).
Proof.
  unfold compare_simple_xml, compare_flat.
  destruct (Py.dget String.eqb fname dir_a) as [fa|],
           (Py.dget String.eqb fname dir_b) as [fb|]; try reflexivity.
  destruct (xml fa) as [ra|], (xml fb) as [rb|]; try reflexivity.
  cbn [bind option_map].
  rewrite (list_eqb_sym flat_eqb flat_eqb_spec).
  now destruct (list_eqb flat_eqb _ _).
Qed.

(** Exchanging the two packages exchanges the two missing statuses of a
    file and changes nothing else in its status, for the text files and
    for the simple XML files; and the comparison of a simple XML file
    raises for one order exactly when it raises for the other. *)
Theorem file_status_symmetric
  (unified_diff : list string -> list string -> string -> string -> nat -> list string)
  (dir_a dir_b : directory) (fname : string) :
  fst (compare_text_files unified_diff dir_b dir_a fname) =
    option_map swap_status (fst (compare_text_files unified_diff dir_a dir_b fname)) /\
  option_map fst (compare_simple_xml unified_diff dir_b dir_a fname) =
    option_map (fun r => option_map swap_status (fst r))
      (compare_simple_xml unified_diff dir_a dir_b fname).
Proof.
  split.
  - apply compare_text_files_swap.
  - apply compare_simple_xml_swap.
Qed.

(** *** Canonical strings *)

Lemma dget_permutation {V} (a a' : Py.dict string V) (k : string) :
  Permutation a a' -> NoDup (Py.dkeys a) ->
  Py.dget String.eqb k a = Py.dget String.eqb k a'.
Proof.
  intros HP Hnd.
  assert (Hnd' : NoDup (Py.dkeys a')).
  { eapply Permutation_NoDup; [|exact Hnd]. now apply Permutation_map. }
  destruct (Py.dget String.eqb k a) as [v|] eqn:E.
  - apply (dget_In String.eqb String.eqb_spec) in E.
    symmetry. apply (NoDup_dget String.eqb String.eqb_spec); auto.
    eapply Permutation_in; eauto.
  - symmetry. apply (dget_none_keys String.eqb String.eqb_spec).
    apply (dget_none_keys String.eqb String.eqb_spec) in E.
    intros Hin. apply E. eapply Permutation_in; [|exact Hin].
    apply Permutation_sym. now apply Permutation_map.
Qed.

(** The canonical string of a node depends only on its tag without the
    namespace, on its attributes as a mapping (whatever their order) and
    on its text without the surrounding whitespace; its children play no
    part. *)
Theorem xml_to_canonical_depends
  (t t' : string) (a a' : Py.dict string string) (x x' : option string)
  (cs cs' : list element) :
  strip_ns t = strip_ns t' ->
  Permutation a a' -> NoDup (Py.dkeys a) ->
  Py.strip (Py.or_empty x) = Py.strip (Py.or_empty x') ->
  xml_to_canonical (Node t a x cs) = xml_to_canonical (Node t' a' x' cs').
Proof.
  intros Ht HP Hnd Hx. unfold xml_to_canonical. cbn [tag attrib text].
  rewrite Ht, Hx.
  rewrite (sorted_str_permutation (Py.dkeys a) (Py.dkeys a'))
    by now apply Permutation_map.
  assert (E : map (fun k => k +++ "=" +++ get_or (Node t a x cs) k "")
                  (Py.sorted_str (Py.dkeys a')) =
              map (fun k => k +++ "=" +++ get_or (Node t' a' x' cs') k "")
                  (Py.sorted_str (Py.dkeys a'))).
  { apply map_ext. intros k. unfold get_or, get. cbn [attrib].
    now rewrite (dget_permutation a a' k HP Hnd). }
  now rewrite E.
Qed.

Lemma xml_to_canonical_depends_witness :
  xml_to_canonical
    (Node (NS_BRACKET +++ "Default") [("Extension", "xml"); ("ContentType", "text/xml")]
          (Some "  ") [leaf "Ignored"]) =
  xml_to_canonical
    (Node "Default" [("ContentType", "text/xml"); ("Extension", "xml")] None []).
Proof.
  apply xml_to_canonical_depends.
  - reflexivity.
  - apply perm_swap.
  - repeat constructor; simpl; intuition discriminate.
  - reflexivity.
Defined.

(** *** Flattening *)





Lemma flatten_sibling_permutation_witness :
  flatten (Node "Types" [] None
             [default_type "xml" "text/xml"; default_type "sql" "text/plain"]) "" =
  flatten (Node "Types" [] None
             [default_type "sql" "text/plain"; default_type "xml" "text/xml"]) "".
Proof.
  apply flatten_sibling_permutation.
  - apply perm_swap.
  - repeat constructor; simpl; intuition discriminate.
Defined.

Lemma fingerprint_children_permutation_witness :
  inline_element_fingerprint
    (inline_column [property "IsNullable" "False"; type_specifier ["[int]"];
                    property "Length" "10"]) =
  inline_element_fingerprint
    (inline_column [type_specifier ["[int]"]; property "Length" "10";
                    property "IsNullable" "False"]).
Proof.
  apply fingerprint_children_permutation.
  - reflexivity.
  - simpl. eapply perm_trans; [apply perm_swap|]. apply perm_skip, perm_swap.
Defined.

Lemma fingerprint_entries_permutation_witness :
  inline_element_fingerprint
    (inline_column [property "IsNullable" "False"; type_specifier ["[a]"; "[b]"]]) =
  inline_element_fingerprint
    (inline_column [property "IsNullable" "False"; type_specifier ["[b]"; "[a]"]]).
Proof.
  apply fingerprint_entries_permutation.
  - reflexivity.
  - simpl. constructor; [now left|]. constructor; [|constructor].
    right. repeat split; try reflexivity. apply perm_swap.
Defined.

Lemma main_reflexive_witness :
  exists r, main no_diff package package = Some r /\ exit_code r = 0.
Proof.
  eexists. split; [reflexivity|].
  eapply (main_reflexive no_diff package); reflexivity.
Defined.

(** *** Identity keys *)

Lemma find_filter {A} (p q : A -> bool) (l : list A) :
  List.find (fun c => p c && q c) l = List.find q (filter p l).
Proof.
  induction l as [|x l IH]; simpl; auto.
  destruct (p x); simpl; auto. now destruct (q x).
Qed.

Lemma get_ref_name_relationships (e e' : element) (rel_name : string) :
  findall e (NS_BRACKET +++ "Relationship") = findall e' (NS_BRACKET +++ "Relationship") ->
  get_ref_name e rel_name = get_ref_name e' rel_name.
Proof.
  intros H. unfold get_ref_name, find_with_attr.
  rewrite !(find_filter (fun c => String.eqb (tag c) (NS_BRACKET +++ "Relationship"))).
  unfold findall in H. now rewrite H.
Qed.

(** The identity key of an element depends only on its Type and Name
    attributes and on its Relationship children: properties, annotations,
    other attributes and text never change it. *)
Theorem element_key_depends (e e' : element) :
  get e "Type" = get e' "Type" ->
  get e "Name" = get e' "Name" ->
  findall e (NS_BRACKET +++ "Relationship") =
    findall e' (NS_BRACKET +++ "Relationship") ->
  element_key e = element_key e'.
Proof.
  intros Ht Hn Hr. unfold element_key.
  rewrite Ht, Hn.
  now rewrite !(get_ref_name_relationships e e' _ Hr).
Qed.

Lemma element_key_depends_witness :
  element_key
    (mk "Element" [("Type", "SqlDefaultConstraint")]
       [property "DefaultExpressionScript" "0";
        mk "Relationship" [("Name", "DefiningTable")] [reference "[dbo].[T]"];
        mk "Relationship" [("Name", "ForColumn")] [reference "[dbo].[T].[c]"]]) =
  element_key
    (mk "Element" [("Type", "SqlDefaultConstraint"); ("Disambiguator", "3")]
       [mk "Relationship" [("Name", "DefiningTable")] [reference "[dbo].[T]"];
        annotation_node "SysCommentsObjectAnnotation" [];
        mk "Relationship" [("Name", "ForColumn")] [reference "[dbo].[T].[c]"]]).
Proof. apply element_key_depends; reflexivity. Defined.

(** *** Property and relationship dicts *)

Section FoldKeys.
Context {K V X : Type}.
Variable eqb : K -> K -> bool.
Hypothesis eqb_spec : forall x y, reflect (x = y) (eqb x y).
Variables (kf : X -> K) (vf : X -> V).

Lemma fold_dset_keys (l : list X) (d0 : Py.dict K V) (k : K) :
  In k (Py.dkeys (fold_left (fun d x => Py.dset eqb (kf x) (vf x) d) l d0)) <->
  In k (Py.dkeys d0) \/ exists x, In x l /\ kf x = k.
Proof.
  revert d0; induction l as [|x l IH]; intros d0; simpl.
  - split; auto. intros [H|[x [[] _]]]; auto.
  - rewrite IH. destruct (Py.dmem eqb (kf x) d0) eqn:E.
    + rewrite (dkeys_dset_present eqb) by assumption.
      apply (dmem_keys eqb eqb_spec) in E. split.
      * intros [H|[y [Hy Hk]]]; eauto.
      * intros [H|[y [[->|Hy] Hk]]]; eauto. subst. auto.
    + rewrite (dset_absent eqb) by assumption.
      unfold Py.dkeys at 1. rewrite map_app, in_app_iff. simpl. split.
      * intros [[H|[H|[]]]|[y [Hy Hk]]]; eauto.
      * intros [H|[y [[->|Hy] Hk]]]; eauto.
Qed.

Lemma fold_dset_length (l : list X) (d0 : Py.dict K V) :
  length (fold_left (fun d x => Py.dset eqb (kf x) (vf x) d) l d0)
  <= length d0 + length l.
Proof.
  revert d0; induction l as [|x l IH]; intros d0; simpl; [lia|].
  specialize (IH (Py.dset eqb (kf x) (vf x) d0)).
  destruct (Py.dmem eqb (kf x) d0) eqn:E.
  - rewrite (dset_length_present eqb) in IH by assumption. lia.
  - rewrite (dset_absent eqb _ _ _ E) in *. rewrite length_app in IH.
    simpl in IH. lia.
Qed.
End FoldKeys.

(** [get_properties] gives a dict whose keys are exactly the names of the
    [Property] children, each once; a name that several children carry is
    recorded with the value of the last of them, and a name that no child
    carries is absent. *)
Theorem get_properties_keys (elem : element) :
  let nodes := findall elem (NS_BRACKET +++ "Property") in
  NoDup (Py.dkeys (get_properties elem)) /\
  (forall name, In name (Py.dkeys (get_properties elem)) <->
                exists prop, In prop nodes /\ get prop "Name" = name) /\
  length (get_properties elem) <= length nodes /\
  (forall name,
     Py.dget ostr_eqb name (get_properties elem) =
     option_map property_value
       (List.find (fun prop => ostr_eqb (get prop "Name") name) (rev nodes))).
Proof.
  intros nodes. unfold get_properties. fold nodes. repeat split.
  - apply (fold_dset_keys_NoDup ostr_eqb ostr_eqb_spec). constructor.
  - intros H. apply (fold_dset_keys ostr_eqb ostr_eqb_spec) in H as [[]|H]. exact H.
  - intros H. apply (fold_dset_keys ostr_eqb ostr_eqb_spec). now right.
  - apply (fold_dset_length ostr_eqb (fun p => get p "Name") property_value nodes []).
  - intros name.
    rewrite (dget_fold_dset ostr_eqb ostr_eqb_spec (fun p => get p "Name") property_value).
    now destruct (List.find _ _).
Qed.

(** [get_relationships] gives a dict whose keys are exactly the names of
    the [Relationship] children, each once, with the entries of the last
    child of that name; every entry is a reference or an inline
    fingerprint, and a relationship has at most as many entries as it has
    [Entry] children. *)
Theorem get_relationships_keys (elem : element) :
  let nodes := findall elem (NS_BRACKET +++ "Relationship") in
  let entries := fun rel => flat_map entry_of (findall rel (NS_BRACKET +++ "Entry")) in
  NoDup (Py.dkeys (get_relationships elem)) /\
  (forall name, In name (Py.dkeys (get_relationships elem)) <->
                exists rel, In rel nodes /\ get rel "Name" = name) /\
  (forall name,
     Py.dget ostr_eqb name (get_relationships elem) =
     option_map entries
       (List.find (fun rel => ostr_eqb (get rel "Name") name) (rev nodes))) /\
  (forall rel,
     length (entries rel) <= length (findall rel (NS_BRACKET +++ "Entry")) /\
     forall e, In e (entries rel) -> fst e = "ref" \/ fst e = "inline").
Proof.
  intros nodes entries. unfold get_relationships. fold nodes. repeat split.
  - apply (fold_dset_keys_NoDup ostr_eqb ostr_eqb_spec). constructor.
  - intros H. apply (fold_dset_keys ostr_eqb ostr_eqb_spec) in H as [[]|H]. exact H.
  - intros H.
    apply (fold_dset_keys ostr_eqb ostr_eqb_spec (fun r => get r "Name") entries).
    now right.
  - intros name.
    rewrite (dget_fold_dset ostr_eqb ostr_eqb_spec (fun r => get r "Name") entries).
    now destruct (List.find _ _).
  - unfold entries. induction (findall rel (NS_BRACKET +++ "Entry")) as [|x l IH];
      simpl; auto.
    rewrite length_app.
    assert (length (entry_of x) <= 1).
    { unfold entry_of. destruct (find x _); simpl; auto. destruct (find x _); simpl; auto. }
    lia.
  - unfold entries. intros e He. apply in_flat_map in He as [x [_ He]].
    unfold entry_of in He.
    destruct (find x (NS_BRACKET +++ "References")).
    + destruct He as [<-|[]]. now left.
    + destruct (find x (NS_BRACKET +++ "Element")); [|destruct He].
      destruct He as [<-|[]]. now right.
Qed.

(** *** The report *)

Lemma print_file_block_length (entry : string * (status * list string)) :
  length (print_file_block entry) <= 53.
Proof.
  destruct entry as [label [st ls]]. unfold print_file_block.
  destruct (status_eqb st ok); rewrite !length_app; cbn [length]; [lia|].
  assert (H' : length (firstn 50 ls) <= 50) by (rewrite length_firstn; lia).
  destruct (50 <? length ls); cbn [length]; lia.
Qed.

(** The file part of the report is bounded whatever the size of the
    diffs: at most 53 lines for each file result after the two lines of
    the title.  For a file that differs, the block shows the first 50
    lines, and when there are more it says how many it leaves out, which
    with the 50 shown makes the number of lines of the diff. *)
Theorem print_report_files_bounded (fr : Py.dict string (status * list string)) :
  length (print_report fr None) <= 2 + 53 * length fr /\
  (forall label st ls,
     st <> ok ->
     print_file_block (label, (st, ls)) =
       ("--- " +++ label +++ " ---") :: firstn 50 ls
         ++ (if 50 <? length ls
             then ["  ... (" +++ Py.str_nat (length ls - 50) +++ " more lines)"]
             else [])
         ++ [""]) /\
  (forall ls : list string,
     50 < length ls -> length (firstn 50 ls) + (length ls - 50) = length ls).
Proof.
  repeat split.
  - unfold print_report. rewrite app_nil_r. cbn [app length].
    induction fr as [|entry fr IH]; cbn [flat_map length]; [lia|].
    rewrite length_app. pose proof (print_file_block_length entry).
    cbn [length] in IH. lia.
  - intros label st ls Hne. unfold print_file_block.
    destruct (status_eqb_spec st ok); [contradiction|].
    cbn [app]. now rewrite <- app_assoc.
  - intros ls H. rewrite length_firstn. lia.
Qed.

(** The head of the file results. *)
Lemma dset_head {V} (k k0 : string) (v v0 : V) (d : Py.dict string V) :
  k <> k0 ->
  Py.dset String.eqb k v ((k0, v0) :: d) = (k0, v0) :: Py.dset String.eqb k v d.
Proof.
  intros H. simpl. destruct (String.eqb_spec k k0); congruence.
Qed.

Section ReportOrigin.

Variable unified_diff :
  list string -> list string -> string -> string -> nat -> list string.

Lemma record_result_head (fname : string) (r : file_result) (k0 : string)
  (v0 : status * list string) (fr : file_results) :
  fname <> k0 ->
  exists fr', record_result fname r ((k0, v0) :: fr) = (k0, v0) :: fr'.
Proof.
  intros H. unfold record_result. destruct (fst r); eauto.
  rewrite dset_head by assumption. eauto.
Qed.

Lemma tracked_results_head (dir_a dir_b : directory) (fr : file_results) :
  tracked_results unified_diff dir_a dir_b = Some fr ->
  exists rest,
    fr = ("Origin.xml", (ok, ["(skipped - contains timestamps/GUIDs)"])) :: rest.
Proof.
  unfold tracked_results.
  destruct (compare_simple_xml unified_diff dir_a dir_b "DacMetadata.xml") as [r1|];
    [|discriminate].
  destruct (compare_simple_xml unified_diff dir_a dir_b "[Content_Types].xml") as [r2|];
    [|discriminate].
  cbn [bind]. intros [= <-].
  destruct (record_result_head "DacMetadata.xml" r1 "Origin.xml"
              (ok, ["(skipped - contains timestamps/GUIDs)"]) []) as [f1 ->];
    [discriminate|].
  destruct (record_result_head "[Content_Types].xml" r2 "Origin.xml"
              (ok, ["(skipped - contains timestamps/GUIDs)"]) f1) as [f2 ->];
    [discriminate|].
  destruct (record_result_head "predeploy.sql"
              (compare_text_files unified_diff dir_a dir_b "predeploy.sql") "Origin.xml"
              (ok, ["(skipped - contains timestamps/GUIDs)"]) f2) as [f3 ->];
    [discriminate|].
  destruct (record_result_head "postdeploy.sql"
              (compare_text_files unified_diff dir_a dir_b "postdeploy.sql") "Origin.xml"
              (ok, ["(skipped - contains timestamps/GUIDs)"]) f3) as [f4 ->];
    [discriminate|].
  eauto.
Qed.

Lemma unknown_both_fold_head (dir_a dir_b : directory) (l : list string)
  (v0 : status * list string) (fr : file_results) :
  (forall fname, In fname l -> fname <> "Origin.xml") ->
  exists fr',
    fold_left (unknown_both_step unified_diff dir_a dir_b) l (("Origin.xml", v0) :: fr)
    = ("Origin.xml", v0) :: fr'.
Proof.
  revert fr; induction l as [|x l IH]; intros fr H; simpl; eauto.
  unfold unknown_both_step at 2.
  destruct (fst (compare_text_files unified_diff dir_a dir_b x)) as [st|].
  - destruct (negb (status_eqb st ok)).
    + rewrite dset_head by (apply H; now left).
      apply IH. intros f Hf. apply H. now right.
    + apply IH. intros f Hf. apply H. now right.
  - apply IH. intros f Hf. apply H. now right.
Qed.

Lemma unexpected_results_head (dir_a dir_b : directory)
  (v0 : status * list string) (fr : file_results) :
  exists fr',
    unexpected_results unified_diff dir_a dir_b (("Origin.xml", v0) :: fr)
    = ("Origin.xml", v0) :: fr'.
Proof.
  unfold unexpected_results.
  assert (Hl : forall fname,
             In fname (Py.sorted_str
                         (Py.diff String.eqb
                            (Py.inter String.eqb (list_files dir_a) (list_files dir_b))
                            known_files)) ->
             fname <> "Origin.xml").
  { intros fname Hin. apply not_known_not_origin.
    apply sorted_in in Hin. now apply (diff_In _ String.eqb_spec) in Hin. }
  destruct (Py.sorted_str (Py.diff String.eqb
              (Py.diff String.eqb (list_files dir_a) (list_files dir_b)) known_files));
    destruct (Py.sorted_str (Py.diff String.eqb
              (Py.diff String.eqb (list_files dir_b) (list_files dir_a)) known_files)).
  - now apply unknown_both_fold_head.
  - destruct (negb (Py.dmem String.eqb "(unexpected files)" (("Origin.xml", v0) :: fr)));
      rewrite dset_head by discriminate; now apply unknown_both_fold_head.
  - rewrite dset_head by discriminate. now apply unknown_both_fold_head.
  - rewrite dset_head by discriminate.
    destruct (negb (Py.dmem String.eqb "(unexpected files)" _));
      rewrite dset_head by discriminate; now apply unknown_both_fold_head.
Qed.

(** Origin.xml is reported as identical without having been compared:
    the report of every completed run starts with the title and the block
    of Origin.xml, which reads OK (identical); the note that [main]
    attaches to the entry is not printed. *)
Theorem report_starts_with_origin (dir_a dir_b : directory) (r : run) :
  main unified_diff dir_a dir_b = Some r ->
  exists rest,
    print_report (results r) (model r) =
    ["=== Dacpac Comparison Report ==="; ""; "--- Origin.xml ---"; "OK (identical)"; ""]
      ++ rest.
Proof.
  unfold main. intros H.
  destruct (tracked_results unified_diff dir_a dir_b) as [fr0|] eqn:Et; [|discriminate].
  cbn [bind] in H.
  destruct (tracked_results_head _ _ _ Et) as [rest0 ->].
  destruct (unexpected_results_head dir_a dir_b
              (ok, ["(skipped - contains timestamps/GUIDs)"]) rest0) as [fr1 E1].
  rewrite E1 in H.
  assert (Hm : exists err mr fr2,
             model_stage dir_a dir_b
               (("Origin.xml", (ok, ["(skipped - contains timestamps/GUIDs)"])) :: fr1)
             = Some (err, mr,
                     ("Origin.xml", (ok, ["(skipped - contains timestamps/GUIDs)"])) :: fr2)).
  { unfold model_stage in *.
    destruct (Py.dget String.eqb "model.xml" dir_a) as [fa|],
             (Py.dget String.eqb "model.xml" dir_b) as [fb|];
      try (rewrite dset_head by discriminate; eauto).
    destruct (xml fa) as [ra|]; [|discriminate].
    destruct (xml fb) as [rb|]; [|discriminate]. cbn [bind] in *.
    destruct (compare_model_xml ra rb) as [res|]; [|discriminate]. cbn [bind]. eauto. }
  destruct Hm as (err & mr & fr2 & Em). rewrite Em in H. cbn [bind] in H.
  injection H as <-. cbn [results model].
  unfold print_report. cbn [flat_map print_file_block status_eqb app].
  eexists. reflexivity.
Qed.
End ReportOrigin.

Lemma report_starts_with_origin_witness :
  exists rest,
    print_report
      [("Origin.xml", (ok, ["(skipped - contains timestamps/GUIDs)"]));
       ("DacMetadata.xml", (ok, []));
       ("model.xml", (missing_in_rust_status, ["  File missing in rust dacpac"]))]
      None =
    ["=== Dacpac Comparison Report ==="; ""; "--- Origin.xml ---"; "OK (identical)"; ""]
      ++ rest.
Proof.
  exact (report_starts_with_origin no_diff no_model no_model _ eq_refl).
Defined.

(** *** Unexpected files *)

Section Unexpected.

Variable unified_diff :
  list string -> list string -> string -> string -> nat -> list string.

Lemma unknown_both_fold_flags (dir_a dir_b : directory) (l : list string)
  (fr : file_results) (fname : string) (st : status) :
  In fname l -> fname <> "Origin.xml" ->
  fst (compare_text_files unified_diff dir_a dir_b fname) = Some st -> st <> ok ->
  flagged (fold_left (unknown_both_step unified_diff dir_a dir_b) l fr) = true.
Proof.
  intros Hin Hno Hst Hne. revert fr. induction l as [|x l IH]; intros fr; [destruct Hin|].
  simpl. destruct Hin as [->|Hin]; [|now apply IH].
  apply unknown_both_fold_mono. unfold unknown_both_step. rewrite Hst.
  destruct (status_eqb_spec st ok); [contradiction|]. simpl.
  now apply flagged_dset_bad.
Qed.

Lemma nonempty_sorted_str (l : list string) (x : string) :
  In x l -> Py.sorted_str l <> [].
Proof.
  intros H E. apply (sorted_in String.ltb) in H. unfold Py.sorted_str in E.
  rewrite E in H. destruct H.
Qed.

Lemma unexpected_results_one_side (dir_a dir_b : directory) (fr : file_results)
  (fname : string) :
  ~ In fname known_files ->
  exists_in dir_a fname <> exists_in dir_b fname ->
  flagged (unexpected_results unified_diff dir_a dir_b fr) = true.
Proof.
  intros Hk Hne. unfold unexpected_results. apply unknown_both_fold_mono.
  assert (Hcase :
            In fname (Py.diff String.eqb
                        (Py.diff String.eqb (list_files dir_a) (list_files dir_b))
                        known_files) \/
            In fname (Py.diff String.eqb
                        (Py.diff String.eqb (list_files dir_b) (list_files dir_a))
                        known_files)).
  { rewrite !(diff_In _ String.eqb_spec), !list_files_In.
    unfold exists_in in Hne.
    destruct (Py.dmem String.eqb fname dir_a), (Py.dmem String.eqb fname dir_b);
      try congruence; [left|right]; repeat split; auto; discriminate. }
  destruct Hcase as [H|H]; apply nonempty_sorted_str in H.
  - destruct (Py.sorted_str (Py.diff String.eqb
                (Py.diff String.eqb (list_files dir_a) (list_files dir_b)) known_files))
      as [|x l]; [congruence|].
    destruct (Py.sorted_str _); [|apply flagged_dset_mono; [discriminate|]];
      apply flagged_dset_bad; discriminate.
  - destruct (Py.sorted_str (Py.diff String.eqb
                (Py.diff String.eqb (list_files dir_b) (list_files dir_a)) known_files))
      as [|x l]; [congruence|].
    destruct (negb _); apply flagged_dset_bad; discriminate.
Qed.

Lemma unexpected_results_both_sides (dir_a dir_b : directory) (fr : file_results)
  (fname : string) (st : status) :
  ~ In fname known_files ->
  exists_in dir_a fname = true -> exists_in dir_b fname = true ->
  fst (compare_text_files unified_diff dir_a dir_b fname) = Some st -> st <> ok ->
  flagged (unexpected_results unified_diff dir_a dir_b fr) = true.
Proof.
  intros Hk Ha Hb Hst Hne. unfold unexpected_results.
  eapply unknown_both_fold_flags; eauto.
  - apply sorted_in. rewrite (diff_In _ String.eqb_spec), (inter_In _ String.eqb_spec).
    rewrite !list_files_In. auto.
  - now apply not_known_not_origin.
Qed.

(** A file outside the known set forces exit code 1 when it is present on
    one side only, and when it is present on both sides with lines that
    differ after the trailing whitespace is removed. *)
Theorem unexpected_file_detected (dir_a dir_b : directory) (r : run) (fname : string) :
  main unified_diff dir_a dir_b = Some r ->
  ~ In fname known_files ->
  (exists_in dir_a fname <> exists_in dir_b fname -> exit_code r = 1) /\
  (forall fa fb,
     Py.dget String.eqb fname dir_a = Some fa ->
     Py.dget String.eqb fname dir_b = Some fb ->
     map Py.rstrip (lines fa) <> map Py.rstrip (lines fb) ->
     exit_code r = 1).
Proof.
  unfold main. intros H Hk.
  destruct (tracked_results unified_diff dir_a dir_b) as [fr0|]; [|discriminate].
  cbn [bind] in H.
  destruct (model_stage dir_a dir_b (unexpected_results unified_diff dir_a dir_b fr0))
    as [[[err mr] fr]|] eqn:Em; [|discriminate].
  cbn [bind] in H. injection H as <-. cbn [exit_code].
  assert (Hflag : flagged (unexpected_results unified_diff dir_a dir_b fr0) = true ->
                  (if has_diffs fr mr then 1 else 0) = 1).
  { intros Hf. apply (model_stage_mono _ _ _ _ _ _ Em) in Hf.
    unfold has_diffs. fold (flagged fr). now rewrite Hf. }
  split.
  - intros Hne. apply Hflag. now apply (unexpected_results_one_side _ _ _ fname).
  - intros fa fb Ha Hb Hl. apply Hflag.
    apply (unexpected_results_both_sides _ _ _ fname different); auto.
    + unfold exists_in, Py.dmem. now rewrite Ha.
    + unfold exists_in, Py.dmem. now rewrite Hb.
    + unfold compare_text_files. rewrite Ha, Hb.
      destruct (list_eqb_spec String.eqb String.eqb_spec
                  (map Py.rstrip (lines fa)) (map Py.rstrip (lines fb)));
        [contradiction|reflexivity].
    + discriminate.
Qed.
End Unexpected.

Lemma unexpected_file_detected_witness :
  exists r,
    main no_diff (package ++ [("refactor.log", {| lines := []; xml := None |})]) package
      = Some r /\
    exit_code r = 1.
Proof.
  eexists. split; [reflexivity|].
  destruct (unexpected_file_detected no_diff
              (package ++ [("refactor.log", {| lines := []; xml := None |})]) package
              _ "refactor.log" eq_refl) as [H _].
  - simpl. intuition discriminate.
  - apply H. discriminate.
Defined.

(** *** Sorting values that may be [None] *)

Section PartialSortFacts.
Context {A : Type}.
Variable lt : A -> A -> option bool.

Lemma comparable_sym (x y : A) : Py.comparable lt x y = Py.comparable lt y x.
Proof. unfold Py.comparable. now destruct (lt x y), (lt y x). Qed.

Lemma forallb_permutation (p : A -> bool) (l l' : list A) :
  Permutation l l' -> forallb p l = forallb p l'.
Proof.
  induction 1 as [|x l l' _ IH|x y l|l l' l'' _ IH1 _ IH2]; simpl; auto.
  - now rewrite IH.
  - now destruct (p x), (p y).
  - congruence.
Qed.

Lemma all_comparable_permutation (l l' : list A) :
  Permutation l l' -> Py.all_comparable lt l = Py.all_comparable lt l'.
Proof.
  induction 1 as [|x l l' HP IH|x y l|l l' l'' _ IH1 _ IH2]; simpl; auto.
  - now rewrite IH, (forallb_permutation _ l l').
  - rewrite (comparable_sym y x).
    destruct (Py.comparable lt x y), (forallb (Py.comparable lt x) l),
             (forallb (Py.comparable lt y) l); reflexivity.
  - congruence.
Qed.

(** A sort that completes gives a permutation of its input; whether it
    completes does not depend on the order of the input. *)
Lemma sorted_partial_permutation (l s : list A) :
  Py.sorted_partial lt l = Some s -> Permutation l s.
Proof.
  unfold Py.sorted_partial. destruct (Py.all_comparable lt l); [|discriminate].
  intros [= <-]. apply sorted_perm.
Qed.

Lemma sorted_partial_completes (l l' : list A) (s : list A) :
  Permutation l l' -> Py.sorted_partial lt l = Some s ->
  exists s', Py.sorted_partial lt l' = Some s'.
Proof.
  unfold Py.sorted_partial. intros HP.
  rewrite (all_comparable_permutation l l' HP).
  destruct (Py.all_comparable lt l'); [eauto|discriminate].
Qed.

Lemma all_comparable_pairwise (l : list A) :
  (forall x y, In x l -> In y l -> Py.comparable lt x y = true) ->
  Py.all_comparable lt l = true.
Proof.
  induction l as [|x l IH]; simpl; auto. intros H.
  apply andb_true_iff. split.
  - apply forallb_forall. intros y Hy. apply H; auto.
  - apply IH. intros a b Ha Hb. apply H; auto.
Qed.
End PartialSortFacts.

Lemma lt_opt_comparable (x y : option string) :
  x <> None -> y <> None -> Py.comparable Py.lt_opt x y = true.
Proof. destruct x, y; intros Hx Hy; try congruence. reflexivity. Qed.

(** The sorted union of two key sets is there when no key is [None]. *)
Lemma all_names_completes {V} (a b : Py.dict (option string) V) :
  (forall k, In k (Py.dkeys a) -> k <> None) ->
  (forall k, In k (Py.dkeys b) -> k <> None) ->
  exists names, all_names a b = Some names.
Proof.
  intros Ha Hb. unfold all_names, Py.sorted_partial.
  rewrite all_comparable_pairwise; eauto.
  intros x y Hx Hy.
  apply (union_In _ ostr_eqb_spec) in Hx, Hy.
  rewrite !(set_of_In _ ostr_eqb_spec) in Hx, Hy.
  apply lt_opt_comparable; [destruct Hx|destruct Hy]; auto.
Qed.

Lemma lt_item_full (x y : item) : full_item x -> full_item y -> lt_item x y <> None.
Proof.
  destruct x as [[k|] [v|]], y as [[k'|] [v'|]]; unfold full_item, lt_item; simpl;
    intros [H1 H2] [H3 H4]; try congruence.
  destruct (String.eqb k k'); [destruct (String.eqb v v')|]; discriminate.
Qed.

Lemma lt_items_full (a b : list item) :
  Forall full_item a -> Forall full_item b -> lt_items a b <> None.
Proof.
  intros Ha. revert b. induction Ha as [|x a Hx _ IH]; intros b Hb.
  - destruct b; simpl; discriminate.
  - destruct Hb as [|y b Hy Hb]; simpl; [discriminate|].
    destruct (item_eqb x y); [now apply IH|now apply lt_item_full].
Qed.

Lemma comparable_of_total {A} (lt : A -> A -> option bool) (x y : A) :
  lt x y <> None -> lt y x <> None -> Py.comparable lt x y = true.
Proof. unfold Py.comparable. destruct (lt x y), (lt y x); congruence. Qed.

Lemma lt_annotation_full (x y : annotation) :
  Forall full_item (snd x) -> Forall full_item (snd y) -> lt_annotation x y <> None.
Proof.
  intros Hx Hy. unfold lt_annotation.
  destruct (String.eqb (fst x) (fst y)); [now apply lt_items_full|discriminate].
Qed.

Lemma dpop_In {K V} (eqb : K -> K -> bool) (k : K) (kv : K * V) (d : Py.dict K V) :
  In kv (Py.dpop eqb k d) -> In kv d.
Proof.
  induction d as [|[k0 v0] d IH]; simpl; auto.
  destruct (eqb k k0); simpl; intuition.
Qed.

Lemma fold_dset_entries {K V X} (eqb : K -> K -> bool)
  (eqb_spec : forall x y, reflect (x = y) (eqb x y))
  (kf : X -> K) (vf : X -> V) (l : list X) (d0 : Py.dict K V) (k : K) (v : V) :
  In (k, v) (fold_left (fun d x => Py.dset eqb (kf x) (vf x) d) l d0) ->
  In (k, v) d0 \/ exists x, In x l /\ k = kf x /\ v = vf x.
Proof.
  revert d0; induction l as [|x l IH]; intros d0; simpl; auto.
  intros H. apply IH in H as [H|[y [Hy [-> ->]]]].
  - apply (dset_In eqb eqb_spec) in H as [H|H]; auto.
    injection H as -> ->. right. exists x. auto.
  - right. exists y. auto.
Qed.

(** The items of an annotation whose properties all have a name and a
    value. *)
Lemma annotation_of_completes (ann : element) :
  (forall prop, In prop (findall ann (NS_BRACKET +++ "Property")) ->
                get prop "Name" <> None /\ property_value prop <> None) ->
  exists a, annotation_of ann = Some a /\ Forall full_item (snd a).
Proof.
  intros H. unfold annotation_of.
  set (props := Py.dpop ostr_eqb (Some "Disambiguator") (get_properties ann)).
  assert (Hfull : forall i, In i props -> full_item i).
  { intros [k v] Hin. apply dpop_In in Hin.
    unfold get_properties in Hin.
    apply (fold_dset_entries ostr_eqb ostr_eqb_spec) in Hin as [[]|[p [Hp [-> ->]]]].
    now apply H. }
  assert (Hc : Py.all_comparable lt_item props = true).
  { apply all_comparable_pairwise. intros x y Hx Hy.
    apply comparable_of_total; apply lt_item_full; auto. }
  unfold Py.sorted_partial. rewrite Hc. cbn [bind]. eexists. split; [reflexivity|].
  cbn [snd]. apply Forall_forall. intros i Hi. apply Hfull.
  now apply sorted_in in Hi.
Qed.

Lemma mapM_completes {A B} (f : A -> option B) (P : B -> Prop) (l : list A) :
  (forall x, In x l -> exists y, f x = Some y /\ P y) ->
  exists ys, mapM f l = Some ys /\ Forall P ys.
Proof.
  induction l as [|x l IH]; intros H; simpl.
  - exists []. split; auto.
  - destruct (H x) as [y [Hy HP]]; [now left|].
    destruct IH as [ys [Hys HF]]; [intros z Hz; apply H; now right|].
    rewrite Hy, Hys. cbn [bind]. eauto.
Qed.

(** [get_annotations] completes on a well-formed element. *)
Lemma get_annotations_completes (elem : element) :
  well_formed elem -> exists anns, get_annotations elem = Some anns.
Proof.
  intros (_ & _ & H). unfold get_annotations.
  destruct (mapM_completes annotation_of (fun a => Forall full_item (snd a))
              (findall elem (NS_BRACKET +++ "AttachedAnnotation")))
    as [anns [E HF]].
  { intros ann Hann. apply annotation_of_completes. intros p Hp. now apply (H ann). }
  rewrite E. cbn [bind]. unfold Py.sorted_partial.
  rewrite all_comparable_pairwise; eauto.
  rewrite Forall_forall in HF.
  intros x y Hx Hy. apply comparable_of_total; apply lt_annotation_full; auto.
Qed.

Lemma well_formed_names (elem : element) :
  well_formed elem ->
  (forall k, In k (Py.dkeys (get_properties elem)) -> k <> None) /\
  (forall k, In k (Py.dkeys (get_relationships elem)) -> k <> None).
Proof.
  intros (Hp & Hr & _). split; intros k Hk.
  - unfold get_properties in Hk.
    apply (fold_dset_keys ostr_eqb ostr_eqb_spec) in Hk as [[]|[x [Hx <-]]]. auto.
  - unfold get_relationships in Hk.
    apply (fold_dset_keys ostr_eqb ostr_eqb_spec) in Hk as [[]|[x [Hx <-]]]. auto.
Qed.

(** On two well-formed elements [diff_element] does not raise: every
    sort it performs compares strings only.  On a well-formed element and
    itself it returns the empty list. *)
Theorem diff_element_completes (elem_a elem_b : element) :
  well_formed elem_a -> well_formed elem_b ->
  (exists diffs, diff_element elem_a elem_b = Some diffs) /\
  diff_element elem_a elem_a = Some [].
Proof.
  intros Ha Hb.
  assert (H : forall a b, well_formed a -> well_formed b ->
                          exists diffs, diff_element a b = Some diffs).
  { intros a b Hwa Hwb. unfold diff_element, diff_properties, diff_relationships.
    destruct (well_formed_names a Hwa) as [Hpa Hra].
    destruct (well_formed_names b Hwb) as [Hpb Hrb].
    destruct (all_names_completes (get_properties a) (get_properties b) Hpa Hpb)
      as [pn ->].
    destruct (all_names_completes (get_relationships a) (get_relationships b) Hra Hrb)
      as [rn ->].
    destruct (get_annotations_completes a Hwa) as [anns_a ->].
    destruct (get_annotations_completes b Hwb) as [anns_b ->].
    cbn [bind]. eauto. }
  split; [now apply H|].
  destruct (H elem_a elem_a Ha Ha) as [d Hd].
  rewrite Hd. f_equal. now apply (diff_element_refl elem_a).
Qed.

Lemma diff_element_completes_witness :
  exists diffs,
    diff_element (with_disambiguator [property "Disambiguator" "3"]) valueless_side
    = Some diffs.
Proof.
  apply diff_element_completes; unfold well_formed; repeat split; intros;
    repeat match goal with
           | H : In _ _ |- _ => vm_compute in H
           | H : _ \/ _ |- _ => destruct H as [<-|H]
           | H : False |- _ => destruct H
           end;
    vm_compute; discriminate.
Defined.

(** *** Exchanging the two sides *)

Lemma flat_map_nil_iff {A B} (f : A -> list B) (l : list A) :
  flat_map f l = [] <-> forall x, In x l -> f x = [].
Proof.
  split; [|apply flat_map_nil].
  induction l as [|x l IH]; simpl; [tauto|].
  intros H y [<-|Hy]; apply app_eq_nil in H as [H1 H2]; auto.
Qed.

Lemma same_members_permutation {A} (l l' : list A) :
  NoDup l -> NoDup l' -> (forall x, In x l <-> In x l') -> Permutation l l'.
Proof. intros. now apply NoDup_Permutation. Qed.

Lemma union_permutation {A} (eqb : A -> A -> bool)
  (eqb_spec : forall x y, reflect (x = y) (eqb x y)) (a b : list A) :
  Permutation (Py.union eqb (Py.set_of eqb a) (Py.set_of eqb b))
              (Py.union eqb (Py.set_of eqb b) (Py.set_of eqb a)).
Proof.
  apply same_members_permutation.
  - apply union_NoDup, set_of_NoDup; auto.
  - apply union_NoDup, set_of_NoDup; auto.
  - intros x. rewrite !(union_In _ eqb_spec). tauto.
Qed.

Lemma all_names_swap {V} (a b : Py.dict (option string) V) (names : list (option string)) :
  all_names a b = Some names ->
  exists names', all_names b a = Some names' /\
                 forall k, In k names <-> In k names'.
Proof.
  intros H. unfold all_names in *.
  destruct (sorted_partial_completes Py.lt_opt _ _ _
              (union_permutation ostr_eqb ostr_eqb_spec (Py.dkeys a) (Py.dkeys b)) H)
    as [names' H'].
  exists names'. split; auto. intros k.
  apply sorted_partial_permutation in H, H'.
  split; intros Hk.
  - eapply Permutation_in; [exact H'|].
    eapply Permutation_in; [apply union_permutation, ostr_eqb_spec|].
    eapply Permutation_in; [apply Permutation_sym; exact H|]. exact Hk.
  - eapply Permutation_in; [exact H|].
    eapply Permutation_in; [apply union_permutation, ostr_eqb_spec|].
    eapply Permutation_in; [apply Permutation_sym; exact H'|]. exact Hk.
Qed.

Lemma property_diff_nil (a b : props) (name : option string) :
  property_diff a b name = [] <-> prop_get a name = prop_get b name.
Proof.
  unfold property_diff.
  destruct (ostr_eqb_spec (prop_get a name) (prop_get b name)) as [E|E]; simpl.
  - tauto.
  - destruct (negb (Py.dmem ostr_eqb name b)); [split; [discriminate|contradiction]|].
    destruct (negb (Py.dmem ostr_eqb name a)); split; try discriminate; contradiction.
Qed.

Lemma relationship_diff_swap (a b : rels) (name : option string) :
  relationship_diff a b name = [] -> relationship_diff b a name = [].
Proof.
  unfold relationship_diff.
  rewrite (list_eqb_sym entry_eqb entry_eqb_spec (rel_get b name)).
  destruct (list_eqb entry_eqb (rel_get a name) (rel_get b name)); simpl; auto.
  destruct (Py.dmem ostr_eqb name b); simpl; [|discriminate].
  destruct (Py.dmem ostr_eqb name a); simpl; [|discriminate].
  destruct (Py.diff String.eqb
              (Py.set_of String.eqb (map str_entry (rel_get a name)))
              (Py.set_of String.eqb (map str_entry (rel_get b name))));
    destruct (Py.diff String.eqb
                (Py.set_of String.eqb (map str_entry (rel_get b name)))
                (Py.set_of String.eqb (map str_entry (rel_get a name))));
    auto; discriminate.
Qed.

Lemma annotation_type_diff_swap (a b : list annotation) (t : string) :
  annotation_type_diff a b t = [] -> annotation_type_diff b a t = [].
Proof.
  unfold annotation_type_diff.
  rewrite (list_eqb_sym annotation_eqb annotation_eqb_spec
             (filter (fun x => String.eqb (fst x) t) b)).
  destruct (list_eqb annotation_eqb _ _); simpl; auto. discriminate.
Qed.

Lemma diff_annotations_swap (a b : list annotation) :
  diff_annotations a b = [] -> diff_annotations b a = [].
Proof.
  unfold diff_annotations.
  rewrite (list_eqb_sym annotation_eqb annotation_eqb_spec b a).
  destruct (list_eqb annotation_eqb a b); simpl; auto.
  set (sa := Py.set_of String.eqb (map str_annotation a)).
  set (sb := Py.set_of String.eqb (map str_annotation b)).
  intros H.
  assert (Hall : Py.diff String.eqb sa sb = [] /\ Py.diff String.eqb sb sa = [] \/
                 forall t, In t (map fst (a ++ b)) -> annotation_type_diff a b t = []).
  { destruct (Py.diff String.eqb sa sb); [destruct (Py.diff String.eqb sb sa)|]; auto;
      right; intros t Ht; rewrite flat_map_nil_iff in H; apply H;
      apply sorted_in, (set_of_In _ String.eqb_spec); exact Ht. }
  destruct Hall as [[-> ->]|Hall]; auto.
  assert (Hnil : flat_map (annotation_type_diff b a)
                   (Py.sorted_str (Py.set_of String.eqb (map fst (b ++ a)))) = []).
  { apply flat_map_nil. intros t Ht. apply annotation_type_diff_swap, Hall.
    unfold Py.sorted_str in Ht.
    rewrite sorted_in, (set_of_In _ String.eqb_spec) in Ht.
    rewrite map_app, in_app_iff in Ht. rewrite map_app, in_app_iff. tauto. }
  rewrite Hnil.
  destruct (Py.diff String.eqb sb sa); [destruct (Py.diff String.eqb sa sb)|];
    reflexivity.
Qed.

(** If [diff_element] completes for two elements it completes for the
    two elements exchanged, and it then finds no difference one way
    exactly when it finds none the other way. *)
Lemma diff_element_swap (a b : element) (d : list string) :
  diff_element a b = Some d ->
  exists d', diff_element b a = Some d' /\ (d = [] -> d' = []).
Proof.
  unfold diff_element, diff_properties, diff_relationships.
  destruct (all_names (get_properties a) (get_properties b)) as [pn|] eqn:Ep;
    [|discriminate].
  destruct (all_names (get_relationships a) (get_relationships b)) as [rn|] eqn:Er;
    [|discriminate].
  destruct (get_annotations a) as [anns_a|]; [|discriminate].
  destruct (get_annotations b) as [anns_b|]; [|discriminate].
  cbn [bind]. intros [= <-].
  destruct (all_names_swap _ _ _ Ep) as [pn' [-> Hpn]].
  destruct (all_names_swap _ _ _ Er) as [rn' [-> Hrn]].
  cbn [bind]. eexists. split; [reflexivity|].
  intros H. apply app_eq_nil in H as [H1 H]. apply app_eq_nil in H as [H2 H3].
  rewrite flat_map_nil_iff in H1, H2.
  rewrite (diff_annotations_swap _ _ H3), !flat_map_nil; auto.
  - intros n Hn. apply relationship_diff_swap, H2. now apply Hrn.
  - intros n Hn. apply property_diff_nil. symmetry. apply property_diff_nil.
    apply H1. now apply Hpn.
Qed.

(** Whenever [diff_element] completes on two elements, it completes on
    the two elements exchanged, and the two results are empty together:
    finding no difference does not depend on which side is which. *)
Theorem diff_element_symmetric (a b : element) (d : list string) :
  diff_element a b = Some d ->
  exists d', diff_element b a = Some d' /\ (d = [] <-> d' = []).
Proof.
  intros H. destruct (diff_element_swap a b d H) as [d' [H' Hd]].
  exists d'. split; auto. split; auto.
  intros E. destruct (diff_element_swap b a d' H') as [d'' [H'' Hd']].
  rewrite H in H''. injection H'' as <-. auto.
Qed.

Lemma diff_element_symmetric_witness :
  exists d',
    diff_element absent_side valueless_side = Some d' /\
    (@nil string = [] <-> d' = []).
Proof.
  apply (diff_element_symmetric valueless_side absent_side []). reflexivity.
Defined.

(** *** Dict equality *)

Section DictEquality.
Context {K V : Type}.
Variable keqb : K -> K -> bool.
Variable veqb : V -> V -> bool.
Hypothesis keqb_spec : forall x y, reflect (x = y) (keqb x y).
Hypothesis veqb_spec : forall x y, reflect (x = y) (veqb x y).

Lemma dget_some_keys (k : K) (v : V) (d : Py.dict K V) :
  Py.dget keqb k d = Some v -> In k (Py.dkeys d).
Proof.
  intros H. apply (dmem_keys keqb keqb_spec). unfold Py.dmem. now rewrite H.
Qed.

(** On dicts with unique keys, [==] holds exactly when every key has the
    same lookup on both sides. *)
Lemma dict_eqb_iff (a b : Py.dict K V) :
  NoDup (Py.dkeys a) -> NoDup (Py.dkeys b) ->
  (dict_eqb keqb veqb a b = true <->
   forall k, Py.dget keqb k a = Py.dget keqb k b).
Proof.
  intros Ha Hb. unfold dict_eqb. rewrite andb_true_iff, Nat.eqb_eq, forallb_forall.
  split.
  - intros [Hlen Hall].
    assert (Hab : forall k v, In (k, v) a -> Py.dget keqb k b = Some v).
    { intros k v Hin. specialize (Hall (k, v) Hin). cbn [fst snd] in Hall.
      destruct (Py.dget keqb k b) as [v'|]; [|discriminate].
      destruct (veqb_spec v v'); congruence. }
    assert (Hincl : incl (Py.dkeys a) (Py.dkeys b)).
    { intros k Hk. apply in_map_iff in Hk as [[k' v] [<- Hin]].
      eapply dget_some_keys. apply (Hab _ _ Hin). }
    assert (Hincl' : incl (Py.dkeys b) (Py.dkeys a)).
    { apply NoDup_length_incl; auto. unfold Py.dkeys. rewrite !length_map. lia. }
    intros k. destruct (Py.dget keqb k a) as [v|] eqn:E.
    + symmetry. apply Hab. now apply (dget_In keqb keqb_spec).
    + symmetry. apply (dget_none_keys keqb keqb_spec).
      apply (dget_none_keys keqb keqb_spec) in E. intros Hk. apply E. now apply Hincl'.
  - intros H. split.
    + assert (HP : Permutation (Py.dkeys a) (Py.dkeys b)).
      { apply NoDup_Permutation; auto. intros k.
        rewrite <- !(dmem_keys keqb keqb_spec). unfold Py.dmem. now rewrite H. }
      apply Permutation_length in HP. unfold Py.dkeys in HP.
      now rewrite !length_map in HP.
    + intros [k v] Hin. cbn [fst snd].
      rewrite <- H, (NoDup_dget keqb keqb_spec k v a Ha Hin).
      destruct (veqb_spec v v); congruence.
Qed.
End DictEquality.

(** *** Headers *)

Lemma header_block_unique (h : option element) (key : string * string) (m : metas) :
  header_block h key = Some m -> NoDup (Py.dkeys m).
Proof.
  unfold header_block. intros Hm.
  apply (dget_In pair_eqb pair_eqb_spec) in Hm.
  unfold index_custom_data in Hm. destruct h as [h|]; [|destruct Hm].
  apply (fold_dset_values pair_eqb pair_eqb_spec
           (fun cd => (get_or cd "Category" "", get_or cd "Type" ""))
           (fun cd => fold_left
                        (fun metas m =>
                           Py.dset String.eqb (get_or m "Name" "") (get_or m "Value" "") metas)
                        (findall cd (NS_BRACKET +++ "Metadata")) []))
    in Hm as [[]|[x [_ ->]]].
  apply (fold_dset_keys_NoDup String.eqb String.eqb_spec
           (fun m => get_or m "Name" "") (fun m => get_or m "Value" "")).
  constructor.
Qed.

Lemma header_key_diff_nil (ha hb : option element) (key : string * string) :
  header_key_diff (index_custom_data ha) (index_custom_data hb) key = [] <->
  exists ma mb, header_block ha key = Some ma /\ header_block hb key = Some mb /\
                forall mk, Py.dget String.eqb mk ma = Py.dget String.eqb mk mb.
Proof.
  unfold header_key_diff. fold (header_block ha key). fold (header_block hb key).
  destruct (header_block hb key) as [mb|] eqn:Eb.
  - destruct (header_block ha key) as [ma|] eqn:Ea.
    + pose proof (dict_eqb_iff String.eqb String.eqb String.eqb_spec String.eqb_spec
                    ma mb (header_block_unique _ _ _ Ea) (header_block_unique _ _ _ Eb))
        as Hiff.
      destruct (dict_eqb String.eqb String.eqb ma mb); simpl.
      * split; auto. intros _. exists ma, mb. repeat split. now apply Hiff.
      * split; [discriminate|]. intros (ma' & mb' & [= <-] & [= <-] & H).
        apply Hiff in H. discriminate.
    + split; [discriminate|]. intros (xa & xb & H & _). discriminate.
  - split; [discriminate|]. intros (xa & xb & _ & H & _). discriminate.
Qed.

(** The headers are reported as identical exactly when every block is on
    both sides or on neither, with the same metadata. *)
Lemma compare_header_ok_blocks (ha hb : option element) :
  fst (compare_header ha hb) = ok <->
  forall key, same_block (header_block ha key) (header_block hb key).
Proof.
  unfold compare_header.
  set (cd_a := index_custom_data ha). set (cd_b := index_custom_data hb).
  set (all_keys := Py.sorted pair_ltb _).
  assert (Hkeys : forall key, In key all_keys <->
                              header_block ha key <> None \/ header_block hb key <> None).
  { intros key. unfold all_keys. rewrite sorted_in, (union_In _ pair_eqb_spec).
    rewrite !(set_of_In _ pair_eqb_spec).
    rewrite <- !(dmem_keys pair_eqb pair_eqb_spec). unfold Py.dmem, header_block.
    fold cd_a cd_b.
    destruct (Py.dget pair_eqb key cd_a), (Py.dget pair_eqb key cd_b);
      intuition congruence. }
  assert (Hnil : flat_map (header_key_diff cd_a cd_b) all_keys = [] <->
                 forall key, same_block (header_block ha key) (header_block hb key)).
  { rewrite flat_map_nil_iff. split.
    - intros H key. destruct (header_block ha key) as [ma|] eqn:Ea.
      + destruct (proj1 (header_key_diff_nil ha hb key)) as (ma' & mb' & E1 & E2 & E3).
        { apply H, Hkeys. left. congruence. }
        rewrite E2. rewrite Ea in E1. injection E1 as <-. exact E3.
      + destruct (header_block hb key) as [mb|] eqn:Eb; simpl; auto.
        destruct (proj1 (header_key_diff_nil ha hb key)) as (ma' & mb' & E1 & _).
        { apply H, Hkeys. right. congruence. }
        congruence.
    - intros H key Hin. apply header_key_diff_nil.
      specialize (H key). apply Hkeys in Hin.
      destruct (header_block ha key) as [ma|], (header_block hb key) as [mb|];
        simpl in H; try contradiction; eauto.
      destruct Hin; congruence. }
  destruct (flat_map (header_key_diff cd_a cd_b) all_keys) eqn:E; simpl.
  - split; auto. intros _. now apply Hnil.
  - split; [discriminate|]. intros H. apply Hnil in H. discriminate.
Qed.

Lemma compare_header_status_swap (ha hb : option element) :
  fst (compare_header ha hb) = fst (compare_header hb ha).
Proof.
  assert (H : forall x y, fst (compare_header x y) = ok ->
                          fst (compare_header y x) = ok).
  { intros x y Hxy. apply compare_header_ok_blocks. intros key.
    apply compare_header_ok_blocks with (key := key) in Hxy.
    destruct (header_block x key), (header_block y key); simpl in *; auto. }
  assert (Hcases : forall x y, fst (compare_header x y) = ok \/
                               fst (compare_header x y) = different).
  { intros x y. unfold compare_header. destruct (flat_map _ _); auto. }
  destruct (Hcases ha hb) as [E|E], (Hcases hb ha) as [E'|E']; try congruence.
  - apply H in E. congruence.
  - apply H in E'. congruence.
Qed.

(** A header comparison gives ok with no line or different with at least
    one line; it gives ok exactly when every block of metadata is on both
    sides or on neither and holds the same value for every name, whatever
    the order of the blocks and of their entries.  A missing header
    counts as a header without blocks. *)
Theorem compare_header_ok_iff (ha hb : option element) :
  (fst (compare_header ha hb) = ok <->
   forall key, same_block (header_block ha key) (header_block hb key)) /\
  (compare_header ha hb = (ok, []) \/
   (fst (compare_header ha hb) = different /\ snd (compare_header ha hb) <> [])) /\
  (forall key, header_block None key = None) /\
  (fst (compare_header ha hb) = fst (compare_header hb ha)).
Proof.
  split; [apply compare_header_ok_blocks|]. split; [|split].
  - unfold compare_header. destruct (flat_map _ _); [now left|right].
    split; [reflexivity|discriminate].
  - reflexivity.
  - apply compare_header_status_swap.
Qed.

(** *** The model differ *)

Lemma mapM_lookup {A B} (f : A -> option B) (l : list A) (ys : list B) (x : A) :
  mapM f l = Some ys -> In x l -> exists y, f x = Some y /\ In y ys.
Proof.
  revert ys; induction l as [|z l IH]; simpl; intros ys E Hin; [destruct Hin|].
  destruct (f z) as [y|] eqn:Ez; [|discriminate]. cbn [bind] in E.
  destruct (mapM f l) as [ys'|]; [|discriminate]. cbn [bind] in E.
  injection E as <-. destruct Hin as [->|Hin].
  - exists y. split; auto. now left.
  - destruct (IH ys' eq_refl Hin) as [y' [Hy' Hin']]. exists y'. split; auto. now right.
Qed.

Lemma mapM_origin {A B} (f : A -> option B) (l : list A) (ys : list B) (y : B) :
  mapM f l = Some ys -> In y ys -> exists x, In x l /\ f x = Some y.
Proof.
  revert ys; induction l as [|z l IH]; simpl; intros ys E Hin.
  - injection E as <-. destruct Hin.
  - destruct (f z) as [y0|] eqn:Ez; [|discriminate]. cbn [bind] in E.
    destruct (mapM f l) as [ys'|]; [|discriminate]. cbn [bind] in E.
    injection E as <-. destruct Hin as [->|Hin].
    + exists z. auto.
    + destruct (IH ys' eq_refl Hin) as [x [Hx Hfx]]. exists x. auto.
Qed.

Lemma sorted_keys_permutation (l s : list key) :
  sorted_keys l = Some s -> Permutation l s.
Proof. apply sorted_partial_permutation. Qed.

(** The body of the loop over the common keys. *)
Lemma common_key_diff (a b : Py.dict key element) (k : key) (y : list (key * list string)) :
  match Py.dget key_eqb k a, Py.dget key_eqb k b with
  | Some ea, Some eb =>
      diffs <- diff_element ea eb ;;
      Some (match diffs with [] => [] | _ => [(k, diffs)] end)
  | _, _ => None
  end = Some y ->
  exists ea eb d,
    Py.dget key_eqb k a = Some ea /\ Py.dget key_eqb k b = Some eb /\
    diff_element ea eb = Some d /\
    y = match d with [] => [] | _ => [(k, d)] end.
Proof.
  destruct (Py.dget key_eqb k a) as [ea|]; [|discriminate].
  destruct (Py.dget key_eqb k b) as [eb|]; [|discriminate].
  destruct (diff_element ea eb) as [d|] eqn:Ed; [|discriminate]. cbn [bind].
  intros [= <-]. exists ea, eb, d. repeat split; auto.
Qed.

(** The results of the model differ, read off its definition: the
    missing keys are the keys of the second index that the first lacks,
    the extra keys those of the first that the second lacks, each listed
    once; the differences are the common keys whose elements differ, each
    with the non-empty list that [diff_element] gives; the totals are the
    sizes of the indexes. *)
Theorem compare_indexes_spec (a b : Py.dict key element) (res : elements_result) :
  compare_indexes a b = Some res ->
  (forall k, In k (missing_in_rust res) <-> In k (Py.dkeys b) /\ ~ In k (Py.dkeys a)) /\
  (forall k, In k (extra_in_rust res) <-> In k (Py.dkeys a) /\ ~ In k (Py.dkeys b)) /\
  NoDup (missing_in_rust res) /\ NoDup (extra_in_rust res) /\
  (forall k d, In (k, d) (differences res) <->
     d <> [] /\
     exists ea eb, Py.dget key_eqb k a = Some ea /\ Py.dget key_eqb k b = Some eb /\
                   diff_element ea eb = Some d) /\
  total_rust res = length a /\ total_dotnet res = length b.
Proof.
  unfold compare_indexes.
  set (keys_a := Py.set_of key_eqb (Py.dkeys a)).
  set (keys_b := Py.set_of key_eqb (Py.dkeys b)).
  destruct (sorted_keys (Py.diff key_eqb keys_b keys_a)) as [missing|] eqn:Em;
    [|discriminate].
  cbn [bind].
  destruct (sorted_keys (Py.diff key_eqb keys_a keys_b)) as [extra|] eqn:Ee;
    [|discriminate].
  cbn [bind].
  destruct (sorted_keys (Py.inter key_eqb _ _)) as [common|] eqn:Ec; [|discriminate].
  cbn [bind].
  destruct (mapM _ common) as [ds|] eqn:Ed; [|discriminate]. cbn [bind].
  intros [= <-]. cbn [missing_in_rust extra_in_rust differences total_rust total_dotnet].
  apply sorted_keys_permutation in Em, Ee, Ec.
  assert (Hmem : forall (l s : list key) k, Permutation l s -> (In k s <-> In k l)).
  { intros l s k HP. split; apply Permutation_in; auto using Permutation_sym. }
  split; [|split; [|split; [|split; [|split; [|split]]]]].
  - intros k. rewrite (Hmem _ _ _ Em), (diff_In _ key_eqb_spec).
    unfold keys_a, keys_b. rewrite !(set_of_In _ key_eqb_spec). tauto.
  - intros k. rewrite (Hmem _ _ _ Ee), (diff_In _ key_eqb_spec).
    unfold keys_a, keys_b. rewrite !(set_of_In _ key_eqb_spec). tauto.
  - eapply Permutation_NoDup; [exact Em|]. apply diff_NoDup, set_of_NoDup, key_eqb_spec.
  - eapply Permutation_NoDup; [exact Ee|]. apply diff_NoDup, set_of_NoDup, key_eqb_spec.
  - intros k d. split.
    + intros H. apply in_concat in H as [y [Hy Hin]].
      destruct (mapM_origin _ _ _ _ Ed Hy) as [x [Hx Hfx]].
      apply common_key_diff in Hfx as (ea & eb & d' & Ha & Hb & Hd & ->).
      destruct d' as [|line d']; [destruct Hin|].
      destruct Hin as [[= <- <-]|[]]. split; [discriminate|eauto].
    + intros [Hne (ea & eb & Ha & Hb & Hd)].
      assert (Hk : In k common).
      { apply (Hmem _ _ _ Ec), (inter_In _ key_eqb_spec).
        unfold keys_a, keys_b. rewrite !(set_of_In _ key_eqb_spec).
        split; eapply (dget_some_keys key_eqb key_eqb_spec); eauto. }
      destruct (mapM_lookup _ _ _ _ Ed Hk) as [y [Hfy Hy]].
      cbv beta in Hfy. rewrite Ha, Hb, Hd in Hfy. cbn [bind] in Hfy.
      injection Hfy as <-. apply in_concat. eexists. split; [exact Hy|].
      destruct d; [congruence|]. now left.
  - reflexivity.
  - reflexivity.
Qed.

Lemma compare_indexes_spec_witness :
  exists res,
    compare_indexes (fst (index_elements dup_model))
                    [(Key2 (Some "SqlSchema") "[app]", named "SqlSchema" "[app]" [])]
      = Some res /\
    In (Key2 (Some "SqlTable") "[dbo].[T]") (extra_in_rust res).
Proof.
  eexists. split; [reflexivity|].
  destruct (compare_indexes_spec
              (fst (index_elements dup_model))
              [(Key2 (Some "SqlSchema") "[app]", named "SqlSchema" "[app]" [])]
              _ eq_refl) as (_ & He & _).
  apply He. vm_compute. split; [auto|]. intros [H|[]]. discriminate.
Defined.

Lemma concat_nil_inv {A} (l : list (list A)) (y : list A) :
  concat l = [] -> In y l -> y = [].
Proof.
  induction l as [|x l IH]; simpl; [tauto|].
  intros H [<-|Hy]; apply app_eq_nil in H as [H1 H2]; auto.
Qed.

Lemma inter_permutation {A} (eqb : A -> A -> bool)
  (eqb_spec : forall x y, reflect (x = y) (eqb x y)) (a b : list A) :
  NoDup a -> NoDup b ->
  Permutation (Py.inter eqb a b) (Py.inter eqb b a).
Proof.
  intros Ha Hb. apply same_members_permutation.
  - now apply inter_NoDup.
  - now apply inter_NoDup.
  - intros x. rewrite !(inter_In _ eqb_spec). tauto.
Qed.

(** Exchanging the two indexes exchanges the missing and the extra keys,
    and keeps whether there are differences. *)
Lemma compare_indexes_swap (a b : Py.dict key element) (res : elements_result) :
  compare_indexes a b = Some res ->
  exists res',
    compare_indexes b a = Some res' /\
    missing_in_rust res' = extra_in_rust res /\
    extra_in_rust res' = missing_in_rust res /\
    (differences res = [] -> differences res' = []).
Proof.
  unfold compare_indexes.
  set (keys_a := Py.set_of key_eqb (Py.dkeys a)).
  set (keys_b := Py.set_of key_eqb (Py.dkeys b)).
  destruct (sorted_keys (Py.diff key_eqb keys_b keys_a)) as [missing|] eqn:Em;
    [|discriminate].
  cbn [bind].
  destruct (sorted_keys (Py.diff key_eqb keys_a keys_b)) as [extra|] eqn:Ee;
    [|discriminate].
  cbn [bind].
  destruct (sorted_keys (Py.inter key_eqb keys_a keys_b)) as [common|] eqn:Ec;
    [|discriminate].
  cbn [bind].
  destruct (mapM _ common) as [ds|] eqn:Ed; [|discriminate]. cbn [bind].
  intros [= <-]. cbn [missing_in_rust extra_in_rust differences].
  assert (HP : Permutation (Py.inter key_eqb keys_a keys_b)
                           (Py.inter key_eqb keys_b keys_a)).
  { apply inter_permutation; try apply key_eqb_spec;
      apply set_of_NoDup, key_eqb_spec. }
  destruct (sorted_partial_completes _ _ _ _ HP Ec) as [common' Ec'].
  fold (sorted_keys (Py.inter key_eqb keys_b keys_a)) in Ec'.
  rewrite Ec'. cbn [bind].
  assert (Hin : forall x, In x common' -> In x common).
  { intros x Hx. apply sorted_keys_permutation in Ec, Ec'.
    eapply Permutation_in; [exact Ec|].
    eapply Permutation_in; [apply Permutation_sym; exact HP|].
    eapply Permutation_in; [apply Permutation_sym; exact Ec'|]. exact Hx. }
  destruct (mapM_completes
              (fun key0 =>
                 match Py.dget key_eqb key0 b, Py.dget key_eqb key0 a with
                 | Some ea, Some eb =>
                     diffs <- diff_element ea eb ;;
                     Some (match diffs with [] => [] | _ => [(key0, diffs)] end)
                 | _, _ => None
                 end)
              (fun y => concat ds = [] -> y = []) common') as [ds' [Ed' HF]].
  { intros x Hx. apply Hin in Hx.
    destruct (mapM_lookup _ _ _ _ Ed Hx) as [y [Hfy Hy]].
    apply common_key_diff in Hfy as (ea & eb & d & Ha & Hb & Hd & ->).
    destruct (diff_element_swap ea eb d Hd) as [d' [Hd' Hnil]].
    rewrite Ha, Hb, Hd'. cbn [bind]. eexists. split; [reflexivity|].
    intros Hc. apply (concat_nil_inv _ _ Hc) in Hy.
    rewrite Hnil; auto. destruct d; [auto|discriminate]. }
  rewrite Ed'. cbn [bind]. eexists. split; [reflexivity|].
  cbn [missing_in_rust extra_in_rust differences]. repeat split.
  intros Hc. apply concat_nil_Forall.
  eapply Forall_impl; [|exact HF]. intros y Hy. now apply Hy.
Qed.

(** The part of the verdict that reads the model comparison. *)
Lemma model_verdict_swap (root_a root_b : element) (err : list string) (mr : model_result) :
  compare_model_xml root_a root_b = Some (err, mr) ->
  exists err' mr',
    compare_model_xml root_b root_a = Some (err', mr') /\
    fst (header mr') = fst (header mr) /\
    missing_in_rust (elements mr') = extra_in_rust (elements mr) /\
    extra_in_rust (elements mr') = missing_in_rust (elements mr) /\
    (differences (elements mr) = [] -> differences (elements mr') = []).
Proof.
  unfold compare_model_xml.
  destruct (find root_a (NS_BRACKET +++ "Model")) as [ma|]; [|discriminate].
  destruct (find root_b (NS_BRACKET +++ "Model")) as [mb|]; [|discriminate].
  cbn [bind].
  destruct (index_elements ma) as [ia da]. destruct (index_elements mb) as [ib db].
  destruct (compare_indexes ia ib) as [res|] eqn:E; [|discriminate]. cbn [bind].
  intros [= <- <-]. cbn [header elements].
  destruct (compare_indexes_swap ia ib res E) as (res' & E' & H1 & H2 & H3).
  rewrite E'. cbn [bind]. do 2 eexists. split; [reflexivity|].
  cbn [header elements]. repeat split; auto.
  apply compare_header_status_swap.
Qed.

(** *** Exchanging the two packages *)

Section Exchange.

Variable unified_diff :
  list string -> list string -> string -> string -> nat -> list string.

Lemma tracked_results_swap (dir_a dir_b : directory) (fr : file_results) :
  tracked_results unified_diff dir_a dir_b = Some fr ->
  exists fr',
    tracked_results unified_diff dir_b dir_a = Some fr' /\
    flagged fr' = flagged fr.
Proof.
  unfold tracked_results.
  pose proof (compare_simple_xml_swap unified_diff dir_a dir_b "DacMetadata.xml") as H1.
  pose proof (compare_simple_xml_swap unified_diff dir_a dir_b "[Content_Types].xml") as H2.
  pose proof (compare_text_files_swap unified_diff dir_a dir_b "predeploy.sql") as H3.
  pose proof (compare_text_files_swap unified_diff dir_a dir_b "postdeploy.sql") as H4.
  destruct (compare_simple_xml unified_diff dir_a dir_b "DacMetadata.xml")
    as [[s1 l1]|]; [|discriminate].
  destruct (compare_simple_xml unified_diff dir_b dir_a "DacMetadata.xml")
    as [[s1' l1']|]; [|discriminate].
  destruct (compare_simple_xml unified_diff dir_a dir_b "[Content_Types].xml")
    as [[s2 l2]|]; [|discriminate].
  destruct (compare_simple_xml unified_diff dir_b dir_a "[Content_Types].xml")
    as [[s2' l2']|]; [|discriminate].
  destruct (compare_text_files unified_diff dir_a dir_b "predeploy.sql") as [s3 l3].
  destruct (compare_text_files unified_diff dir_b dir_a "predeploy.sql") as [s3' l3'].
  destruct (compare_text_files unified_diff dir_a dir_b "postdeploy.sql") as [s4 l4].
  destruct (compare_text_files unified_diff dir_b dir_a "postdeploy.sql") as [s4' l4'].
  cbn [bind option_map fst] in *.
  injection H1 as ->. injection H2 as ->. subst s3' s4'.
  intros [= <-]. eexists. split; [reflexivity|].
  unfold record_result. cbn [fst snd].
  destruct s1 as [[]|], s2 as [[]|], s3 as [[]|], s4 as [[]|]; reflexivity.
Qed.

Lemma unknown_both_fold_swap (dir_a dir_b : directory) (l : list string)
  (fr fr' : file_results) :
  Forall (fun fname => fname <> "Origin.xml") l ->
  flagged fr' = flagged fr ->
  flagged (fold_left (unknown_both_step unified_diff dir_b dir_a) l fr') =
  flagged (fold_left (unknown_both_step unified_diff dir_a dir_b) l fr).
Proof.
  intros Hl. revert fr fr'.
  induction Hl as [|x l Hx _ IH]; intros fr fr' Hf; [exact Hf|].
  simpl. apply IH. unfold unknown_both_step.
  rewrite (compare_text_files_swap unified_diff dir_a dir_b x).
  destruct (fst (compare_text_files unified_diff dir_a dir_b x)) as [st|];
    cbn [option_map]; [|exact Hf].
  destruct st; cbn [swap_status status_eqb negb]; auto;
    rewrite !flagged_dset_bad; auto; discriminate.
Qed.

Lemma unexpected_results_swap (dir_a dir_b : directory) (fr fr' : file_results) :
  flagged fr' = flagged fr ->
  flagged (unexpected_results unified_diff dir_b dir_a fr') =
  flagged (unexpected_results unified_diff dir_a dir_b fr).
Proof.
  intros Hf. unfold unexpected_results.
  rewrite (sorted_str_permutation
             (Py.diff String.eqb (Py.inter String.eqb (list_files dir_b) (list_files dir_a))
                known_files)
             (Py.diff String.eqb (Py.inter String.eqb (list_files dir_a) (list_files dir_b))
                known_files)).
  2:{ apply same_members_permutation.
      - apply diff_NoDup, inter_NoDup, set_of_NoDup, String.eqb_spec.
      - apply diff_NoDup, inter_NoDup, set_of_NoDup, String.eqb_spec.
      - intros x. rewrite !(diff_In _ String.eqb_spec), !(inter_In _ String.eqb_spec).
        tauto. }
  apply unknown_both_fold_swap.
  - apply Forall_forall. intros x Hx. apply not_known_not_origin.
    apply sorted_in in Hx. apply (diff_In _ String.eqb_spec) in Hx. tauto.
  - destruct (Py.sorted_str (Py.diff String.eqb
                (Py.diff String.eqb (list_files dir_a) (list_files dir_b)) known_files));
      destruct (Py.sorted_str (Py.diff String.eqb
                (Py.diff String.eqb (list_files dir_b) (list_files dir_a)) known_files));
      auto;
      repeat match goal with
             | |- context [if ?c then _ else _] => destruct c
             end;
      rewrite ?flagged_dset_bad; auto; try discriminate;
      symmetry; rewrite ?flagged_dset_bad; auto; discriminate.
Qed.

Lemma compare_model_xml_swap (root_a root_b : element) (err : list string)
  (mr : model_result) :
  compare_model_xml root_a root_b = Some (err, mr) ->
  exists err' mr',
    compare_model_xml root_b root_a = Some (err', mr') /\
    has_diffs [] (Some mr') = has_diffs [] (Some mr).
Proof.
  intros H.
  destruct (model_verdict_swap _ _ _ _ H) as (err' & mr' & H' & Hh & Hm & He & Hd).
  exists err', mr'. split; [exact H'|].
  destruct (model_verdict_swap _ _ _ _ H') as (err2 & mr2 & H2 & _ & _ & _ & Hd').
  rewrite H in H2. injection H2 as _ <-.
  unfold has_diffs. cbn [existsb orb]. rewrite Hh, Hm, He.
  destruct (status_eqb (fst (header mr)) ok); cbn [negb orb]; auto.
  destruct (differences (elements mr)) as [|d ds].
  - rewrite Hd by reflexivity.
    now destruct (missing_in_rust (elements mr)), (extra_in_rust (elements mr)).
  - destruct (differences (elements mr')) as [|d' ds'];
      [discriminate Hd'; reflexivity|].
    now destruct (missing_in_rust (elements mr)), (extra_in_rust (elements mr)).
Qed.

Lemma has_diffs_split (fr : file_results) (mo : option model_result) :
  has_diffs fr mo = flagged fr || has_diffs [] mo.
Proof. reflexivity. Qed.

Lemma has_diffs_flagged (fr : file_results) (mo : option model_result) :
  flagged fr = true -> has_diffs fr mo = true.
Proof. intros H. rewrite has_diffs_split. now rewrite H. Qed.

(** Exchanging the two packages keeps the outcome: a run that ends
    normally for one order ends normally for the other, and with the same
    exit code. *)
Theorem main_exit_code_symmetric (dir_a dir_b : directory) (r : run) :
  main unified_diff dir_a dir_b = Some r ->
  exists r',
    main unified_diff dir_b dir_a = Some r' /\
    exit_code r' = exit_code r.
Proof.
  unfold main. intros H.
  destruct (tracked_results unified_diff dir_a dir_b) as [fr0|] eqn:Et; [|discriminate].
  destruct (tracked_results_swap _ _ _ Et) as (fr0' & Et' & Hf0).
  rewrite Et'. cbn [bind] in *.
  pose proof (unexpected_results_swap dir_a dir_b fr0 fr0' Hf0) as Hu.
  revert H Hu.
  generalize (unexpected_results unified_diff dir_a dir_b fr0).
  generalize (unexpected_results unified_diff dir_b dir_a fr0').
  intros fr1' fr1 H Hu. unfold model_stage in *.
  destruct (Py.dget String.eqb "model.xml" dir_a) as [fa|],
           (Py.dget String.eqb "model.xml" dir_b) as [fb|].
  - destruct (xml fa) as [ra|]; [|discriminate].
    destruct (xml fb) as [rb|]; [|discriminate]. cbn [bind] in *.
    destruct (compare_model_xml ra rb) as [[err mr]|] eqn:Em; [|discriminate].
    destruct (compare_model_xml_swap _ _ _ _ Em) as (err' & mr' & Em' & Hm).
    rewrite Em'. cbn [bind fst snd] in *. injection H as <-.
    eexists. split; [reflexivity|]. cbn [exit_code].
    rewrite (has_diffs_split fr1'), (has_diffs_split fr1). now rewrite Hu, Hm.
  - cbn [bind] in *. injection H as <-. eexists. split; [reflexivity|].
    cbn [exit_code].
    now rewrite !has_diffs_flagged by (apply flagged_dset_bad; discriminate).
  - cbn [bind] in *. injection H as <-. eexists. split; [reflexivity|].
    cbn [exit_code].
    now rewrite !has_diffs_flagged by (apply flagged_dset_bad; discriminate).
  - cbn [bind] in *. injection H as <-. eexists. split; [reflexivity|].
    cbn [exit_code].
    now rewrite !has_diffs_flagged by (apply flagged_dset_bad; discriminate).
Qed.
End Exchange.

Lemma main_exit_code_symmetric_witness :
  exists r',
    main no_diff package package_with_script = Some r' /\
    exit_code r' = 1.
Proof.
  destruct (main_exit_code_symmetric no_diff package_with_script package _ eq_refl)
    as (r' & H & He).
  exists r'. split; [exact H|]. rewrite He. reflexivity.
Defined.

(** *** The report of a run without differences *)

Section CleanRun.

Variable unified_diff :
  list string -> list string -> string -> string -> nat -> list string.

Lemma origin_ok_dset (label : string) (v : status * list string)
  (fr : Py.dict string (status * list string)) :
  label <> "Origin.xml" -> origin_ok fr -> origin_ok (Py.dset String.eqb label v fr).
Proof.
  intros Hne H l st ls Hin ->.
  apply (dset_In String.eqb String.eqb_spec) in Hin as [Heq|Hin].
  - injection Heq as <- _. congruence.
  - now apply (H _ _ _ Hin).
Qed.

Lemma origin_ok_record (fname : string) (r : file_result) (fr : file_results) :
  fname <> "Origin.xml" -> origin_ok fr -> origin_ok (record_result fname r fr).
Proof.
  intros Hne H. unfold record_result. destruct (fst r); auto.
  now apply origin_ok_dset.
Qed.

Lemma tracked_results_origin_ok (dir_a dir_b : directory) (fr : file_results) :
  tracked_results unified_diff dir_a dir_b = Some fr -> origin_ok fr.
Proof.
  unfold tracked_results.
  destruct (compare_simple_xml unified_diff dir_a dir_b "DacMetadata.xml") as [r1|];
    [|discriminate].
  destruct (compare_simple_xml unified_diff dir_a dir_b "[Content_Types].xml") as [r2|];
    [|discriminate].
  cbn [bind]. intros [= <-].
  repeat (apply origin_ok_record; [discriminate|]).
  intros l st ls [Heq|[]] _. now injection Heq as _ <- _.
Qed.

Lemma unknown_both_fold_origin_ok (dir_a dir_b : directory) (l : list string)
  (fr : file_results) :
  (forall fname, In fname l -> fname <> "Origin.xml") ->
  origin_ok fr ->
  origin_ok (fold_left (unknown_both_step unified_diff dir_a dir_b) l fr).
Proof.
  revert fr; induction l as [|x l IH]; intros fr Hl H; simpl; auto.
  apply IH; [intros f Hf; apply Hl; now right|].
  unfold unknown_both_step.
  destruct (fst (compare_text_files unified_diff dir_a dir_b x)) as [st|]; auto.
  destruct (negb (status_eqb st ok)); auto.
  apply origin_ok_dset; auto. apply Hl. now left.
Qed.

Lemma unexpected_results_origin_ok (dir_a dir_b : directory) (fr : file_results) :
  origin_ok fr -> origin_ok (unexpected_results unified_diff dir_a dir_b fr).
Proof.
  intros H. unfold unexpected_results. apply unknown_both_fold_origin_ok.
  - intros fname Hin. apply not_known_not_origin.
    apply sorted_in in Hin. now apply (diff_In _ String.eqb_spec) in Hin.
  - destruct (Py.sorted_str (Py.diff String.eqb
                (Py.diff String.eqb (list_files dir_a) (list_files dir_b)) known_files));
      destruct (Py.sorted_str (Py.diff String.eqb
                (Py.diff String.eqb (list_files dir_b) (list_files dir_a)) known_files));
      auto;
      repeat match goal with
             | |- context [if ?c then _ else _] => destruct c
             end;
      repeat (apply origin_ok_dset; [discriminate|]); auto.
Qed.

Lemma unflagged_blocks (fr : Py.dict string (status * list string)) :
  flagged fr = false -> origin_ok fr ->
  flat_map print_file_block fr = flat_map ok_block fr.
Proof.
  induction fr as [|[label [st ls]] fr IH]; intros Hf Ho; [reflexivity|].
  unfold flagged in Hf. cbn [existsb fst snd] in Hf.
  apply orb_false_iff in Hf as [H1 H2].
  cbn [flat_map]. rewrite IH; auto.
  - f_equal. unfold print_file_block, ok_block. cbn [fst].
    assert (Hst : st = ok).
    { destruct (String.eqb_spec label "Origin.xml") as [->|Hne].
      - apply (Ho "Origin.xml" st ls); [now left|reflexivity].
      - cbn [negb andb] in H1. destruct (status_eqb_spec st ok); [auto|discriminate]. }
    subst st. reflexivity.
  - intros l s x Hin. apply (Ho l s x). now right.
Qed.

(** Two indexes with the same keys have the same number of entries. *)
Lemma same_keys_same_length (a b : Py.dict key element) :
  NoDup (Py.dkeys a) -> NoDup (Py.dkeys b) ->
  Py.diff key_eqb (Py.set_of key_eqb (Py.dkeys b)) (Py.set_of key_eqb (Py.dkeys a)) = [] ->
  Py.diff key_eqb (Py.set_of key_eqb (Py.dkeys a)) (Py.set_of key_eqb (Py.dkeys b)) = [] ->
  length a = length b.
Proof.
  intros Ha Hb Hba Hab.
  assert (Hincl : forall x y : Py.dict key element,
             Py.diff key_eqb (Py.set_of key_eqb (Py.dkeys x))
                             (Py.set_of key_eqb (Py.dkeys y)) = [] ->
             incl (Py.dkeys x) (Py.dkeys y)).
  { intros x y E k Hk.
    destruct (in_dec (fun u v => reflect_dec _ _ (key_eqb_spec u v)) k (Py.dkeys y))
      as [|Hn]; auto.
    assert (Hin : In k (Py.diff key_eqb (Py.set_of key_eqb (Py.dkeys x))
                          (Py.set_of key_eqb (Py.dkeys y)))).
    { rewrite (diff_In _ key_eqb_spec), !(set_of_In _ key_eqb_spec). auto. }
    rewrite E in Hin. destruct Hin. }
  rewrite <- (length_map fst a), <- (length_map fst b).
  apply Nat.le_antisymm; apply NoDup_incl_length; auto; now apply Hincl.
Qed.

(** A run that exits with code 0 compared a model document on each side,
    found the same number of elements in both, and its report has for
    every file result the block that reads OK (identical), then the
    report of a model without any difference. *)
Theorem clean_run_report (dir_a dir_b : directory) (r : run) :
  main unified_diff dir_a dir_b = Some r ->
  exit_code r = 0 ->
  exists mr,
    model r = Some mr /\
    total_rust (elements mr) = total_dotnet (elements mr) /\
    print_report (results r) (model r) =
      ["=== Dacpac Comparison Report ==="; ""]
        ++ flat_map ok_block (results r)
        ++ clean_model_report (total_rust (elements mr)).
Proof.
  unfold main. intros H.
  destruct (tracked_results unified_diff dir_a dir_b) as [fr0|] eqn:Et; [|discriminate].
  cbn [bind] in H.
  pose proof (unexpected_results_origin_ok dir_a dir_b fr0
                (tracked_results_origin_ok _ _ _ Et)) as Ho.
  revert H Ho. generalize (unexpected_results unified_diff dir_a dir_b fr0).
  intros fr1 H Ho. unfold model_stage in H.
  destruct (Py.dget String.eqb "model.xml" dir_a) as [fa|],
           (Py.dget String.eqb "model.xml" dir_b) as [fb|].
  2-4: cbn [bind] in H; injection H as <-; cbn [exit_code];
       rewrite has_diffs_split, flagged_dset_bad by discriminate; discriminate.
  destruct (xml fa) as [ra|]; [|discriminate].
  destruct (xml fb) as [rb|]; [|discriminate]. cbn [bind] in H.
  destruct (compare_model_xml ra rb) as [[err mr]|] eqn:Em; [|discriminate].
  cbn [bind fst snd] in H. injection H as <-. cbn [exit_code results model].
  rewrite has_diffs_split.
  destruct (flagged fr1) eqn:Hf; [discriminate|]. cbn [orb].
  destruct (has_diffs [] (Some mr)) eqn:Hm; [discriminate|]. intros _.
  exists mr. split; [reflexivity|].
  unfold has_diffs in Hm. cbn [existsb orb] in Hm.
  apply orb_false_iff in Hm as [Hh Hrest].
  assert (Hh' : fst (header mr) = ok).
  { destruct (status_eqb_spec (fst (header mr)) ok); [auto|discriminate]. }
  destruct (missing_in_rust (elements mr)) as [|? ?] eqn:Emiss; [|discriminate].
  destruct (extra_in_rust (elements mr)) as [|? ?] eqn:Eextra; [|discriminate].
  destruct (differences (elements mr)) as [|? ?] eqn:Ediff; [|discriminate].
  assert (Htot : total_rust (elements mr) = total_dotnet (elements mr)).
  { unfold compare_model_xml in Em.
    destruct (find ra (NS_BRACKET +++ "Model")) as [ma|]; [|discriminate].
    destruct (find rb (NS_BRACKET +++ "Model")) as [mb|]; [|discriminate].
    cbn [bind] in Em.
    pose proof (index_elements_invariant ma) as [Hna _].
    pose proof (index_elements_invariant mb) as [Hnb _].
    destruct (index_elements ma) as [ia da]. destruct (index_elements mb) as [ib db].
    cbn [fst] in Hna, Hnb.
    destruct (compare_indexes ia ib) as [res|] eqn:Ec; [|discriminate].
    cbn [bind] in Em. injection Em as _ <-. cbn [elements] in *.
    unfold compare_indexes in Ec.
    destruct (sorted_keys (Py.diff key_eqb (Py.set_of key_eqb (Py.dkeys ib))
                             (Py.set_of key_eqb (Py.dkeys ia)))) as [missing|] eqn:E1;
      [|discriminate].
    cbn [bind] in Ec.
    destruct (sorted_keys (Py.diff key_eqb (Py.set_of key_eqb (Py.dkeys ia))
                             (Py.set_of key_eqb (Py.dkeys ib)))) as [extra|] eqn:E2;
      [|discriminate].
    cbn [bind] in Ec.
    destruct (sorted_keys (Py.inter key_eqb _ _)) as [common|]; [|discriminate].
    cbn [bind] in Ec.
    destruct (mapM _ common) as [ds|]; [|discriminate]. cbn [bind] in Ec.
    injection Ec as <-. cbn [missing_in_rust extra_in_rust total_rust total_dotnet] in *.
    subst missing extra.
    apply sorted_keys_permutation, Permutation_sym, Permutation_nil in E1.
    apply sorted_keys_permutation, Permutation_sym, Permutation_nil in E2.
    now apply same_keys_same_length. }
  split; [exact Htot|].
  unfold print_report. rewrite (unflagged_blocks fr1 Hf Ho).
  do 2 f_equal. unfold print_model, clean_model_report.
  destruct (header mr) as [hs hl]. cbn [fst] in Hh'. subst hs.
  rewrite Emiss, Eextra, Ediff, <- Htot. reflexivity.
Qed.
End CleanRun.

Lemma clean_run_report_witness :
  exists r mr,
    main no_diff package package = Some r /\
    model r = Some mr /\
    total_rust (elements mr) = total_dotnet (elements mr).
Proof.
  destruct (clean_run_report no_diff package package _ eq_refl eq_refl)
    as (mr & Hm & Ht & _).
  eexists. exists mr. split; [reflexivity|]. split; [exact Hm|exact Ht].
Defined.

(** ** The relationship loop inside [diff_element] (C6) *)

Lemma all_names_once {V} (a b : Py.dict (option string) V)
  (names : list (option string)) (name : option string) :
  all_names a b = Some names ->
  In name (Py.dkeys a) \/ In name (Py.dkeys b) ->
  exists before after,
    names = before ++ name :: after /\ ~ In name before /\ ~ In name after.
Proof.
  unfold all_names. intros H Hin.
  apply sorted_partial_permutation in H.
  assert (Hnd : NoDup names).
  { eapply Permutation_NoDup; [exact H|].
    apply union_NoDup, set_of_NoDup; apply ostr_eqb_spec. }
  assert (Hname : In name names).
  { eapply Permutation_in; [exact H|].
    rewrite (union_In _ ostr_eqb_spec), !(set_of_In _ ostr_eqb_spec). exact Hin. }
  apply in_split in Hname as (before & after & ->).
  exists before, after. split; [reflexivity|].
  apply NoDup_remove_2 in Hnd. rewrite in_app_iff in Hnd. tauto.
Qed.

Lemma exclusive_singleton {A} (l : list A) (x : A) :
  NoDup l -> (forall s, In s l <-> s = x) -> l = [x].
Proof.
  intros Hnd H. destruct l as [|y [|z l]].
  - destruct (proj2 (H x) eq_refl).
  - f_equal. apply H. now left.
  - assert (Hy : y = x) by (apply H; now left).
    assert (Hz : z = x) by (apply H; right; now left).
    subst. inversion Hnd as [|? ? Hnotin _]. destruct Hnotin. now left.
Qed.

(** C6: when a relationship name is present on both elements and
    [diff_element] completes, its result is the lines of the properties,
    the lines of the relationship names sorted before that name, what
    the name itself emits, the lines of the names sorted after it, and
    the lines of the annotations; the name is visited once.  What the
    name emits depends only on the two sets of string forms of its
    entries: with [only_rust] and [only_dotnet] the duplicate-free lists
    of the string forms exclusive to each side, it is nothing when the
    same string forms occur on both sides, in any order and with any
    multiplicity, and exactly one entry carrying the two lengths when
    they do not. *)
Theorem relationship_entries_compared_as_sets
  (elem_a elem_b : element) (name : option string) (diffs : list string) :
  let rels_a := get_relationships elem_a in
  let rels_b := get_relationships elem_b in
  let strs_a := map str_entry (rel_get rels_a name) in
  let strs_b := map str_entry (rel_get rels_b name) in
  Py.dmem ostr_eqb name rels_a = true ->
  Py.dmem ostr_eqb name rels_b = true ->
  diff_element elem_a elem_b = Some diffs ->
  exists (only_rust only_dotnet emitted prop_diffs : list string)
         (names_before names_after : list (option string))
         (anns_a anns_b : list annotation),
    NoDup only_rust /\ NoDup only_dotnet /\
    (forall s, In s only_rust <-> In s strs_a /\ ~ In s strs_b) /\
    (forall s, In s only_dotnet <-> In s strs_b /\ ~ In s strs_a) /\
    diff_properties (get_properties elem_a) (get_properties elem_b) = Some prop_diffs /\
    all_names rels_a rels_b = Some (names_before ++ name :: names_after) /\
    ~ In name names_before /\ ~ In name names_after /\
    get_annotations elem_a = Some anns_a /\
    get_annotations elem_b = Some anns_b /\
    diffs = prop_diffs
              ++ flat_map (relationship_diff rels_a rels_b) names_before
              ++ emitted
              ++ flat_map (relationship_diff rels_a rels_b) names_after
              ++ diff_annotations anns_a anns_b /\
    emitted =
      match only_rust, only_dotnet with
      | [], [] => []
      | _, _ => [relationship_line name (length only_dotnet) (length only_rust)]
      end /\
    ((forall s, In s strs_a <-> In s strs_b) -> emitted = []) /\
    (Permutation (rel_get rels_a name) (rel_get rels_b name) -> emitted = []) /\
    (~ (forall s, In s strs_a <-> In s strs_b) ->
       emitted = [relationship_line name (length only_dotnet) (length only_rust)]).
Proof.
  intros rels_a rels_b strs_a strs_b Ha Hb H.
  unfold diff_element in H.
  destruct (diff_properties (get_properties elem_a) (get_properties elem_b))
    as [prop_diffs|] eqn:Ep; [|discriminate].
  cbn [bind] in H. fold rels_a rels_b in H. unfold diff_relationships in H.
  destruct (all_names rels_a rels_b) as [names|] eqn:En; [|discriminate].
  cbn [bind] in H.
  destruct (get_annotations elem_a) as [anns_a|]; [|discriminate].
  destruct (get_annotations elem_b) as [anns_b|]; [|discriminate].
  cbn [bind] in H. injection H as <-.
  destruct (all_names_once rels_a rels_b names name En)
    as (before & after & -> & Hbefore & Hafter).
  { left. now apply (dmem_keys ostr_eqb ostr_eqb_spec). }
  destruct (relationship_diff_sets rels_a rels_b name Ha Hb)
    as (only_rust & only_dotnet & Hnr & Hnd & Hr & Hd & Heq & Hsame & Hperm & Hdiff).
  exists only_rust, only_dotnet, (relationship_diff rels_a rels_b name),
         prop_diffs, before, after, anns_a, anns_b.
  repeat match goal with |- _ /\ _ => split end; auto.
  rewrite flat_map_app. cbn [flat_map]. now rewrite <- !app_assoc.
Qed.

(** Three identical entries against one: nothing is reported.  A changed
    entry among three against two: one entry, with one string form
    exclusive to each side. *)
Lemma relationship_entries_compared_as_sets_witness :
  diff_element three_same one_only = Some [] /\
  exists only_rust only_dotnet : list string,
    only_rust = ["('ref', '[dbo].[T].[b]')"] /\
    only_dotnet = ["('ref', '[dbo].[T].[c]')"] /\
    diff_element two_and_one other_two =
      Some [relationship_line (Some "Columns") (length only_dotnet) (length only_rust)].
Proof.
  split; [reflexivity|].
  destruct (relationship_entries_compared_as_sets two_and_one other_two
              (Some "Columns") _ eq_refl eq_refl eq_refl)
    as (only_rust & only_dotnet & emitted & prop_diffs & names_before & names_after
        & anns_a & anns_b & Hnr & Hnd & Hr & Hd & _).
  exists only_rust, only_dotnet.
  assert (Er : only_rust = ["('ref', '[dbo].[T].[b]')"]).
  { apply exclusive_singleton; [exact Hnr|]. intros s. rewrite Hr.
    vm_compute. split.
    - intros [[H|[H|[H|[]]]] Hn]; auto; destruct Hn; rewrite <- H; auto.
    - intros ->. split; [auto|]. intros [H|[H|[]]]; discriminate. }
  assert (Ed : only_dotnet = ["('ref', '[dbo].[T].[c]')"]).
  { apply exclusive_singleton; [exact Hnd|]. intros s. rewrite Hd.
    vm_compute. split.
    - intros [[H|[H|[]]] Hn]; auto; destruct Hn; rewrite <- H; auto.
    - intros ->. split; [auto|]. intros [H|[H|[H|[]]]]; discriminate. }
  split; [exact Er|]. split; [exact Ed|]. rewrite Er, Ed. reflexivity.
Defined.
